(** * TonyAPI: acquisition, directory search and relay

    A shallow embedding of [utils/downloader.py] and of the core classes of
    [main.py].  Python coroutines become functions in a state-and-exception
    monad; the external collaborators (yt-dlp, ffmpeg, the Telegram HTTP API,
    [tempfile]) are oracles indexed by the number of external calls made so
    far, so that every sequence of outcomes can be scripted.  Every external
    effect is appended to a trace, which is what the temporal statements at
    the end of the file talk about. *)

From Stdlib Require Import ZArith String Ascii List Lia Bool.
From stdpp Require Import base option gmap strings list fin_maps pretty.

Import ListNotations.
Local Open Scope string_scope.
Local Open Scope Z_scope.

(** ** Python strings *)

Module Str.

Definition ascii_lower (c : ascii) : ascii :=
  let n := N_of_ascii c in
  if ((65 <=? n) && (n <=? 90))%N then ascii_of_N (n + 32) else c.

Definition ascii_upper (c : ascii) : ascii :=
  let n := N_of_ascii c in
  if ((97 <=? n) && (n <=? 122))%N then ascii_of_N (n - 32) else c.

Definition is_alpha (c : ascii) : bool :=
  let n := N_of_ascii c in
  (((65 <=? n) && (n <=? 90)) || ((97 <=? n) && (n <=? 122)))%N.

(** [s.lower()] for a string of ASCII characters: the letters A to Z are
    lower-cased and every other byte is kept. Python also lower-cases the
    letters outside ASCII; a statement that depends on the result for such
    a string says that its string is ASCII. *)
Fixpoint lower (s : string) : string :=
  match s with
  | EmptyString => EmptyString
  | String c s' => String (ascii_lower c) (lower s')
  end.

(** The string holds ASCII characters only. *)
Fixpoint is_ascii (s : string) : bool :=
  match s with
  | EmptyString => true
  | String c s' => (N_of_ascii c <? 128)%N && is_ascii s'
  end.

(** [s.title()]: the first letter of every run of letters is upper-cased,
    the others lower-cased. *)
Fixpoint title_from (in_word : bool) (s : string) : string :=
  match s with
  | EmptyString => EmptyString
  | String c s' =>
      if is_alpha c
      then String (if in_word then ascii_lower c else ascii_upper c) (title_from true s')
      else String c (title_from false s')
  end.

Definition title (s : string) : string := title_from false s.

(** [sub in s]. *)
Fixpoint contains (sub s : string) : bool :=
  if String.prefix sub s then true
  else match s with
       | EmptyString => false
       | String _ s' => contains sub s'
       end.

(** [s.endswith(suffix)]. *)
Definition endswith (s suffix : string) : bool :=
  let n := String.length s in
  let k := String.length suffix in
  (k <=? n)%nat && String.eqb (String.substring (n - k) k s) suffix.

(** [s.startswith(p)]. *)
Definition startswith (s p : string) : bool := String.prefix p s.

(** [s.rstrip("/")] *)
Fixpoint rstrip_slash (s : string) : string :=
  match s with
  | EmptyString => EmptyString
  | String c s' =>
      match rstrip_slash s' with
      | EmptyString => if Ascii.eqb c "/" then EmptyString else String c EmptyString
      | r => String c r
      end
  end.

(** [s.rfind(c)], as an option. *)
Fixpoint rfind_from (i : nat) (c : ascii) (s : string) : option nat :=
  match s with
  | EmptyString => None
  | String a s' =>
      match rfind_from (S i) c s' with
      | Some j => Some j
      | None => if Ascii.eqb a c then Some i else None
      end
  end.

Definition rfind (c : ascii) (s : string) : option nat := rfind_from 0 c s.

(** Python truthiness of a string. *)
Definition truthy (s : string) : bool := negb (String.eqb s "").

(** Membership of a string in a list literal: [x in [a, b, c]]. *)
Definition in_list (x : string) (l : list string) : bool :=
  existsb (String.eqb x) l.

End Str.

(** ** [os.path] *)

Module OsPath.

(** [os.path.join(a, b)] on POSIX, for two components. *)
Definition join (a b : string) : string :=
  if Str.startswith b "/" then b
  else if String.eqb a "" || Str.endswith a "/" then a ++ b
  else a ++ "/" ++ b.

(** The scan of [genericpath._splitext]: is there a character other than a
    dot in positions [from .. from + fuel - 1] of [p]? *)
Fixpoint has_non_dot (p : string) (from fuel : nat) : bool :=
  match fuel with
  | O => false
  | S fuel' =>
      match String.get from p with
      | Some c => if Ascii.eqb c "." then has_non_dot p (S from) fuel' else true
      | None => false
      end
  end.

(** [os.path.splitext(p)]. *)
Definition splitext (p : string) : string * string :=
  match Str.rfind "." p with
  | None => (p, "")
  | Some dot =>
      let name_start := match Str.rfind "/" p with Some sep => S sep | None => O end in
      if (name_start <=? dot)%nat && has_non_dot p name_start (dot - name_start)
      then (String.substring 0 dot p, String.substring dot (String.length p - dot) p)
      else (p, "")
  end.

(** The loop of [posixpath.basename]: the text after the last slash. *)
Definition basename (p : string) : string :=
  match Str.rfind "/" p with
  | Some sep => String.substring (S sep) (String.length p - S sep) p
  | None => p
  end.

End OsPath.

(** ** Exceptions, results and the effect monad *)

Inductive PyExn : Type :=
  | ValueError (msg : string)
  | RuntimeError (msg : string)
  | KeyError (key : string)
  | ZeroDivisionError
  | OSError (msg : string)
  | TimeoutError
  | DownloadError (msg : string)
  | ClientError (msg : string)
  | HTTPException (status_code : Z) (detail : string).

(** [str(e)]. *)
Definition exn_str (e : PyExn) : string :=
  match e with
  | ValueError m | RuntimeError m | OSError m | DownloadError m | ClientError m => m
  | KeyError k => "'" ++ k ++ "'"
  | ZeroDivisionError => "division by zero"
  | TimeoutError => ""
  | HTTPException code detail => pretty code ++ ": " ++ detail
  end.

Inductive Res (A : Type) : Type :=
  | Ok (a : A)
  | Raise (e : PyExn).

Arguments Ok {A} a.
Arguments Raise {A} e.

(** A computation over a state [S] that returns or raises. *)
Definition Eff (S A : Type) : Type := S -> Res A * S.

Definition ret {S A} (a : A) : Eff S A := fun s => (Ok a, s).

Definition raise {S A} (e : PyExn) : Eff S A := fun s => (Raise e, s).

Definition bind {S A B} (m : Eff S A) (k : A -> Eff S B) : Eff S B :=
  fun s =>
    match m s with
    | (Ok a, s') => k a s'
    | (Raise e, s') => (Raise e, s')
    end.

(** [try: m  except Exception as e: h e]: the state changes made before the
    exception stay. *)
Definition try_except {S A} (m : Eff S A) (h : PyExn -> Eff S A) : Eff S A :=
  fun s =>
    match m s with
    | (Ok a, s') => (Ok a, s')
    | (Raise e, s') => h e s'
    end.

Definition get_state {S} : Eff S S := fun s => (Ok s, s).

Definition modify {S} (f : S -> S) : Eff S unit := fun s => (Ok tt, f s).

Declare Scope eff_scope.
Delimit Scope eff_scope with eff.

Notation "'let*' x ':=' m 'in' k" :=
  (bind m (fun x => k))
  (at level 10, x pattern, m at level 100, k at level 200) : eff_scope.

Notation "m ';;' k" :=
  (bind m (fun _ => k))
  (at level 100, k at level 200, right associativity) : eff_scope.

Local Open Scope eff_scope.

(** [d[key]] on an optional field of a JSON object: [KeyError] when absent. *)
Definition subscript {S A} (key : string) (o : option A) : Eff S A :=
  match o with
  | Some a => ret a
  | None => raise (KeyError key)
  end.

(** ** Python values built by the program *)

#[warnings="-register-all"]
Inductive Value : Type :=
  | VNone
  | VStr (s : string)
  | VInt (z : Z)
  | VBool (b : bool)
  | VRatio (num den : Z)          (* the float [num / den] *)
  | VDict (d : list (string * Value)).

(** A dict, in insertion order. *)
Abbreviation Dict := (list (string * Value)).

Fixpoint dict_get (k : string) (d : Dict) : option Value :=
  match d with
  | [] => None
  | (k', v) :: d' => if String.eqb k k' then Some v else dict_get k d'
  end.

(** [d[k] = v]. *)
Fixpoint dict_set (k : string) (v : Value) (d : Dict) : Dict :=
  match d with
  | [] => [(k, v)]
  | (k', v') :: d' =>
      if String.eqb k k' then (k, v) :: d' else (k', v') :: dict_set k v d'
  end.

(** [d.get(k, default)]. *)
Definition dict_get_default (k : string) (d : Dict) (default : Value) : Value :=
  match dict_get k d with Some v => v | None => default end.

(** [k in d]. *)
Definition dict_has (k : string) (d : Dict) : bool :=
  match dict_get k d with Some _ => true | None => false end.

(** [d.get(k) == s] for a string [s]. *)
Definition dict_str_is (k : string) (d : Dict) (s : string) : bool :=
  match dict_get k d with
  | Some (VStr s') => String.eqb s' s
  | _ => false
  end.

(** Python truthiness of a dict. *)
Definition dict_truthy (d : Dict) : bool :=
  match d with [] => false | _ => true end.

(** ** The world outside the process *)

(** Options handed to yt-dlp by [_build_base_opts]. *)
Record YdlOpts : Type := mkYdlOpts {
  outtmpl : string;
  quiet : bool;
  no_warnings : bool;
  noplaylist : bool;
  geo_bypass : bool;
  nocheckcertificate : bool;
  socket_timeout : Z;
  user_agent : string;
  format : option string;
  merge_output_format : option string;
  cookiefile : option string
}.

(** What one run of [ydl.download([url])] did: it may have written the
    output file (with the given size) and it may have raised. *)
Record YdlOutcome : Type := mkYdlOutcome {
  ydl_wrote : option Z;
  ydl_error : option string
}.

(** What one ffmpeg subprocess did. [ff_spawn_error] is an exception of
    [create_subprocess_exec] or [communicate]. *)
Record FfmpegOutcome : Type := mkFfmpegOutcome {
  ff_spawn_error : option string;
  ff_returncode : Z;
  ff_wrote : option Z
}.

(** The media objects and messages of the Telegram Bot API, as the code
    reads them. An absent JSON key is [None]. *)
Record Media : Type := mkMedia {
  file_id : option string;
  file_size : option Z;
  duration : option Z;
  mime_type : option string;
  title : option string;
  file_name : option string
}.

Record Message : Type := mkMessage {
  message_id : option Z;
  caption : option string;
  text : option string;
  audio : option Media;
  document : option Media;
  video : option Media
}.

(** The answer to an HTTP request whose JSON body is [{ok, result}]. *)
Inductive HttpReply (A : Type) : Type :=
  | HttpRaises (e : PyExn)                       (* the request or [json()] raised *)
  | HttpResponse (status : Z) (ok : bool) (result : A).

Arguments HttpRaises {A} e.
Arguments HttpResponse {A} status ok result.

Inductive Event : Type :=
  | EvSleep (delay : Z)
  | EvYdl (attempt_no retry_no : nat) (opts : YdlOpts) (url : string) (out : YdlOutcome)
  | EvFfmpeg (cmd : list string) (out : FfmpegOutcome)
  | EvMkstemp (path : string)
  | EvRemove (path : string)
  | EvRename (src dst : string)
  | EvGetChatHistory (offset_id : option Z) (reply : HttpReply (list Message))
  | EvGetFile (fid : string) (reply : HttpReply (option string))
  | EvPost (api_method : string) (path : string) (size : Z) (reply : HttpReply (option Message))
  | EvEnter (function : string) (arg : string).

(** The external collaborators. The first argument of each is the number
    of external calls made before this one. *)
Record Collaborators : Type := mkCollaborators {
  yt_dlp : nat -> YdlOpts -> string -> YdlOutcome;
  ffmpeg : nat -> list string -> FfmpegOutcome;
  mkstemp : nat -> string -> option string;
  getChatHistory : nat -> option Z -> HttpReply (list Message);
  getFile : nat -> string -> HttpReply (option string);
  post : nat -> string -> string -> Z -> HttpReply (option Message);
  latency : nat -> Z
}.

(** The file system (path to size), the clock read by [time.time()], the
    count of external calls and the trace of effects. *)
Record Ext : Type := mkExt {
  files : gmap string Z;
  clock : Z;
  ticks : nat;
  trace : list Event
}.

Definition set_files (f : gmap string Z -> gmap string Z) (x : Ext) : Ext :=
  mkExt (f (files x)) (clock x) (ticks x) (trace x).

Definition log (e : Event) (x : Ext) : Ext :=
  mkExt (files x) (clock x) (ticks x) (trace x ++ [e]).

(** One external call completed: it took [dt]. *)
Definition tick (dt : Z) (x : Ext) : Ext :=
  mkExt (files x) (clock x + dt) (S (ticks x)) (trace x).

(** Writing [size] bytes to [path], or nothing. *)
Definition write_file (path : string) (wrote : option Z) (fs : gmap string Z) : gmap string Z :=
  match wrote with
  | Some size => <[path := size]> fs
  | None => fs
  end.

Module Os.

Definition path_exists (path : string) : Eff Ext bool :=
  fun x => (Ok (bool_decide (is_Some (files x !! path))), x).

Definition path_getsize (path : string) : Eff Ext Z :=
  fun x =>
    match files x !! path with
    | Some n => (Ok n, x)
    | None => (Raise (OSError "No such file or directory"), x)
    end.

Definition remove (path : string) : Eff Ext unit :=
  fun x =>
    match files x !! path with
    | Some _ => (Ok tt, log (EvRemove path) (set_files (delete path) x))
    | None => (Raise (OSError "No such file or directory"), x)
    end.

Definition rename (src dst : string) : Eff Ext unit :=
  fun x =>
    match files x !! src with
    | Some n => (Ok tt, log (EvRename src dst) (set_files (fun fs => <[dst := n]> (delete src fs)) x))
    | None => (Raise (OSError "No such file or directory"), x)
    end.

(** [open(path, 'rb')]. *)
Definition open_rb (path : string) : Eff Ext unit :=
  fun x =>
    match files x !! path with
    | Some _ => (Ok tt, x)
    | None => (Raise (OSError "No such file or directory"), x)
    end.

End Os.

(** [time.time()]. *)
Definition time_time : Eff Ext Z := fun x => (Ok (clock x), x).

(** [await asyncio.sleep(delay)]. *)
Definition asyncio_sleep (delay : Z) : Eff Ext unit :=
  fun x => (Ok tt, log (EvSleep delay) (mkExt (files x) (clock x + delay) (ticks x) (trace x))).

(** [enumerate(l)]. *)
Fixpoint enumerate_from {A} (i : nat) (l : list A) : list (nat * A) :=
  match l with
  | [] => []
  | a :: l' => (i, a) :: enumerate_from (S i) l'
  end.

Definition enumerate {A} (l : list A) : list (nat * A) := enumerate_from 0 l.

(** How the body of a [for] loop inside a function ended. *)
Inductive LoopCtl (A : Type) : Type :=
  | Return (a : A)
  | Break
  | Continue.

Arguments Return {A} a.
Arguments Break {A}.
Arguments Continue {A}.

(** ** utils/downloader.py *)

Module Downloader.

Definition DOWNLOAD_FOLDER : string := "downloads".
Definition COOKIE_FILE : string := "cookies/cookie.txt".

(** The [extra] dict of [_build_base_opts]: the code passes a format and,
    for video, a merge container. *)
Record Extra : Type := mkExtra {
  extra_format : string;
  extra_merge_output_format : option string
}.

Definition _build_base_opts (outtmpl : string) (extra : option Extra) : Eff Ext YdlOpts :=
  let* has_cookie := Os.path_exists COOKIE_FILE in
  ret {| outtmpl := outtmpl;
         quiet := true;
         no_warnings := true;
         noplaylist := true;
         geo_bypass := true;
         nocheckcertificate := true;
         socket_timeout := 30;
         user_agent := "Mozilla/5.0 (Windows NT 10.0; Win64; x64) AppleWebKit/537.36 "
                       ++ "(KHTML, like Gecko) Chrome/120.0.0.0 Safari/537.36";
         format := extra_format <$> extra;
         merge_output_format := extra ≫= extra_merge_output_format;
         cookiefile := if has_cookie then Some COOKIE_FILE else None |}.

Definition backoff : list Z := [0; 1; 2; 4].

(** The test of line 71 on the lower-cased message; [and] binds tighter
    than [or]. *)
Definition format_or_rate_limited (err : string) : bool :=
  Str.contains "requested format is not available" err
  || (Str.contains "unable to download webpage" err && Str.contains "429" err).

Definition format_unavailable (err : string) : bool :=
  Str.contains "requested format is not available" err.

Section WithCollaborators.

Variable E : Collaborators.

(** [await _run_ydl(opts, url)]. The two loop indices are only recorded in
    the trace. *)
Definition _run_ydl (attempt_no retry_no : nat) (opts : YdlOpts) (url : string) : Eff Ext unit :=
  fun x =>
    let out := yt_dlp E (ticks x) opts url in
    let x' := log (EvYdl attempt_no retry_no opts url out)
                (tick (latency E (ticks x))
                   (set_files (write_file (outtmpl opts) (ydl_wrote out)) x)) in
    match ydl_error out with
    | Some msg => (Raise (DownloadError msg), x')
    | None => (Ok tt, x')
    end.

(** The body of the inner loop, lines 63 to 76. *)
Definition retry_body (attempt_no : nat) (base_opts : YdlOpts) (url file_path : string)
    (retry_no : nat) (delay : Z) : Eff Ext (LoopCtl string) :=
  (if bool_decide (delay = 0) then ret tt else asyncio_sleep delay) ;;
  try_except
    (_run_ydl attempt_no retry_no base_opts url ;;
     let* found := Os.path_exists file_path in
     if found then ret (Return file_path) else ret Continue)
    (fun e =>
       let err := Str.lower (exn_str e) in
       let after_test : Eff Ext (LoopCtl string) :=
         if (retry_no =? length backoff - 1)%nat then ret Break else ret Continue in
       if format_or_rate_limited err
       then if format_unavailable err then ret Break else after_test
       else after_test).

(** [for retry_no, delay in enumerate(backoff)]: [None] when the loop ended
    without returning. *)
Fixpoint retry_loop (attempt_no : nat) (base_opts : YdlOpts) (url file_path : string)
    (sched : list (nat * Z)) : Eff Ext (option string) :=
  match sched with
  | [] => ret None
  | (retry_no, delay) :: sched' =>
      let* c := retry_body attempt_no base_opts url file_path retry_no delay in
      match c with
      | Return p => ret (Some p)
      | Break => ret None
      | Continue => retry_loop attempt_no base_opts url file_path sched'
      end
  end.

(** [for attempt_no, base_opts in enumerate(tries)], then line 77. *)
Fixpoint tries_loop (url file_path : string) (tries : list (nat * YdlOpts)) : Eff Ext string :=
  match tries with
  | [] => raise (RuntimeError "attempts failed")
  | (attempt_no, base_opts) :: tries' =>
      let* r := retry_loop attempt_no base_opts url file_path (enumerate backoff) in
      match r with
      | Some p => ret p
      | None => tries_loop url file_path tries'
      end
  end.

Definition audio_tries (file_path : string) : Eff Ext (list YdlOpts) :=
  let* t0 := _build_base_opts file_path (Some (mkExtra "bestaudio[abr<=128]/bestaudio" None)) in
  let* t1 := _build_base_opts file_path (Some (mkExtra "bestaudio/best" None)) in
  let* t2 := _build_base_opts file_path (Some (mkExtra "worstaudio/worst" None)) in
  ret [t0; t1; t2].

Definition video_tries (file_path : string) : Eff Ext (list YdlOpts) :=
  let* t0 := _build_base_opts file_path
               (Some (mkExtra "bestvideo[height<=720]+bestaudio/best" (Some "mp4"))) in
  let* t1 := _build_base_opts file_path (Some (mkExtra "bestvideo+bestaudio/best" (Some "mp4"))) in
  let* t2 := _build_base_opts file_path
               (Some (mkExtra "worstvideo/worst+bestaudio/worst" (Some "mp4"))) in
  ret [t0; t1; t2].

Definition video_url (video_id : string) : string :=
  "https://www.youtube.com/watch?v=" ++ video_id.

(** The canonical path of an artifact. *)
Definition audio_path (video_id : string) : string :=
  OsPath.join DOWNLOAD_FOLDER (video_id ++ ".webm").

Definition video_path (video_id : string) : string :=
  OsPath.join DOWNLOAD_FOLDER (video_id ++ ".mp4").

Definition download (video_id type_ : string) : Eff Ext string :=
  let url := video_url video_id in
  if String.eqb type_ "audio" then
    let file_path := audio_path video_id in
    let* found := Os.path_exists file_path in
    if found then ret file_path
    else
      let* tries := audio_tries file_path in
      tries_loop url file_path (enumerate tries)
  else if String.eqb type_ "video" then
    let file_path := video_path video_id in
    let* found := Os.path_exists file_path in
    if found then ret file_path
    else
      let* tries := video_tries file_path in
      tries_loop url file_path (enumerate tries)
  else raise (ValueError "Invalid type").

End WithCollaborators.

End Downloader.

(** ** main.py: configuration *)

(** The values read from the environment, with the defaults of the source. *)
Record Config : Type := mkConfig {
  API_KEY : string;
  TELEGRAM_BOT_TOKEN : string;
  TELEGRAM_DB_CHANNEL : string;
  TELEGRAM_UPLOAD_CHANNEL : string
}.

Definition default_config : Config :=
  {| API_KEY := "Shadow";
     TELEGRAM_BOT_TOKEN := "7628021522:AAHTOaNUwriDHV9XqIsYj7fTd-AbKh-Tkec";
     TELEGRAM_DB_CHANNEL := "@shizuku_db";
     TELEGRAM_UPLOAD_CHANNEL := "@shizuku_db" |}.

Definition DOWNLOAD_FOLDER : string := "downloads".
Definition CACHE_TTL : Z := 3600.
Definition TELEGRAM_FILE_LIMIT : Z := 50 * 1024 * 1024.
Definition TELEGRAM_VIDEO_LIMIT : Z := 50 * 1024 * 1024.

(** ** main.py: MediaCompressor *)

Module MediaCompressor.

Section WithCollaborators.

Variable E : Collaborators.

(** [create_subprocess_exec] on [cmd] followed by [communicate()]: the return
    code. The subprocess writes [output_path] or leaves it alone. *)
Definition run_ffmpeg (cmd : list string) (output_path : string) : Eff Ext Z :=
  fun x =>
    let out := ffmpeg E (ticks x) cmd in
    let x' := tick (latency E (ticks x)) x in
    match ff_spawn_error out with
    | Some msg => (Raise (OSError msg), log (EvFfmpeg cmd out) x')
    | None =>
        (Ok (ff_returncode out),
         log (EvFfmpeg cmd out) (set_files (write_file output_path (ff_wrote out)) x'))
    end.

(** The log line of a successful compression computes
    [(1 - compressed_size / original_size) * 100]. *)
Definition log_compression (input_path output_path : string) : Eff Ext unit :=
  let* original_size := Os.path_getsize input_path in
  let* compressed_size := Os.path_getsize output_path in
  if original_size =? 0 then raise ZeroDivisionError else ret tt.

Definition compress_audio (input_path output_path target_bitrate : string) : Eff Ext bool :=
  try_except
    (let cmd := ["ffmpeg"; "-i"; input_path; "-b:a"; target_bitrate; "-vn"; "-y"; output_path] in
     let* returncode := run_ffmpeg cmd output_path in
     let* written := Os.path_exists output_path in
     if (returncode =? 0) && written
     then log_compression input_path output_path ;; ret true
     else ret false)
    (fun _ => ret false).

Definition compress_video (input_path output_path video_bitrate audio_bitrate scale : string)
    : Eff Ext bool :=
  try_except
    (let cmd := ["ffmpeg"; "-i"; input_path; "-c:v"; "libx264"; "-b:v"; video_bitrate;
                 "-c:a"; "aac"; "-b:a"; audio_bitrate;
                 "-vf"; "scale=" ++ scale ++ ":flags=lanczos";
                 "-preset"; "medium"; "-crf"; "23"; "-y"; output_path] in
     let* returncode := run_ffmpeg cmd output_path in
     let* written := Os.path_exists output_path in
     if (returncode =? 0) && written
     then log_compression input_path output_path ;; ret true
     else ret false)
    (fun _ => ret false).

Definition convert_to_webm (input_path output_path : string) : Eff Ext bool :=
  try_except
    (let cmd := ["ffmpeg"; "-i"; input_path; "-c:v"; "libvpx-vp9"; "-b:v"; "1M";
                 "-c:a"; "libopus"; "-b:a"; "128k"; "-f"; "webm"; "-y"; output_path] in
     let* returncode := run_ffmpeg cmd output_path in
     let* written := Os.path_exists output_path in
     ret ((returncode =? 0) && written))
    (fun _ => ret false).

End WithCollaborators.

End MediaCompressor.

(** ** main.py: TelegramUploader *)

Module TelegramUploader.

Record t : Type := mk {
  bot_token : string;
  upload_channel : string
}.

Definition base_url (self : t) : string :=
  "https://api.telegram.org/bot" ++ bot_token self.

Definition or_default {A} (o : option A) (d : A) : A :=
  match o with Some a => a | None => d end.

(** [_extract_uploaded_file_info]; every exception gives [{}]. *)
Definition _extract_uploaded_file_info (message : Message) (media_type : string) : Dict :=
  match (if String.eqb media_type "audio" then audio message else None) with
  | Some a =>
      match file_id a with
      | Some fid =>
          [("file_id", VStr fid);
           ("file_size", VInt (or_default (file_size a) 0));
           ("duration", VInt (or_default (duration a) 0));
           ("mime_type", VStr (or_default (mime_type a) "audio/mpeg"));
           ("title", VStr (or_default (title a) ""));
           ("media_type", VStr "audio")]
      | None => []
      end
  | None =>
      match (if String.eqb media_type "video" then video message else None) with
      | Some v =>
          match file_id v with
          | Some fid =>
              [("file_id", VStr fid);
               ("file_size", VInt (or_default (file_size v) 0));
               ("duration", VInt (or_default (duration v) 0));
               ("mime_type", VStr (or_default (mime_type v) "video/mp4"));
               ("media_type", VStr "video")]
          | None => []
          end
      | None =>
          match document message with
          | Some d =>
              match file_id d with
              | Some fid =>
                  [("file_id", VStr fid);
                   ("file_size", VInt (or_default (file_size d) 0));
                   ("mime_type", VStr (or_default (mime_type d) ""));
                   ("file_name", VStr (or_default (file_name d) ""));
                   ("media_type", VStr "document")]
              | None => []
              end
          | None => []
          end
      end
  end.

Section WithCollaborators.

Variable E : Collaborators.

(** [tempfile.NamedTemporaryFile(delete=False, suffix=suffix)], closed at
    once: an empty file under a name chosen by the system. *)
Definition named_temporary_file (suffix : string) : Eff Ext string :=
  fun x =>
    let x' := tick (latency E (ticks x)) x in
    match mkstemp E (ticks x) suffix with
    | Some path => (Ok path, log (EvMkstemp path) (set_files (insert path 0) x'))
    | None => (Raise (OSError "No usable temporary file name found"), x')
    end.

(** [for bitrate in bitrates: success = compress(bitrate); if success and
    getsize(temp_path) <= file_limit: break], from the value [success] had
    before the loop to the value it has after. *)
Fixpoint bitrate_loop (compress : string -> Eff Ext bool) (temp_path : string) (file_limit : Z)
    (bitrates : list string) (success : bool) : Eff Ext bool :=
  match bitrates with
  | [] => ret success
  | bitrate :: bitrates' =>
      let* success := compress bitrate in
      if success then
        let* size := Os.path_getsize temp_path in
        if size <=? file_limit then ret success
        else bitrate_loop compress temp_path file_limit bitrates' success
      else bitrate_loop compress temp_path file_limit bitrates' success
  end.

Definition _compress_if_needed (self : t) (file_path media_type : string) (file_size : Z)
    : Eff Ext string :=
  try_except
    (let file_ext := Str.lower (snd (OsPath.splitext file_path)) in
     let file_limit :=
       if String.eqb media_type "video" then TELEGRAM_VIDEO_LIMIT else TELEGRAM_FILE_LIMIT in
     if file_size <=? file_limit then ret file_path
     else
       let* temp_path := named_temporary_file file_ext in
       let success := false in
       let* success :=
         if String.eqb media_type "audio" then
           bitrate_loop (MediaCompressor.compress_audio E file_path temp_path)
             temp_path file_limit ["128k"; "96k"; "64k"] success
         else if String.eqb media_type "video" then
           let webm_path := temp_path ++ ".webm" in
           let* converted := MediaCompressor.convert_to_webm E file_path webm_path in
           let* success :=
             if converted then
               let* size := Os.path_getsize webm_path in
               if size <=? file_limit
               then Os.rename webm_path temp_path ;; ret true
               else Os.remove webm_path ;; ret success
             else ret success in
           if negb success then
             bitrate_loop
               (fun v_bitrate =>
                  MediaCompressor.compress_video E file_path temp_path v_bitrate "128k" "1280:720")
               temp_path file_limit ["1M"; "800k"; "500k"] success
           else ret success
         else ret success in
       let* present := Os.path_exists temp_path in
       if success && present then
         let* compressed_size := Os.path_getsize temp_path in
         ret temp_path
       else
         let* present := Os.path_exists temp_path in
         (if present then Os.remove temp_path else ret tt) ;;
         ret file_path)
    (fun _ => ret file_path).

(** [session.post(f"{base_url}/{api_method}", data=data, timeout=300)] with
    the file attached. *)
Definition session_post (self : t) (api_method file_path : string) (file_size : Z)
    : Eff Ext (Z * bool * option Message) :=
  fun x =>
    let reply := post E (ticks x) api_method file_path file_size in
    let x' := log (EvPost api_method file_path file_size reply) (tick (latency E (ticks x)) x) in
    match reply with
    | HttpRaises e => (Raise e, x')
    | HttpResponse status ok result => (Ok (status, ok, result), x')
    end.

(** [try: os.remove(path) except: pass]. *)
Definition remove_quietly (path : string) : Eff Ext unit :=
  try_except (Os.remove path) (fun _ => ret tt).

Definition error_result (message : string) : Dict :=
  [("status", VStr "error"); ("message", VStr message)].

Definition audio_extensions : list string := [".mp3"; ".m4a"; ".ogg"; ".wav"; ".webm"].
Definition video_extensions : list string := [".mp4"; ".mkv"; ".avi"; ".mov"; ".webm"].

(** Lines 201 to 220: the API method for a file. *)
Definition choose_api_method (media_type file_ext : string) (file_size : Z) : string :=
  if String.eqb media_type "audio" || Str.in_list file_ext audio_extensions then
    if TELEGRAM_FILE_LIMIT <? file_size then "sendDocument" else "sendAudio"
  else if String.eqb media_type "video" || Str.in_list file_ext video_extensions then
    if TELEGRAM_VIDEO_LIMIT <? file_size then "sendDocument" else "sendVideo"
  else "sendDocument".

Definition Z_to_string (z : Z) : string := pretty z.

(** Lines 197 to 269: the upload of [file_path], which by now is the
    variable reassigned in line 185. *)
Definition send_file (self : t) (compressed_path file_path media_type file_ext : string)
    (file_size : Z) : Eff Ext Dict :=
  let file_name := OsPath.basename file_path in
  Os.open_rb file_path ;;
  let api_method := choose_api_method media_type file_ext file_size in
  let* answered :=
    try_except
      (let* (status, ok, result) := session_post self api_method file_path file_size in
       if status =? 200 then
         if ok then
           let* message := subscript "result" result in
           let file_info := _extract_uploaded_file_info message media_type in
           (if Str.truthy compressed_path && negb (String.eqb compressed_path file_path)
            then remove_quietly compressed_path else ret tt) ;;
           let* mid := subscript "message_id" (message_id message) in
           ret (Some
                  [("status", VStr "success");
                   ("message_id", VInt mid);
                   ("file_info", VDict file_info);
                   ("channel", VStr (upload_channel self));
                   ("file_size_mb", VRatio file_size (1024 * 1024));
                   ("compressed",
                    VBool (if Str.truthy compressed_path
                           then negb (String.eqb compressed_path file_path)
                           else false))])
         else ret None
       else
         (if Str.truthy compressed_path && negb (String.eqb compressed_path file_path)
          then remove_quietly compressed_path else ret tt) ;;
         if status =? 413
         then ret (Some (error_result "File too large even after compression"))
         else ret (Some (error_result ("Upload failed: " ++ Z_to_string status))))
      (fun e =>
         match e with
         | TimeoutError => ret (Some (error_result "Upload timeout"))
         | _ => raise e
         end) in
  match answered with
  | Some result => ret result
  | None => ret (error_result "Upload failed")
  end.

Definition upload_file (self : t) (file_path video_id media_type caption : string)
    : Eff Ext Dict :=
  try_except
    (let* present := Os.path_exists file_path in
     if negb present then ret (error_result "File not found")
     else
       let* file_size := Os.path_getsize file_path in
       let file_ext := Str.lower (snd (OsPath.splitext file_path)) in
       let* compressed_path := _compress_if_needed self file_path media_type file_size in
       let* (file_path, file_size, file_ext) :=
         if Str.truthy compressed_path && negb (String.eqb compressed_path file_path) then
           let file_path := compressed_path in
           let* file_size := Os.path_getsize file_path in
           ret (file_path, file_size, Str.lower (snd (OsPath.splitext file_path)))
         else ret (file_path, file_size, file_ext) in
       send_file self compressed_path file_path media_type file_ext file_size)
    (fun e => ret (error_result ("Upload error: " ++ exn_str e))).

End WithCollaborators.

End TelegramUploader.

(** ** The state of the process *)

(** [channel_cache] of the directory manager, the module-level registry
    [background_upload_tasks], the history of the assignments made to the
    registry, and the outside world. *)
Record App : Type := mkApp {
  ext : Ext;
  channel_cache : gmap string (Dict * Z);
  background_upload_tasks : gmap string Dict;
  registry_writes : list (string * Dict)
}.

(** Running code that only touches the outside world. *)
Definition lift {A} (m : Eff Ext A) : Eff App A :=
  fun s =>
    let '(r, x') := m (ext s) in
    (r, mkApp x' (channel_cache s) (background_upload_tasks s) (registry_writes s)).

(** [self.channel_cache[video_id] = entry]. *)
Definition cache_put (video_id : string) (entry : Dict * Z) : Eff App unit :=
  modify (fun s =>
            mkApp (ext s) (<[video_id := entry]> (channel_cache s))
              (background_upload_tasks s) (registry_writes s)).

(** [background_upload_tasks[task_id] = entry]. *)
Definition registry_put (task_id : string) (entry : Dict) : Eff App unit :=
  modify (fun s =>
            mkApp (ext s) (channel_cache s)
              (<[task_id := entry]> (background_upload_tasks s))
              (registry_writes s ++ [(task_id, entry)])).

(** ** main.py: TelegramDBManager *)

Module TelegramDBManager.

Record t : Type := mk {
  bot_token : string;
  db_channel : string
}.

Definition or_default {A} (o : option A) (d : A) : A :=
  match o with Some a => a | None => d end.

(** [message.get('caption', '') or message.get('text', '')]. *)
Definition caption_or_text (message : Message) : string :=
  let c := or_default (caption message) "" in
  if Str.truthy c then c else or_default (text message) "".

(** [_extract_file_info]; a [KeyError] gives [None]. *)
Definition _extract_file_info (message : Message) (video_id : string) : option Dict :=
  match audio message with
  | Some a =>
      fid ← file_id a;
      mid ← message_id message;
      Some [("file_id", VStr fid);
            ("file_size", VInt (or_default (file_size a) 0));
            ("duration", VInt (or_default (duration a) 0));
            ("mime_type", VStr (or_default (mime_type a) "audio/mpeg"));
            ("title", VStr (or_default (title a) ("audio_" ++ video_id)));
            ("message_id", VInt mid);
            ("media_type", VStr "audio")]
  | None =>
      match document message with
      | Some d =>
          let file_name := or_default (file_name d) "" in
          let mime_type := or_default (mime_type d) "" in
          if Str.contains "audio" mime_type || Str.endswith file_name ".webm"
             || Str.endswith file_name ".mp3" then
            fid ← file_id d;
            mid ← message_id message;
            Some [("file_id", VStr fid);
                  ("file_size", VInt (or_default (file_size d) 0));
                  ("mime_type", VStr mime_type);
                  ("file_name", VStr file_name);
                  ("message_id", VInt mid);
                  ("media_type", VStr "audio")]
          else if Str.contains "video" mime_type || Str.endswith file_name ".mp4"
                  || Str.endswith file_name ".mkv" then
            fid ← file_id d;
            mid ← message_id message;
            Some [("file_id", VStr fid);
                  ("file_size", VInt (or_default (file_size d) 0));
                  ("mime_type", VStr mime_type);
                  ("file_name", VStr file_name);
                  ("message_id", VInt mid);
                  ("media_type", VStr "video")]
          else None
      | None =>
          match video message with
          | Some v =>
              fid ← file_id v;
              mid ← message_id message;
              Some [("file_id", VStr fid);
                    ("file_size", VInt (or_default (file_size v) 0));
                    ("duration", VInt (or_default (duration v) 0));
                    ("mime_type", VStr (or_default (mime_type v) "video/mp4"));
                    ("message_id", VInt mid);
                    ("media_type", VStr "video")]
          | None => None
          end
      end
  end.

(** [for message in messages: ... if video_id in caption: file_info =
    _extract_file_info(...); if file_info: return file_info]: the first
    message that matches and yields an entry. *)
Fixpoint scan_messages (video_id : string) (messages : list Message) : option Dict :=
  match messages with
  | [] => None
  | message :: messages' =>
      if Str.contains video_id (caption_or_text message) then
        match _extract_file_info message video_id with
        | Some file_info => Some file_info
        | None => scan_messages video_id messages'
        end
      else scan_messages video_id messages'
  end.

Section WithCollaborators.

Variable E : Collaborators.

(** [session.get(f"{base_url}/getChatHistory", params=...)] and the read of
    its JSON body; [offset_id] is [None] when the parameter is not sent. *)
Definition get_chat_history (self : t) (offset_id : option Z)
    : Eff Ext (Z * bool * list Message) :=
  fun x =>
    let reply := getChatHistory E (ticks x) offset_id in
    let x' := log (EvGetChatHistory offset_id reply) (tick (latency E (ticks x)) x) in
    match reply with
    | HttpRaises e => (Raise e, x')
    | HttpResponse status ok result => (Ok (status, ok, result), x')
    end.

(** [for _ in range(max_searches // 100)], with the pages still to fetch as
    the counter. *)
Fixpoint deep_search_pages (self : t) (video_id : string) (pages : nat) (offset_id : Z)
    : Eff Ext (option Dict) :=
  match pages with
  | O => ret None
  | S pages' =>
      let* (status, ok, messages) := get_chat_history self (Some offset_id) in
      if negb (status =? 200) then ret None
      else if negb ok || bool_decide (messages = []) then ret None
      else
        match scan_messages video_id messages with
        | Some file_info => ret (Some file_info)
        | None =>
            match last messages with
            | Some m =>
                let* offset_id := subscript "message_id" (message_id m) in
                deep_search_pages self video_id pages' offset_id
            | None => ret None
            end
        end
  end.

Definition _deep_search_channel (self : t) (video_id : string) : Eff Ext (option Dict) :=
  try_except
    (let offset_id := 0 in
     let max_searches := 500 in
     deep_search_pages self video_id (Z.to_nat (max_searches / 100)) offset_id)
    (fun _ => ret None).

Definition search_in_db_channel (self : t) (video_id : string) : Eff App (option Dict) :=
  lift (modify (log (EvEnter "search_in_db_channel" video_id))) ;;
  let* s := get_state in
  let* now := lift time_time in
  match (match channel_cache s !! video_id with
         | Some (cached_info, timestamp) =>
             if now - timestamp <? CACHE_TTL then Some cached_info else None
         | None => None
         end) with
  | Some cached_info => ret (Some cached_info)
  | None =>
      try_except
        (let limit := 100 in
         let* (status, ok, result) := lift (get_chat_history self None) in
         match (if (status =? 200) && ok then scan_messages video_id result else None) with
         | Some file_info =>
             let* now := lift time_time in
             cache_put video_id (file_info, now) ;;
             ret (Some file_info)
         | None =>
             let* file_info := lift (_deep_search_channel self video_id) in
             match file_info with
             | Some file_info =>
                 let* now := lift time_time in
                 cache_put video_id (file_info, now) ;;
                 ret (Some file_info)
             | None => ret None
             end
         end)
        (fun _ => ret None)
  end.

(** [session.get(f"{base_url}/getFile", params={"file_id": file_id})]. *)
Definition get_file (self : t) (fid : string) : Eff Ext (Z * bool * option string) :=
  fun x =>
    let reply := getFile E (ticks x) fid in
    let x' := log (EvGetFile fid reply) (tick (latency E (ticks x)) x) in
    match reply with
    | HttpRaises e => (Raise e, x')
    | HttpResponse status ok result => (Ok (status, ok, result), x')
    end.

Definition get_file_download_url (self : t) (fid : string) : Eff Ext (option string) :=
  try_except
    (let* (status, ok, result) := get_file self fid in
     if (status =? 200) && ok then
       let* file_path := subscript "file_path" result in
       ret (Some ("https://api.telegram.org/file/bot" ++ bot_token self ++ "/" ++ file_path))
     else ret None)
    (fun _ => ret None).

End WithCollaborators.

End TelegramDBManager.

(** ** main.py: LocalDownloadManager *)

Module LocalDownloadManager.

Record t : Type := mk {
  downloader_available : bool
}.

Section WithCollaborators.

Variable E : Collaborators.

Definition download_media (self : t) (video_id media_type : string) : Eff Ext Dict :=
  if negb (downloader_available self)
  then ret [("status", VStr "error"); ("message", VStr "Local downloader not available")]
  else
    try_except
      (let* file_path := Downloader.download E video_id media_type in
       let* present := Os.path_exists file_path in
       if Str.truthy file_path && present then
         ret [("status", VStr "success");
              ("file_path", VStr file_path);
              ("video_id", VStr video_id);
              ("media_type", VStr media_type)]
       else
         ret [("status", VStr "error");
              ("message", VStr "Local download failed - file not found")])
      (fun e =>
         ret [("status", VStr "error");
              ("message", VStr ("Local download error: " ++ exn_str e))]).

End WithCollaborators.

End LocalDownloadManager.

(** [_make_full_link(request, path, video_id)], with the request reduced to
    its [base_url]. *)
Definition _make_full_link (C : Config) (base_url path video_id : string) : string :=
  Str.rstrip_slash base_url ++ path ++ "/" ++ video_id ++ "?api=" ++ API_KEY C.

(** ** main.py: DownloadManager *)

Module DownloadManager.

Record t : Type := mk {
  local_downloader : LocalDownloadManager.t;
  telegram_db : option TelegramDBManager.t;
  telegram_uploader : option TelegramUploader.t
}.

(** [DownloadManager()]. *)
Definition init (C : Config) : t :=
  {| local_downloader := LocalDownloadManager.mk true;
     telegram_db :=
       if Str.truthy (TELEGRAM_BOT_TOKEN C)
       then Some (TelegramDBManager.mk (TELEGRAM_BOT_TOKEN C) (TELEGRAM_DB_CHANNEL C))
       else None;
     telegram_uploader :=
       if Str.truthy (TELEGRAM_BOT_TOKEN C)
       then Some (TelegramUploader.mk (TELEGRAM_BOT_TOKEN C) (TELEGRAM_UPLOAD_CHANNEL C))
       else None |}.

(** [d["key"]] on a dict built by the program. *)
Definition dict_item {S} (key : string) (d : Dict) : Eff S Value :=
  subscript key (dict_get key d).

(** A value used where the code needs a string. *)
Definition as_str (v : Value) : string :=
  match v with
  | VStr s => s
  | _ => ""
  end.

Section WithCollaborators.

Variable E : Collaborators.
Variable C : Config.

Definition download_media (self : t) (video_id media_type : string) (request : option string)
    : Eff App Dict :=
  let* local_result :=
    lift (LocalDownloadManager.download_media E (local_downloader self) video_id media_type) in
  let* status := dict_item "status" local_result in
  if match status with VStr s => String.eqb s "success" | _ => false end then
    let* file_path := dict_item "file_path" local_result in
    let download_url :=
      match request with
      | Some base_url => _make_full_link C base_url "/file" video_id
      | None => "/file/" ++ video_id ++ "?api=" ++ API_KEY C ++ "&type=" ++ media_type
      end in
    ret [("status", VStr "success");
         ("type", VStr "local_file");
         ("link", VStr download_url);
         ("file_path", file_path);
         ("video_id", VStr video_id);
         ("source", VStr "local_downloader")]
  else
    let failed : Eff App Dict :=
      ret [("status", VStr "error");
           ("message",
            dict_get_default "message" local_result
              (VStr "Download failed from all sources"))] in
    match telegram_db self with
    | Some db =>
        let* db_file := TelegramDBManager.search_in_db_channel E db video_id in
        match db_file with
        | Some db_file =>
            if dict_truthy db_file then
              let* fid := dict_item "file_id" db_file in
              let* file_url :=
                lift (TelegramDBManager.get_file_download_url E db (as_str fid)) in
              match file_url with
              | Some file_url =>
                  if Str.truthy file_url then
                    ret [("status", VStr "success");
                         ("type", VStr "db_channel");
                         ("link", VStr file_url);
                         ("video_id", VStr video_id);
                         ("file_info", VDict db_file);
                         ("source", VStr "telegram_db")]
                  else failed
              | None => failed
              end
            else failed
        | None => failed
        end
    | None => failed
    end.

(** The caption of line 663. The literal starts with the nine bytes EF A3
    BF C3 BC C3 A9 C2 B5, the characters U+F8FF, U+00FC, U+00E9 and
    U+00B5. *)
Definition upload_caption (video_id media_type : string) : string :=
  String "239" (String "163" (String "191" (String "195" (String "188"
    (String "195" (String "169" (String "194" (String "181" " "))))))))
  ++ Str.title media_type ++ " Download" ++ String "010" "Video ID: " ++ video_id.

Definition upload_to_telegram_background (self : t) (video_id media_type file_path : string)
    : Eff App unit :=
  match telegram_uploader self with
  | None => ret tt
  | Some uploader =>
      try_except
        (let task_id := video_id ++ "_" ++ media_type in
         let* now := lift time_time in
         registry_put task_id [("status", VStr "uploading"); ("start_time", VInt now)] ;;
         let caption := upload_caption video_id media_type in
         let* upload_result :=
           lift (TelegramUploader.upload_file E uploader file_path video_id media_type caption) in
         let* status := dict_item "status" upload_result in
         let* now := lift time_time in
         if match status with VStr s => String.eqb s "success" | _ => false end then
           registry_put task_id
             [("status", VStr "completed");
              ("result", VDict upload_result);
              ("completed_time", VInt now)]
         else
           registry_put task_id
             [("status", VStr "failed");
              ("result", VDict upload_result);
              ("completed_time", VInt now)])
        (fun e =>
           let task_id := video_id ++ "_" ++ media_type in
           let* now := lift time_time in
           registry_put task_id
             [("status", VStr "error");
              ("error", VStr (exn_str e));
              ("completed_time", VInt now)])
  end.

End WithCollaborators.

End DownloadManager.

(** ** main.py: the [/song/{video_id}] endpoint *)

Record JSONResponse : Type := mkJSONResponse {
  content : Dict;
  status_code : Z
}.

(** A call of [background_tasks.add_task(upload_to_telegram_background,
    video_id, media_type, file_path)]. *)
Record BackgroundTask : Type := mkBackgroundTask {
  task_video_id : string;
  task_media_type : string;
  task_file_path : string
}.

Section Endpoints.

Variable E : Collaborators.
Variable C : Config.
Variable download_manager : DownloadManager.t.

Definition verify_api_key (api : string) : Eff App bool :=
  if negb (String.eqb api (API_KEY C))
  then raise (HTTPException 403 "Invalid API Key")
  else ret true.

(** The body of [song]: the response and the tasks handed to
    [background_tasks]. *)
Definition song (video_id request : string) (upload : bool)
    : Eff App (JSONResponse * list BackgroundTask) :=
  try_except
    (let* download_info :=
       DownloadManager.download_media E C download_manager video_id "audio" (Some request) in
     let* status := DownloadManager.dict_item "status" download_info in
     if match status with VStr s => String.eqb s "success" | _ => false end then
       let* link := DownloadManager.dict_item "link" download_info in
       let response_data :=
         [("status", VStr "done");
          ("link", link);
          ("type", dict_get_default "type" download_info (VStr "stream"));
          ("video_id", VStr video_id);
          ("source", dict_get_default "source" download_info (VStr "unknown"))] in
       if upload && dict_str_is "source" download_info "local_downloader"
          && dict_has "file_path" download_info then
         let* file_path := DownloadManager.dict_item "file_path" download_info in
         let task := mkBackgroundTask video_id "audio" (DownloadManager.as_str file_path) in
         let response_data := dict_set "background_upload" (VStr "started") response_data in
         let response_data :=
           dict_set "upload_task_id" (VStr (video_id ++ "_audio")) response_data in
         ret (mkJSONResponse response_data 200, [task])
       else ret (mkJSONResponse response_data 200, [])
     else
       ret (mkJSONResponse
              [("status", VStr "error");
               ("message", dict_get_default "message" download_info (VStr "Download failed"))]
              500, []))
    (fun e =>
       ret (mkJSONResponse [("status", VStr "error"); ("message", VStr (exn_str e))] 500, [])).

(** The tasks of a request run one after the other once the response has
    been produced. *)
Fixpoint run_background_tasks (tasks : list BackgroundTask) : Eff App unit :=
  match tasks with
  | [] => ret tt
  | task :: tasks' =>
      DownloadManager.upload_to_telegram_background E download_manager
        (task_video_id task) (task_media_type task) (task_file_path task) ;;
      run_background_tasks tasks'
  end.

(** A [GET /song/{video_id}?api=...&upload=...] request from the dependency
    on [verify_api_key] to the end of the background tasks. *)
Definition get_song (video_id request api : string) (upload : bool) : Eff App JSONResponse :=
  try_except
    (verify_api_key api ;;
     let* (response, tasks) := song video_id request upload in
     run_background_tasks tasks ;;
     ret response)
    (fun e =>
       match e with
       | HTTPException code detail => ret (mkJSONResponse [("detail", VStr detail)] code)
       | _ => raise e
       end).

End Endpoints.

(** ** main.py: the other endpoints *)

Module StrSplit.

(** The scan of [s.split(sep)] for a separator that is not empty: [cur] is
    the piece being read and [skip] counts the characters of a separator
    just found that are still to be passed over. *)
Fixpoint split_go (sep : string) (skip : nat) (cur s : string) : list string :=
  match s with
  | EmptyString => [cur]
  | String c s' =>
      match skip with
      | S k => split_go sep k cur s'
      | O =>
          if String.prefix sep s
          then cur :: split_go sep (String.length sep - 1) "" s'
          else split_go sep 0 (cur ++ String c "") s'
      end
  end.

(** [s.split(sep)]. *)
Definition split (sep s : string) : list string := split_go sep 0 "" s.

(** [l[-1]] and [l[0]] on the result of a split, which is never empty. *)
Definition last_piece (l : list string) : string := List.last l "".
Definition first_piece (l : list string) : string := List.hd "" l.

End StrSplit.

(** [len(s)] for a [str] held as its UTF-8 bytes: the bytes that start a
    code point, that is all but the continuation bytes 0x80 to 0xBF. *)
Definition is_continuation_byte (c : ascii) : bool :=
  let n := nat_of_ascii c in (128 <=? n)%nat && (n <? 192)%nat.

Fixpoint py_len (s : string) : nat :=
  match s with
  | EmptyString => 0%nat
  | String c s' => ((if is_continuation_byte c then 0 else 1) + py_len s')%nat
  end.

(** Lines 864 to 873 of [download_endpoint]: the identifier in a URL. *)
Definition parse_video_id (url : string) : string :=
  let video_id := url in
  let video_id :=
    if Str.contains "v=" url then
      StrSplit.first_piece (StrSplit.split "&" (StrSplit.last_piece (StrSplit.split "v=" url)))
    else if Str.contains "youtu.be/" url then
      StrSplit.first_piece
        (StrSplit.split "?" (StrSplit.last_piece (StrSplit.split "youtu.be/" url)))
    else if Str.contains "youtube.com/watch" url then
      StrSplit.first_piece (StrSplit.split "&" (StrSplit.last_piece (StrSplit.split "v=" url)))
    else video_id in
  StrSplit.first_piece (StrSplit.split "&" (StrSplit.first_piece (StrSplit.split "?" video_id))).

(** What [FileResponse(path, media_type=..., filename=...)] was built from. *)
Record FileResponse : Type := mkFileResponse {
  fr_path : string;
  fr_media_type : string;
  fr_filename : string
}.

(** [for ext in exts: alt_path = ...; if os.path.exists(alt_path):
    file_path = alt_path; break], from the value [file_path] had before the
    loop to the value it has after. *)
Fixpoint alt_path_loop (video_id : string) (exts : list string) (file_path : string)
    : Eff Ext string :=
  match exts with
  | [] => ret file_path
  | ext :: exts' =>
      let alt_path := OsPath.join DOWNLOAD_FOLDER (video_id ++ ext) in
      let* present := Os.path_exists alt_path in
      if present then ret alt_path else alt_path_loop video_id exts' file_path
  end.

(** The body of [serve_file]; an [HTTPException] that leaves it becomes the
    response. *)
Definition serve_file (video_id type_ : string) : Eff Ext FileResponse :=
  try_except
    (let filename := video_id ++ "." ++ (if String.eqb type_ "audio" then "mp3" else "mp4") in
     let file_path := OsPath.join DOWNLOAD_FOLDER filename in
     let* present := Os.path_exists file_path in
     let* file_path :=
       if negb present
       then alt_path_loop video_id [".mp3"; ".mp4"; ".webm"; ".m4a"] file_path
       else ret file_path in
     let* present := Os.path_exists file_path in
     if present then
       ret (mkFileResponse file_path
              (if String.eqb type_ "audio" then "audio/mpeg" else "video/mp4") filename)
     else raise (HTTPException 404 "File not found"))
    (fun e => raise (HTTPException 500 "Error serving file")).

(** The endpoints besides [song]; [video] here is the endpoint, not the
    attachment of a message. *)
Module Routes.

Section MoreEndpoints.

Variable E : Collaborators.
Variable C : Config.
Variable download_manager : DownloadManager.t.

(** The body of [video]. *)
Definition video (video_id request : string) (upload : bool)
    : Eff App (JSONResponse * list BackgroundTask) :=
  try_except
    (let* download_info :=
       DownloadManager.download_media E C download_manager video_id "video" (Some request) in
     let* status := DownloadManager.dict_item "status" download_info in
     if match status with VStr s => String.eqb s "success" | _ => false end then
       let* link := DownloadManager.dict_item "link" download_info in
       let response_data :=
         [("status", VStr "done");
          ("link", link);
          ("type", dict_get_default "type" download_info (VStr "stream"));
          ("video_id", VStr video_id);
          ("source", dict_get_default "source" download_info (VStr "unknown"))] in
       if upload && dict_str_is "source" download_info "local_downloader"
          && dict_has "file_path" download_info then
         let* file_path := DownloadManager.dict_item "file_path" download_info in
         let task := mkBackgroundTask video_id "video" (DownloadManager.as_str file_path) in
         let response_data := dict_set "background_upload" (VStr "started") response_data in
         let response_data :=
           dict_set "upload_task_id" (VStr (video_id ++ "_video")) response_data in
         ret (mkJSONResponse response_data 200, [task])
       else ret (mkJSONResponse response_data 200, [])
     else
       ret (mkJSONResponse
              [("status", VStr "error");
               ("message", dict_get_default "message" download_info (VStr "Download failed"))]
              500, []))
    (fun e =>
       ret (mkJSONResponse [("status", VStr "error"); ("message", VStr (exn_str e))] 500, [])).

(** The body of [download_endpoint]. [background_tasks] says whether the
    framework handed in a task queue. *)
Definition download_endpoint (url type_ : string) (upload : bool) (request : option string)
    (background_tasks : bool) : Eff App (JSONResponse * list BackgroundTask) :=
  let video_id := parse_video_id url in
  if negb (Str.truthy video_id) || (py_len video_id <? 3)%nat then
    ret (mkJSONResponse [("status", VStr "error"); ("message", VStr "Invalid video ID")] 400, [])
  else if negb (Str.in_list type_ ["audio"; "video"]) then
    ret (mkJSONResponse
           [("status", VStr "error"); ("message", VStr "Type must be 'audio' or 'video'")]
           400, [])
  else
    try_except
      (let* download_info :=
         DownloadManager.download_media E C download_manager video_id type_ request in
       if upload && dict_str_is "status" download_info "success"
          && dict_str_is "source" download_info "local_downloader"
          && dict_has "file_path" download_info then
         if background_tasks then
           let* file_path := DownloadManager.dict_item "file_path" download_info in
           let task := mkBackgroundTask video_id type_ (DownloadManager.as_str file_path) in
           let download_info := dict_set "background_upload" (VStr "started") download_info in
           let download_info :=
             dict_set "upload_task_id" (VStr (video_id ++ "_" ++ type_)) download_info in
           ret (mkJSONResponse download_info 200, [task])
         else ret (mkJSONResponse download_info 200, [])
       else ret (mkJSONResponse download_info 200, []))
      (fun e =>
         ret (mkJSONResponse
                [("status", VStr "error");
                 ("message", VStr ("Internal server error: " ++ exn_str e))]
                500, [])).

(** The body of [get_upload_status]. *)
Definition get_upload_status (task_id : string) : Eff App Dict :=
  let* s := get_state in
  match background_upload_tasks s !! task_id with
  | Some entry => ret [("task_id", VStr task_id); ("status", VDict entry)]
  | None =>
      ret [("task_id", VStr task_id);
           ("status", VStr "not_found");
           ("message", VStr "Task ID not found")]
  end.

(** The body of [search_db_channel]. *)
Definition search_db_channel (video_id : string) : Eff App Dict :=
  match DownloadManager.telegram_db download_manager with
  | None => raise (HTTPException 400 "Database channel not configured")
  | Some db =>
      let* file_info := TelegramDBManager.search_in_db_channel E db video_id in
      match file_info with
      | Some file_info =>
          if dict_truthy file_info
          then ret [("status", VStr "found"); ("file_info", VDict file_info)]
          else ret [("status", VStr "not_found")]
      | None => ret [("status", VStr "not_found")]
      end
  end.

(** The body of [refresh_db_cache]. *)
Definition refresh_db_cache : Eff App Dict :=
  match DownloadManager.telegram_db download_manager with
  | Some _ =>
      modify (fun s => mkApp (ext s) ∅ (background_upload_tasks s) (registry_writes s)) ;;
      ret [("status", VStr "success"); ("message", VStr "DB cache cleared")]
  | None => ret [("status", VStr "error"); ("message", VStr "DB channel not configured")]
  end.

(** The body of [upload_file_directly]. *)
Definition upload_file_directly (video_id type_ : string) (background_tasks : bool)
    : Eff App (JSONResponse * list BackgroundTask) :=
  match DownloadManager.telegram_uploader download_manager with
  | None => raise (HTTPException 400 "Upload channel not configured")
  | Some _ =>
      try_except
        (let* local_result :=
           lift (LocalDownloadManager.download_media E
                   (DownloadManager.local_downloader download_manager) video_id type_) in
         let* status := DownloadManager.dict_item "status" local_result in
         if negb (match status with VStr s => String.eqb s "success" | _ => false end) then
           ret (mkJSONResponse
                  [("status", VStr "error"); ("message", VStr "Download failed before upload")]
                  400, [])
         else if background_tasks then
           let* file_path := DownloadManager.dict_item "file_path" local_result in
           let task := mkBackgroundTask video_id type_ (DownloadManager.as_str file_path) in
           ret (mkJSONResponse
                  [("status", VStr "upload_started");
                   ("task_id", VStr (video_id ++ "_" ++ type_));
                   ("message", VStr "Background upload started")]
                  200, [task])
         else
           ret (mkJSONResponse
                  [("status", VStr "error"); ("message", VStr "Background tasks not available")]
                  500, []))
        (fun e =>
           ret (mkJSONResponse
                  [("status", VStr "error"); ("message", VStr ("Upload failed: " ++ exn_str e))]
                  500, []))
  end.

End MoreEndpoints.

End Routes.

(** ** Vocabulary of the statements *)

Local Open Scope list_scope.

Definition canonical_path (video_id type_ : string) : string :=
  if String.eqb type_ "audio" then Downloader.audio_path video_id
  else Downloader.video_path video_id.

Definition sleep_events (delay : Z) : list Event :=
  if bool_decide (delay = 0) then [] else [EvSleep delay].

(** The decision of the [except] branch on a lower-cased message. *)
Definition except_ctl (err : string) (retry_no : nat) : LoopCtl string :=
  if Downloader.format_unavailable err then Break
  else if (retry_no =? 3)%nat then Break else Continue.

Definition attempt_ctl (file_path : string) (out : YdlOutcome) (fs : gmap string Z)
    (retry_no : nat) : LoopCtl string :=
  match ydl_error out with
  | Some msg => except_ctl (Str.lower msg) retry_no
  | None => if bool_decide (is_Some (fs !! file_path)) then Return file_path else Continue
  end.

Definition raised_format_unavailable (e : Event) : bool :=
  match e with
  | EvYdl _ _ _ _ out =>
      match ydl_error out with
      | Some msg => Downloader.format_unavailable (Str.lower msg)
      | None => false
      end
  | _ => false
  end.

Definition fetched (path : string) (e : Event) : bool :=
  match e with
  | EvYdl _ _ o _ out =>
      String.eqb (outtmpl o) path
      && match ydl_error out, ydl_wrote out with
         | None, Some _ => true
         | _, _ => false
         end
  | _ => false
  end.

Definition attempt_of (e : Event) : option nat :=
  match e with
  | EvYdl a _ _ _ _ => Some a
  | _ => None
  end.

Definition is_sleep (e : Event) : bool :=
  match e with
  | EvSleep _ => true
  | _ => false
  end.

(** Counting the events of a trace that satisfy [p]. *)
Fixpoint count_events (p : Event -> bool) (t : list Event) : nat :=
  match t with
  | [] => 0%nat
  | e :: t' => ((if p e then 1 else 0) + count_events p t')%nat
  end.

Definition is_search_entry (e : Event) : bool :=
  match e with
  | EvEnter f _ => String.eqb f "search_in_db_channel"
  | _ => false
  end.

(** How often [search_in_db_channel] has been entered. *)
Definition search_calls (x : Ext) : nat := count_events is_search_entry (trace x).

(** The state after the entry into [search_in_db_channel] has been recorded. *)
Definition entered (video_id : string) (s : App) : App :=
  mkApp (log (EvEnter "search_in_db_channel" video_id) (ext s))
    (channel_cache s) (background_upload_tasks s) (registry_writes s).

(** The entry the cache serves at the current clock reading, if any. *)
Definition fresh_entry (video_id : string) (s : App) : option Dict :=
  match channel_cache s !! video_id with
  | Some (cached_info, timestamp) =>
      if clock (ext s) - timestamp <? CACHE_TTL then Some cached_info else None
  | None => None
  end.

(** The remote part of the search: the first page, then the deep search. *)
Definition remote_search (E : Collaborators) (db : TelegramDBManager.t) (video_id : string)
    (x : Ext) : option Dict * Ext :=
  match TelegramDBManager.get_chat_history E db None x with
  | (Raise _, x1) => (None, x1)
  | (Ok (status, ok, result), x1) =>
      match (if (status =? 200) && ok
             then TelegramDBManager.scan_messages video_id result else None) with
      | Some file_info => (Some file_info, x1)
      | None =>
          match TelegramDBManager._deep_search_channel E db video_id x1 with
          | (Ok found, x2) => (found, x2)
          | (Raise _, x2) => (None, x2)
          end
      end
  end.

Definition with_cache (c : gmap string (Dict * Z)) (s : App) : App :=
  mkApp (ext s) c (background_upload_tasks s) (registry_writes s).

Definition with_ext (x : Ext) (s : App) : App :=
  mkApp x (channel_cache s) (background_upload_tasks s) (registry_writes s).

Definition is_history_event (e : Event) : bool :=
  match e with
  | EvGetChatHistory _ _ => true
  | _ => false
  end.

(** [file_info] is what [_extract_file_info] makes of a message whose
    caption or text contains [video_id]. *)
Definition extracted_from_message (video_id : string) (file_info : Dict) : Prop :=
  exists message,
    Str.contains video_id (TelegramDBManager.caption_or_text message) = true
    /\ TelegramDBManager._extract_file_info message video_id = Some file_info.

Definition task_key (video_id media_type : string) : string :=
  (video_id ++ "_" ++ media_type)%string.

Definition terminal_status (entry : Dict) : Prop :=
  dict_get "status" entry = Some (VStr "completed")
  \/ dict_get "status" entry = Some (VStr "failed")
  \/ dict_get "status" entry = Some (VStr "error").

Definition primary_succeeded (local_result : Dict) : bool :=
  dict_str_is "status" local_result "success".

(** The error answer of the orchestrator, lines 645 to 648. *)
Definition failure_result (local_result : Dict) : Dict :=
  [("status", VStr "error");
   ("message", dict_get_default "message" local_result (VStr "Download failed from all sources"))].

Definition MB : Z := 1024 * 1024.

(** A message of the storage channel that carries an audio file. *)
Definition stored_audio (mid : Z) (caption_text : string) : Message :=
  mkMessage (Some mid) (Some caption_text) None
    (Some (mkMedia (Some "AgADfile") (Some (40 * MB)) (Some 215) (Some "audio/webm") None None))
    None None.

(** Collaborators scripted by what is fetched, what the transcoder writes
    and what the upload request answers. yt-dlp reports "format is not
    available" on its first run and writes [fetched] bytes afterwards; a
    transcoder run that is external call number [n] writes [transcoded]
    bytes less [n] megabytes, each re-encode a little smaller than the one
    before. *)
Definition scripted (fetched transcoded : Z) (upload_reply : HttpReply (option Message))
    : Collaborators :=
  mkCollaborators
    (fun n _ _ =>
       if (n =? 0)%nat
       then mkYdlOutcome None (Some "ERROR: [youtube] abc123: Requested format is not available")
       else mkYdlOutcome (Some fetched) None)
    (fun n _ => mkFfmpegOutcome None 0 (Some (transcoded - Z.of_nat n * MB)))
    (fun _ suffix => Some ("/tmp/tmpk3v9qz" ++ suffix)%string)
    (fun _ _ => HttpResponse 200 true [])
    (fun _ _ => HttpResponse 404 false None)
    (fun _ _ _ _ => upload_reply)
    (fun _ => 1).

Definition upload_accepted : HttpReply (option Message) :=
  HttpResponse 200 true (Some (stored_audio 901 "Audio Download")).

Definition empty_ext : Ext := mkExt ∅ 1700000000 0 [].

Definition empty_app : App := mkApp empty_ext ∅ ∅ [].

(** A world that holds one artifact. *)
Definition one_file (path : string) (size : Z) : Ext :=
  mkExt {[ path := size ]} 1700000000 0 [].

Definition the_uploader : TelegramUploader.t :=
  TelegramUploader.mk "123:token" "@store".

Definition is_remove (e : Event) : bool :=
  match e with
  | EvRemove _ => true
  | _ => false
  end.

(** The fetch is refused on every attempt, the first page of the channel
    history holds the entry, and the file reference cannot be resolved. *)
Definition blocked_fetch_directory_hit : Collaborators :=
  mkCollaborators
    (fun _ _ _ =>
       mkYdlOutcome None (Some "ERROR: [youtube] abc123: Sign in to confirm you are not a bot"))
    (fun _ _ => mkFfmpegOutcome None 1 None)
    (fun _ _ => None)
    (fun _ _ => HttpResponse 200 true [stored_audio 77 "Audio Download, Video ID: abc123"])
    (fun _ _ => HttpResponse 400 false None)
    (fun _ _ _ _ => HttpRaises TimeoutError)
    (fun _ => 1).

Definition the_directory : TelegramDBManager.t :=
  TelegramDBManager.mk (TELEGRAM_BOT_TOKEN default_config) (TELEGRAM_DB_CHANNEL default_config).

Definition no_token_config : Config :=
  mkConfig "Shadow" "" "@shizuku_db" "@shizuku_db".

Definition cached_entry : Dict := [("file_id", VStr "AgADfile"); ("media_type", VStr "audio")].

(** A cache that holds [cached_entry] for "xyz", inserted at [inserted_at]. *)
Definition app_with_entry (inserted_at now : Z) : App :=
  mkApp (mkExt ∅ now 0 []) {[ "xyz" := (cached_entry, inserted_at) ]} ∅ [].

Definition is_fetch (e : Event) : bool :=
  match e with
  | EvYdl _ _ _ _ _ => true
  | _ => false
  end.

(** The seconds slept in a trace. *)
Fixpoint total_sleep (t : list Event) : Z :=
  match t with
  | [] => 0
  | EvSleep delay :: t' => delay + total_sleep t'
  | _ :: t' => total_sleep t'
  end.

(** A sleep as its delay, a run of yt-dlp as its loop indices. *)
Definition step_of (e : Event) : option (Z + nat * nat) :=
  match e with
  | EvSleep delay => Some (inl delay)
  | EvYdl attempt_no retry_no _ _ _ => Some (inr (attempt_no, retry_no))
  | _ => None
  end.

(** What one tier does when every attempt fails with a transient error. *)
Definition exhausted_tier (attempt_no : nat) : list (option (Z + nat * nat)) :=
  [Some (inr (attempt_no, 0%nat)); Some (inl 1); Some (inr (attempt_no, 1%nat));
   Some (inl 2); Some (inr (attempt_no, 2%nat)); Some (inl 4); Some (inr (attempt_no, 3%nat))].

(** The two file systems agree on every path that is not in [paths]. *)
Definition same_outside (paths : list string) (fs fs' : gmap string Z) : Prop :=
  forall p, ~ In p paths -> fs' !! p = fs !! p.

Definition is_ffmpeg (e : Event) : bool :=
  match e with
  | EvFfmpeg _ _ => true
  | _ => false
  end.

(** The size limit [_compress_if_needed] applies to a kind. *)
Definition limit_of (media_type : string) : Z :=
  if String.eqb media_type "video" then TELEGRAM_VIDEO_LIMIT else TELEGRAM_FILE_LIMIT.

(** What the three wrappers of ffmpeg have in common: one run of ffmpeg,
    which only touches the output, and the answer [true] only when the
    output is there afterwards. *)
Definition transcoder_like (E : Collaborators) (output_path : string) (m : Eff Ext bool) : Prop :=
  forall x, exists b x',
    m x = (Ok b, x')
    /\ same_outside [output_path] (files x) (files x')
    /\ (b = true -> is_Some (files x' !! output_path))
    /\ ticks x' = S (ticks x)
    /\ count_events is_ffmpeg (trace x') = S (count_events is_ffmpeg (trace x)).

(** Lines 315 to 323: the answer of [_compress_if_needed] once the ladders
    are through. *)
Definition compress_finish (file_path temp_path : string) (success : bool) : Eff Ext string :=
  bind (Os.path_exists temp_path) (fun present =>
    if success && present then
      bind (Os.path_getsize temp_path) (fun compressed_size => ret temp_path)
    else
      bind (Os.path_exists temp_path) (fun present =>
        bind (if present then Os.remove temp_path else ret tt) (fun _ => ret file_path))).

(** Lines 289 to 313: the ladders of [_compress_if_needed], from the temp
    file to the flag [success]. *)
Definition compress_ladders (E : Collaborators) (file_path media_type temp_path : string)
    (file_limit : Z) : Eff Ext bool :=
  if String.eqb media_type "audio" then
    TelegramUploader.bitrate_loop (MediaCompressor.compress_audio E file_path temp_path)
      temp_path file_limit ["128k"; "96k"; "64k"] false
  else if String.eqb media_type "video" then
    bind (MediaCompressor.convert_to_webm E file_path (temp_path ++ ".webm")%string)
      (fun converted =>
         bind (if converted then
                 bind (Os.path_getsize (temp_path ++ ".webm")%string) (fun size =>
                   if size <=? file_limit
                   then bind (Os.rename (temp_path ++ ".webm")%string temp_path)
                          (fun _ => ret true)
                   else bind (Os.remove (temp_path ++ ".webm")%string) (fun _ => ret false))
               else ret false)
           (fun success =>
              if negb success then
                TelegramUploader.bitrate_loop
                  (fun v_bitrate =>
                     MediaCompressor.compress_video E file_path temp_path v_bitrate
                       "128k" "1280:720")
                  temp_path file_limit ["1M"; "800k"; "500k"] success
              else ret success))
  else ret false.

(** The extension [_compress_if_needed] gives its temp file. *)
Definition temp_suffix (file_path : string) : string :=
  Str.lower (snd (OsPath.splitext file_path)).

(** The world after a run of ffmpeg on [cmd] that wrote [n] bytes. *)
Definition after_ffmpeg (E : Collaborators) (cmd : list string) (output_path : string)
    (x : Ext) : Ext :=
  log (EvFfmpeg cmd (ffmpeg E (ticks x) cmd))
    (set_files (write_file output_path (ff_wrote (ffmpeg E (ticks x) cmd)))
       (tick (latency E (ticks x)) x)).

Definition webm_cmd (input_path output_path : string) : list string :=
  ["ffmpeg"; "-i"; input_path; "-c:v"; "libvpx-vp9"; "-b:v"; "1M";
   "-c:a"; "libopus"; "-b:a"; "128k"; "-f"; "webm"; "-y"; output_path].

Definition audio_cmd (input_path output_path bitrate : string) : list string :=
  ["ffmpeg"; "-i"; input_path; "-b:a"; bitrate; "-vn"; "-y"; output_path].

(** Collaborators whose transcoder always exits with 1 after writing 3MB. *)
Definition failing_transcoder : Collaborators :=
  mkCollaborators
    (fun _ _ _ => mkYdlOutcome None (Some "ERROR: unable to download video data"))
    (fun _ _ => mkFfmpegOutcome None 1 (Some (3 * MB)))
    (fun _ suffix => Some ("/tmp/tmpk3v9qz" ++ suffix)%string)
    (fun _ _ => HttpResponse 200 true [])
    (fun _ _ => HttpResponse 404 false None)
    (fun _ _ _ _ => HttpRaises TimeoutError)
    (fun _ => 1).

(** The outer [except] of [upload_file] applied to a finished run. *)
Definition reported (run : Res Dict * Ext) : Res Dict * Ext :=
  match run with
  | (Ok result, x) => (Ok result, x)
  | (Raise e, x) =>
      (Ok (TelegramUploader.error_result ("Upload error: " ++ exn_str e)%string), x)
  end.

(** The file [upload_file] sends once [_compress_if_needed] has answered
    [compressed_path]: its path, and whether it is the compressed one. *)
Definition substituted (compressed_path file_path : string) : bool :=
  Str.truthy compressed_path && negb (String.eqb compressed_path file_path).

(** The answer to an upload request is a success: 200, [ok], a result and
    a message id in it. *)
Definition accepted (reply : HttpReply (option Message)) : bool :=
  match reply with
  | HttpResponse 200 true (Some message) =>
      match message_id message with Some _ => true | None => false end
  | _ => false
  end.

(** A finished upload: either nothing was sent and the answer is an error,
    or the last event is the request and the answer follows its reply. *)
Definition upload_verdict (x' : Ext) (result : Dict) : Prop :=
  dict_get "status" result = Some (VStr "error")
  \/ (dict_get "status" result = Some (VStr "success")
      /\ dict_get "compressed" result = Some (VBool false)
      /\ exists t api_method path size reply,
           trace x' = t ++ [EvPost api_method path size reply]
           /\ accepted reply = true).

(** The dict of a run that returned one. *)
Definition result_of (r : Res Dict) : Dict :=
  match r with
  | Ok result => result
  | Raise _ => []
  end.

(** An entry the orchestrator can use: it names a file, the message it came
    from and one of the two kinds. *)
Definition usable_entry (file_info : Dict) : Prop :=
  (exists fid, dict_get "file_id" file_info = Some (VStr fid))
  /\ (exists mid, dict_get "message_id" file_info = Some (VInt mid))
  /\ (dict_get "media_type" file_info = Some (VStr "audio")
      \/ dict_get "media_type" file_info = Some (VStr "video")).

(** Every entry of the directory cache is usable. *)
Definition cache_usable (s : App) : Prop :=
  forall video_id file_info timestamp,
    channel_cache s !! video_id = Some (file_info, timestamp) -> usable_entry file_info.

(** A state whose cache holds one usable entry, for "abc123". *)
Definition app_with_usable_entry : App :=
  mkApp empty_ext
    {[ "abc123" := ([("file_id", VStr "AgADfile"); ("message_id", VInt 77);
                     ("media_type", VStr "audio")], 1700000000) ]} ∅ [].

(** What [DownloadManager.download_media] answers in state [s']: an error
    without a link, or a success with a link whose source is the local
    engine, with the path of a file that exists, or the directory, with no
    path. *)
Definition download_answer (s' : App) (result : Dict) : Prop :=
  dict_get "status" result = Some (VStr "error")
  /\ dict_has "link" result = false
  /\ dict_has "file_path" result = false
  \/ dict_get "status" result = Some (VStr "success")
     /\ (exists link, dict_get "link" result = Some (VStr link))
     /\ (dict_get "source" result = Some (VStr "local_downloader")
         /\ (exists file_path,
               dict_get "file_path" result = Some (VStr file_path)
               /\ is_Some (files (ext s') !! file_path))
         \/ dict_get "source" result = Some (VStr "telegram_db")
            /\ dict_has "file_path" result = false).

(** The name [serve_file] looks for first. *)
Definition served_name (video_id type_ : string) : string :=
  (video_id ++ "." ++ (if String.eqb type_ "audio" then "mp3" else "mp4"))%string.

(** The paths [serve_file] looks at, in the order it does. *)
Definition served_candidates (video_id type_ : string) : list string :=
  OsPath.join DOWNLOAD_FOLDER (served_name video_id type_)
  :: map (fun ext => OsPath.join DOWNLOAD_FOLDER (video_id ++ ext)%string)
       [".mp3"; ".mp4"; ".webm"; ".m4a"].

(** The first of [paths] that exists. *)
Fixpoint first_existing (fs : gmap string Z) (paths : list string) : option string :=
  match paths with
  | [] => None
  | p :: paths' => if bool_decide (is_Some (fs !! p)) then Some p else first_existing fs paths'
  end.

(** The registry entry [upload_to_telegram_background] ends with. *)
Definition finished_entry (upload_result : Dict) (now : Z) : Dict :=
  [("status", VStr (if dict_str_is "status" upload_result "success"
                    then "completed" else "failed"));
   ("result", VDict upload_result);
   ("completed_time", VInt now)].

(** The body [song] and [video] share, for the kind [media]. *)
Definition media_endpoint (E : Collaborators) (C : Config) (dm : DownloadManager.t)
    (media video_id request : string) (upload : bool)
    : Eff App (JSONResponse * list BackgroundTask) :=
  try_except
    (let* download_info :=
       DownloadManager.download_media E C dm video_id media (Some request) in
     let* status := DownloadManager.dict_item "status" download_info in
     if match status with VStr s => String.eqb s "success" | _ => false end then
       let* link := DownloadManager.dict_item "link" download_info in
       let response_data :=
         [("status", VStr "done");
          ("link", link);
          ("type", dict_get_default "type" download_info (VStr "stream"));
          ("video_id", VStr video_id);
          ("source", dict_get_default "source" download_info (VStr "unknown"))] in
       if upload && dict_str_is "source" download_info "local_downloader"
          && dict_has "file_path" download_info then
         let* file_path := DownloadManager.dict_item "file_path" download_info in
         let task := mkBackgroundTask video_id media (DownloadManager.as_str file_path) in
         let response_data := dict_set "background_upload" (VStr "started") response_data in
         let response_data :=
           dict_set "upload_task_id" (VStr (video_id ++ "_" ++ media)%string) response_data in
         ret (mkJSONResponse response_data 200, [task])
       else ret (mkJSONResponse response_data 200, [])
     else
       ret (mkJSONResponse
              [("status", VStr "error");
               ("message", dict_get_default "message" download_info (VStr "Download failed"))]
              500, []))
    (fun e =>
       ret (mkJSONResponse [("status", VStr "error"); ("message", VStr (exn_str e))] 500, [])).

(** What [song] and [video] answer in state [s']: 200 and "done", with at
    most one upload task, which is for a file that exists, or 500 and
    "error", with none. *)
Definition media_answer (media video_id : string) (upload : bool) (s' : App)
    (response : JSONResponse) (tasks : list BackgroundTask) : Prop :=
  status_code response = 200
  /\ dict_get "status" (content response) = Some (VStr "done")
  /\ (tasks = [] /\ dict_has "upload_task_id" (content response) = false
      \/ upload = true
         /\ dict_get "upload_task_id" (content response)
            = Some (VStr (video_id ++ "_" ++ media)%string)
         /\ exists file_path,
              tasks = [mkBackgroundTask video_id media file_path]
              /\ is_Some (files (ext s') !! file_path))
  \/ status_code response = 500
     /\ dict_get "status" (content response) = Some (VStr "error")
     /\ tasks = [].

(** The identifier [download_endpoint] accepts. *)
Definition valid_video_id (video_id : string) : bool :=
  Str.truthy video_id && negb (py_len video_id <? 3)%nat.

(** The part of [s] in front of the first [c]. *)
Fixpoint before (c : ascii) (s : string) : string :=
  match s with
  | EmptyString => EmptyString
  | String a s' => if Ascii.eqb c a then EmptyString else String a (before c s')
  end.

(** [c] occurs in [s]. *)
Fixpoint occurs (c : ascii) (s : string) : bool :=
  match s with
  | EmptyString => false
  | String a s' => Ascii.eqb c a || occurs c s'
  end.

(** ** Theorems *)

(** C9. For every identifier and every kind other than exactly "audio" or
    "video", [download] raises [ValueError("Invalid type")] and the world is
    the one it started from: the trace is unchanged (nothing was slept,
    yt-dlp was not run), and so are the call counter, the clock and the
    file system. *)
Theorem download_invalid_type E video_id type_ x :
  type_ <> "audio" -> type_ <> "video" ->
  Downloader.download E video_id type_ x = (Raise (ValueError "Invalid type"), x).
Proof.
  intros Ha Hv. unfold Downloader.download.
  apply String.eqb_neq in Ha, Hv. rewrite Ha, Hv. reflexivity.
Qed.

Section DownloaderFacts.

Variable E : Collaborators.

Lemma retry_body_eq a opts url file_path k delay x :
  let out := yt_dlp E (ticks x) opts url in
  let fs' := write_file (outtmpl opts) (ydl_wrote out) (files x) in
  Downloader.retry_body E a opts url file_path k delay x =
    (Ok (attempt_ctl file_path out fs' k),
     mkExt fs'
       (if bool_decide (delay = 0) then clock x + latency E (ticks x)
        else clock x + delay + latency E (ticks x))
       (S (ticks x))
       (trace x ++ sleep_events delay ++ [EvYdl a k opts url out])).
Proof.
  intros out fs'.
  unfold Downloader.retry_body, attempt_ctl, except_ctl, sleep_events, bind, try_except,
    Downloader._run_ydl, Os.path_exists, asyncio_sleep, ret, log, tick, set_files.
  case_bool_decide; simpl; fold out; fold fs'.
  - destruct (ydl_error out) as [msg|]; simpl.
    + unfold Downloader.format_or_rate_limited, Downloader.format_unavailable.
      destruct (Str.contains "requested format is not available" (Str.lower msg)); simpl;
        [reflexivity|].
      destruct (_ && _); destruct (k =? 3)%nat; reflexivity.
    + case_bool_decide; reflexivity.
  - rewrite <- app_assoc. simpl.
    destruct (ydl_error out) as [msg|]; simpl.
    + unfold Downloader.format_or_rate_limited, Downloader.format_unavailable.
      destruct (Str.contains "requested format is not available" (Str.lower msg)); simpl;
        [reflexivity|].
      destruct (_ && _); destruct (k =? 3)%nat; reflexivity.
    + case_bool_decide; reflexivity.
Qed.

Lemma app_split_cases {A} (l1 l2 pre post : list A) e :
  l1 ++ l2 = pre ++ e :: post ->
  (exists m, l1 = pre ++ e :: m /\ post = m ++ l2)
  \/ (exists m, pre = l1 ++ m /\ l2 = m ++ e :: post).
Proof.
  revert pre. induction l1 as [|a l1 IH]; intros pre H; simpl in H.
  - right. exists pre. auto.
  - destruct pre as [|b pre]; simpl in H; injection H as -> H.
    + left. exists l1. subst. auto.
    + destruct (IH _ H) as [[m [-> ->]]|[m [-> ->]]].
      * left. exists m. auto.
      * right. exists m. auto.
Qed.

Lemma app_split_right {A} (Q : A -> bool) (l1 l2 pre post : list A) e :
  l1 ++ l2 = pre ++ e :: post ->
  forallb (fun y => negb (Q y)) l1 = true -> Q e = true ->
  exists m, pre = l1 ++ m /\ l2 = m ++ e :: post.
Proof.
  intros H Hl He. destruct (app_split_cases _ _ _ _ _ H) as [[m [-> ->]]|Hr]; [|exact Hr].
  rewrite forallb_app in Hl. simpl in Hl. rewrite He in Hl. simpl in Hl.
  rewrite andb_false_r in Hl. discriminate.
Qed.

Lemma sleep_events_not_fetch delay (Q : Event -> bool) :
  (forall d, Q (EvSleep d) = false) ->
  forallb (fun y => negb (Q y)) (sleep_events delay) = true.
Proof.
  intros HQ. unfold sleep_events. case_bool_decide; simpl; [reflexivity|].
  rewrite HQ. reflexivity.
Qed.

Lemma attempt_ctl_format_unavailable a k opts url path out fs :
  raised_format_unavailable (EvYdl a k opts url out) = true ->
  attempt_ctl path out fs k = Break.
Proof.
  unfold raised_format_unavailable, attempt_ctl, except_ctl.
  destruct (ydl_error out) as [msg|]; [|discriminate]. intros ->. reflexivity.
Qed.

Lemma attempt_ctl_fetched a k opts url path out fs :
  fetched path (EvYdl a k opts url out) = true ->
  attempt_ctl path out (write_file (outtmpl opts) (ydl_wrote out) fs) k = Return path.
Proof.
  unfold fetched, attempt_ctl. intros H. apply andb_prop in H as [Hp H].
  apply String.eqb_eq in Hp. subst path.
  destruct (ydl_error out); [discriminate|].
  destruct (ydl_wrote out) as [n|]; [|discriminate]. simpl.
  rewrite lookup_insert_eq. rewrite bool_decide_eq_true_2; [reflexivity|eauto].
Qed.

Lemma retry_loop_spec a opts url path sched x :
  outtmpl opts = path ->
  exists r t x',
    Downloader.retry_loop E a opts url path sched x = (Ok r, x')
    /\ trace x' = trace x ++ t
    /\ Forall (fun e => is_sleep e = true \/ attempt_of e = Some a) t
    /\ (forall pre e post, t = pre ++ e :: post ->
         raised_format_unavailable e = true -> post = [] /\ r = None)
    /\ (forall pre e post, t = pre ++ e :: post ->
         fetched path e = true -> post = [] /\ r = Some path)
    /\ (forall k rest, sched = (k, 0) :: rest ->
         exists out t', t = EvYdl a k opts url out :: t')
    /\ (forall p, r = Some p -> p = path /\ is_Some (files x' !! path)).
Proof.
  intros Hout. revert x. induction sched as [|[k delay] sched IH]; intros x.
  - exists None, [], x. simpl. unfold ret. rewrite app_nil_r.
    split; [reflexivity|]. split; [reflexivity|]. split; [constructor|].
    split; [|split; [|split]].
    + intros pre e post H; destruct pre; discriminate.
    + intros pre e post H; destruct pre; discriminate.
    + intros k rest H; discriminate.
    + intros p H; discriminate.
  - simpl. unfold bind at 1. rewrite retry_body_eq.
    set (out := yt_dlp E (ticks x) opts url).
    set (fs' := write_file (outtmpl opts) (ydl_wrote out) (files x)).
    set (ev := EvYdl a k opts url out).
    set (x1 := mkExt _ _ _ _).
    assert (Hsl_fu : forallb (fun y => negb (raised_format_unavailable y)) (sleep_events delay) = true)
      by (apply sleep_events_not_fetch; reflexivity).
    assert (Hsl_ok : forallb (fun y => negb (fetched path y)) (sleep_events delay) = true)
      by (apply sleep_events_not_fetch; reflexivity).
    assert (Hall : Forall (fun e => is_sleep e = true \/ attempt_of e = Some a)
                     (sleep_events delay ++ [ev])).
    { apply Forall_app. split.
      - unfold sleep_events. case_bool_decide; repeat constructor.
      - constructor; [right; reflexivity|constructor]. }
    assert (Hfirst : forall k' rest, (k, delay) :: sched = (k', 0) :: rest ->
              forall tl, exists out' t', (sleep_events delay ++ [ev]) ++ tl
                                     = EvYdl a k' opts url out' :: t').
    { intros k' rest Heq tl. injection Heq as -> -> _. exists out. eexists. reflexivity. }
    assert (Hlast : forall (Q : Event -> bool) pre e post,
              forallb (fun y => negb (Q y)) (sleep_events delay) = true ->
              sleep_events delay ++ [ev] = pre ++ e :: post -> Q e = true ->
              e = ev /\ post = []).
    { intros Q pre e post HQ H He.
      destruct (app_split_right Q _ _ _ _ _ H HQ He) as [m [-> Hm]].
      destruct m as [|? [|? ?]]; simpl in Hm; try discriminate.
      injection Hm as <- <-. auto. }
    destruct (attempt_ctl path out fs' k) as [p| |] eqn:Hctl.
    + (* return file_path *)
      assert (p = path /\ is_Some (fs' !! path)) as [-> Hex].
      { unfold attempt_ctl in Hctl. destruct (ydl_error out).
        - unfold except_ctl in Hctl. repeat case_match; discriminate.
        - case_bool_decide; [|discriminate]. injection Hctl as <-. auto. }
      exists (Some path), (sleep_events delay ++ [ev]), x1. unfold ret.
      split; [reflexivity|]. split; [reflexivity|]. split; [exact Hall|].
      split; [|split; [|split]].
      * intros pre e post H He.
        destruct (Hlast _ _ _ _ Hsl_fu H He) as [-> ->].
        rewrite (attempt_ctl_format_unavailable _ _ _ _ _ _ _ He) in Hctl. discriminate.
      * intros pre e post H He.
        destruct (Hlast _ _ _ _ Hsl_ok H He) as [-> ->]. auto.
      * intros k' rest Heq. specialize (Hfirst _ _ Heq []).
        rewrite app_nil_r in Hfirst. exact Hfirst.
      * intros p Hp. injection Hp as <-. auto.
    + (* break *)
      exists None, (sleep_events delay ++ [ev]), x1. unfold ret.
      split; [reflexivity|]. split; [reflexivity|]. split; [exact Hall|].
      split; [|split; [|split]].
      * intros pre e post H He.
        destruct (Hlast _ _ _ _ Hsl_fu H He) as [-> ->]. auto.
      * intros pre e post H He.
        destruct (Hlast _ _ _ _ Hsl_ok H He) as [-> ->].
        pose proof (attempt_ctl_fetched _ _ _ _ _ _ (files x) He) as Hr.
        fold out fs' in Hr. rewrite Hr in Hctl. discriminate.
      * intros k' rest Heq. specialize (Hfirst _ _ Heq []).
        rewrite app_nil_r in Hfirst. exact Hfirst.
      * intros p Hp. discriminate.
    + (* next retry *)
      destruct (IH x1) as (r & t & x' & Hrun & Htr & Hev & Hfu & Hok & _ & Hres).
      exists r, ((sleep_events delay ++ [ev]) ++ t), x'.
      split; [exact Hrun|].
      split; [rewrite Htr; subst x1; simpl; rewrite !app_assoc; reflexivity|].
      split; [apply Forall_app; auto|].
      assert (Hnfu : raised_format_unavailable ev = false).
      { destruct (raised_format_unavailable ev) eqn:He; [|reflexivity].
        rewrite (attempt_ctl_format_unavailable _ _ _ _ _ _ _ He) in Hctl. discriminate. }
      assert (Hnok : fetched path ev = false).
      { destruct (fetched path ev) eqn:He; [|reflexivity].
        pose proof (attempt_ctl_fetched _ _ _ _ _ _ (files x) He) as Hr.
        fold out fs' in Hr. rewrite Hr in Hctl. discriminate. }
      split; [|split; [|split]].
      * intros pre e post H He.
        assert (Hl : forallb (fun y => negb (raised_format_unavailable y))
                       (sleep_events delay ++ [ev]) = true).
        { rewrite forallb_app, Hsl_fu. cbn [forallb andb]. rewrite Hnfu. reflexivity. }
        destruct (app_split_right _ _ _ _ _ _ H Hl He) as [m [-> Hm]].
        eapply Hfu; eauto.
      * intros pre e post H He.
        assert (Hl : forallb (fun y => negb (fetched path y))
                       (sleep_events delay ++ [ev]) = true).
        { rewrite forallb_app, Hsl_ok. cbn [forallb andb]. rewrite Hnok. reflexivity. }
        destruct (app_split_right _ _ _ _ _ _ H Hl He) as [m [-> Hm]].
        eapply Hok; eauto.
      * intros k' rest Heq. exact (Hfirst _ _ Heq t).
      * exact Hres.
Qed.

Lemma tries_loop_spec url path tries a x :
  Forall (fun o => outtmpl o = path) tries ->
  exists r t x',
    Downloader.tries_loop E url path (enumerate_from a tries) x = (r, x')
    /\ trace x' = trace x ++ t
    /\ Forall (fun e => is_sleep e = true
                      \/ exists a', attempt_of e = Some a' /\ (a <= a')%nat) t
    /\ (t = [] /\ r = Raise (RuntimeError "attempts failed")
        \/ exists o out t', t = EvYdl a 0 o url out :: t')
    /\ (forall pre e post i, t = pre ++ e :: post ->
         raised_format_unavailable e = true -> attempt_of e = Some i ->
         Forall (fun e' => attempt_of e' <> Some i) post
         /\ (post = [] /\ r = Raise (RuntimeError "attempts failed")
             \/ exists o out post', post = EvYdl (S i) 0 o url out :: post'))
    /\ (forall pre e post, t = pre ++ e :: post ->
         fetched path e = true -> post = [] /\ r = Ok path)
    /\ (forall p, r = Ok p -> p = path /\ is_Some (files x' !! path)).
Proof.
  intros Hall. revert a x. induction Hall as [|o tries Ho Hall IH]; intros a x.
  - exists (Raise (RuntimeError "attempts failed")), [], x. simpl. unfold raise.
    rewrite app_nil_r.
    split; [reflexivity|]. split; [reflexivity|]. split; [constructor|].
    split; [left; auto|]. split; [|split].
    + intros pre e post i H; destruct pre; discriminate.
    + intros pre e post H; destruct pre; discriminate.
    + intros p H; discriminate.
  - cbn [Downloader.tries_loop enumerate_from]. unfold bind at 1.
    destruct (retry_loop_spec a o url path (enumerate Downloader.backoff) x Ho)
      as (r1 & t1 & x1 & Hrun & Htr1 & Hev1 & Hfu1 & Hok1 & Hfirst1 & Hres1).
    rewrite Hrun.
    destruct (Hfirst1 0%nat _ eq_refl) as (out0 & t1' & Ht1).
    destruct r1 as [p|].
    + destruct (Hres1 p eq_refl) as [-> Hex].
      exists (Ok path), t1, x1. unfold ret.
      split; [reflexivity|]. split; [exact Htr1|].
      split.
      { eapply Forall_impl; [exact Hev1|]. intros e [He|He]; [left; exact He|].
        right. exists a. auto. }
      split; [right; eauto|]. split; [|split].
      * intros pre e post i H He Hi. destruct (Hfu1 _ _ _ H He) as [_ Hn]. discriminate.
      * intros pre e post H He. destruct (Hok1 _ _ _ H He) as [-> _]. auto.
      * intros p Hp. injection Hp as <-. auto.
    + destruct (IH (S a) x1) as (r & t2 & x' & Hrun2 & Htr2 & Hev2 & Hfirst2 & Hfu2 & Hok2 & Hres2).
      exists r, (t1 ++ t2), x'.
      split; [exact Hrun2|].
      split; [rewrite Htr2, Htr1, app_assoc; reflexivity|].
      split.
      { apply Forall_app. split.
        - eapply Forall_impl; [exact Hev1|]. intros e [He|He]; [left; exact He|].
          right. exists a. auto.
        - eapply Forall_impl; [exact Hev2|]. intros e [He|(a' & He & Hle)]; [left; exact He|].
          right. exists a'. split; [exact He|lia]. }
      split; [right; rewrite Ht1; simpl; eauto|].
      split; [|split].
      * intros pre e post i H He Hi.
        destruct (app_split_cases _ _ _ _ _ H) as [(m & Hm & ->)|(m & -> & Hm)].
        -- destruct (Hfu1 _ _ _ Hm He) as [-> _]. simpl.
           assert (i = a) as ->.
           { rewrite Hm in Hev1. apply Forall_app in Hev1 as [_ Hev1].
             apply Forall_cons in Hev1 as [[Hs|Ha] _].
             - destruct e; simpl in *; discriminate.
             - congruence. }
           split.
           ++ eapply Forall_impl; [exact Hev2|].
              intros e' [Hs|(a' & Ha' & Hle)] Heq.
              ** destruct e'; simpl in *; discriminate.
              ** rewrite Ha' in Heq. injection Heq as ->. lia.
           ++ destruct Hfirst2 as [[-> ->]|(o' & out' & t' & ->)]; [left; auto|right; eauto].
        -- eapply Hfu2; eauto.
      * intros pre e post H He.
        destruct (app_split_cases _ _ _ _ _ H) as [(m & Hm & ->)|(m & -> & Hm)].
        -- destruct (Hok1 _ _ _ Hm He) as [_ Hn]. discriminate.
        -- eapply Hok2; eauto.
      * exact Hres2.
Qed.


End DownloaderFacts.

Lemma download_run E video_id type_ x :
  type_ = "audio" \/ type_ = "video" ->
  let path := canonical_path video_id type_ in
  exists tries,
    Forall (fun o => outtmpl o = path) tries
    /\ (is_Some (files x !! path) \/ length tries = 3%nat)
    /\ Downloader.download E video_id type_ x =
       if bool_decide (is_Some (files x !! path)) then (Ok path, x)
       else Downloader.tries_loop E (Downloader.video_url video_id) path
              (enumerate_from 0 tries) x.
Proof.
  intros [-> | ->]; cbv zeta; unfold canonical_path, Downloader.download.
  - rewrite !String.eqb_refl. unfold bind at 1. unfold Os.path_exists at 1.
    case_bool_decide as Hex.
    + exists []. split; [constructor|]. split; [left; exact Hex|reflexivity].
    + eexists. split; [|split; [right|unfold bind, Downloader.audio_tries,
                          Downloader._build_base_opts, bind, Os.path_exists, ret, enumerate;
                          reflexivity]].
      * repeat constructor.
      * reflexivity.
  - change (String.eqb "video" "audio") with false. rewrite !String.eqb_refl. cbv iota.
    unfold bind at 1. unfold Os.path_exists at 1.
    case_bool_decide as Hex.
    + exists []. split; [constructor|]. split; [left; exact Hex|reflexivity].
    + eexists. split; [|split; [right|unfold bind, Downloader.video_tries,
                          Downloader._build_base_opts, bind, Os.path_exists, ret, enumerate;
                          reflexivity]].
      * repeat constructor.
      * reflexivity.
Qed.

(** C7. [download] is idempotent on the local file, for both kinds: when a
    file exists at the canonical path the path is returned and the world is
    unchanged (no fetch, no sleep); hence a call made in the world left by
    a successful call returns the same path and changes nothing. *)
Theorem download_idempotent E video_id type_ x :
  type_ = "audio" \/ type_ = "video" ->
  (is_Some (files x !! canonical_path video_id type_) ->
   Downloader.download E video_id type_ x = (Ok (canonical_path video_id type_), x))
  /\ (forall p x', Downloader.download E video_id type_ x = (Ok p, x') ->
      Downloader.download E video_id type_ x' = (Ok p, x')).
Proof.
  intros Ht.
  assert (Hhit : forall y, is_Some (files y !! canonical_path video_id type_) ->
            Downloader.download E video_id type_ y = (Ok (canonical_path video_id type_), y)).
  { intros y Hy. destruct (download_run E video_id type_ y Ht) as (tries & _ & _ & ->).
    rewrite bool_decide_eq_true_2 by exact Hy. reflexivity. }
  split; [apply Hhit|].
  intros p x' Hrun.
  destruct (download_run E video_id type_ x Ht) as (tries & Hall & _ & Heq).
  rewrite Heq in Hrun. case_bool_decide as Hex.
  - injection Hrun as <- <-. apply Hhit. exact Hex.
  - destruct (tries_loop_spec E (Downloader.video_url video_id) _ tries 0 x Hall)
      as (r & t & x1 & Hrun1 & _ & _ & _ & _ & _ & Hres).
    rewrite Hrun1 in Hrun. injection Hrun as -> ->.
    destruct (Hres p eq_refl) as [-> Hfile]. apply Hhit. exact Hfile.
Qed.


Lemma count_events_app p t1 t2 :
  count_events p (t1 ++ t2) = (count_events p t1 + count_events p t2)%nat.
Proof. induction t1 as [|e t1 IH]; simpl; [reflexivity|]. rewrite IH. lia. Qed.

Lemma count_events_none p (q : Event -> Prop) t :
  Forall q t -> (forall e, q e -> p e = false) -> count_events p t = 0%nat.
Proof.
  intros Hall Hq. induction Hall as [|e t He Hall IH]; simpl; [reflexivity|].
  rewrite (Hq e He), IH. reflexivity.
Qed.

Lemma download_search_calls E video_id type_ x :
  search_calls (snd (Downloader.download E video_id type_ x)) = search_calls x.
Proof.
  destruct (decide (type_ = "audio" \/ type_ = "video")) as [Ht|Ht].
  - destruct (download_run E video_id type_ x Ht) as (tries & Hall & _ & ->).
    case_bool_decide; [reflexivity|].
    destruct (tries_loop_spec E (Downloader.video_url video_id) _ tries 0 x Hall)
      as (r & t & x' & -> & Htr & Hev & _).
    unfold search_calls. simpl. rewrite Htr, count_events_app.
    rewrite (count_events_none _ _ _ Hev); [lia|].
    intros e [He|(a & He & _)]; destruct e; simpl in *; try discriminate; reflexivity.
  - assert (type_ <> "audio" /\ type_ <> "video") as [Ha Hv] by tauto.
    unfold Downloader.download.
    apply String.eqb_neq in Ha, Hv. rewrite Ha, Hv. reflexivity.
Qed.

Lemma local_download_media_total E ld video_id media_type x :
  exists local_result x1,
    LocalDownloadManager.download_media E ld video_id media_type x = (Ok local_result, x1)
    /\ search_calls x1 = search_calls x.
Proof.
  unfold LocalDownloadManager.download_media.
  destruct (negb (LocalDownloadManager.downloader_available ld)).
  - eexists _, _. split; reflexivity.
  - unfold try_except, bind.
    pose proof (download_search_calls E video_id media_type x) as Hc.
    destruct (Downloader.download E video_id media_type x) as [[p|e] x1]; simpl in Hc.
    + unfold Os.path_exists.
      destruct (Str.truthy p && bool_decide (is_Some (files x1 !! p)));
        eexists _, _; split; first [reflexivity|exact Hc].
    + eexists _, _. split; [reflexivity|exact Hc].
Qed.

Lemma local_download_media_shape E ld video_id media_type x :
  (exists p, fst (LocalDownloadManager.download_media E ld video_id media_type x)
             = Ok [("status", VStr "success"); ("file_path", VStr p);
                   ("video_id", VStr video_id); ("media_type", VStr media_type)])
  \/ (exists m, fst (LocalDownloadManager.download_media E ld video_id media_type x)
                = Ok [("status", VStr "error"); ("message", VStr m)]).
Proof.
  unfold LocalDownloadManager.download_media.
  destruct (negb (LocalDownloadManager.downloader_available ld)); [right; eexists; reflexivity|].
  unfold try_except, bind.
  destruct (Downloader.download E video_id media_type x) as [[p|e] x1].
  - unfold Os.path_exists.
    destruct (Str.truthy p && bool_decide (is_Some (files x1 !! p)));
      [left|right]; eexists; reflexivity.
  - right. eexists. reflexivity.
Qed.

(** The run of the scenario "first tier: format unavailable, second tier:
    the file is written". *)
Lemma download_second_tier E video_id type_ x size :
  type_ = "audio" \/ type_ = "video" ->
  files x !! canonical_path video_id type_ = None ->
  (forall opts, exists msg,
      ydl_error (yt_dlp E (ticks x) opts (Downloader.video_url video_id)) = Some msg
      /\ Downloader.format_unavailable (Str.lower msg) = true) ->
  (forall opts, yt_dlp E (S (ticks x)) opts (Downloader.video_url video_id)
                = mkYdlOutcome (Some size) None) ->
  exists x',
    Downloader.download E video_id type_ x = (Ok (canonical_path video_id type_), x')
    /\ files x' !! canonical_path video_id type_ = Some size
    /\ map attempt_of (trace x') = map attempt_of (trace x) ++ [Some 0%nat; Some 1%nat].
Proof.
  intros Ht Hfile H1 H2.
  destruct (download_run E video_id type_ x Ht) as (tries & Hall & Hlen & ->).
  rewrite bool_decide_eq_false_2 by (rewrite Hfile; intros [? ?]; discriminate).
  destruct Hlen as [[? Hs]|Hlen]; [rewrite Hfile in Hs; discriminate|].
  destruct tries as [|t0 [|t1 [|t2 [|? ?]]]]; try discriminate.
  apply Forall_cons in Hall as [H0 Hall]. apply Forall_cons in Hall as [Ht1 _].
  set (path := canonical_path video_id type_) in *.
  cbn [enumerate_from Downloader.tries_loop]. unfold bind at 1.
  change (enumerate Downloader.backoff) with [(0%nat, 0); (1%nat, 1); (2%nat, 2); (3%nat, 4)].
  cbn [Downloader.retry_loop]. unfold bind at 1. rewrite retry_body_eq.
  destruct (H1 t0) as (msg & Herr & Hfu).
  unfold attempt_ctl at 1. rewrite Herr. unfold except_ctl. rewrite Hfu.
  unfold ret at 1. unfold bind at 1. unfold bind at 1. rewrite retry_body_eq.
  cbn [ticks]. rewrite H2. unfold attempt_ctl. cbn [ydl_error ydl_wrote write_file files].
  rewrite Ht1. rewrite bool_decide_eq_true_2 by (rewrite lookup_insert_eq; eauto).
  unfold ret. eexists. split; [reflexivity|]. cbn [files trace].
  split; [apply lookup_insert_eq|].
  rewrite !map_app. simpl. rewrite <- app_assoc. reflexivity.
Qed.

Lemma search_hit E db video_id s cached_info :
  fresh_entry video_id s = Some cached_info ->
  TelegramDBManager.search_in_db_channel E db video_id s
  = (Ok (Some cached_info), entered video_id s).
Proof.
  intros H. unfold fresh_entry in H.
  unfold TelegramDBManager.search_in_db_channel, bind, lift, modify, get_state, time_time, ret.
  simpl. destruct (channel_cache s !! video_id) as [[info ts]|]; [|discriminate].
  destruct (clock (ext s) - ts <? CACHE_TTL); [|discriminate].
  injection H as ->. reflexivity.
Qed.

Lemma search_miss E db video_id s :
  fresh_entry video_id s = None ->
  TelegramDBManager.search_in_db_channel E db video_id s
  = let '(found, x') := remote_search E db video_id (ext (entered video_id s)) in
    (Ok found,
     match found with
     | Some file_info =>
         with_cache (<[video_id := (file_info, clock x')]> (channel_cache s)) (with_ext x' s)
     | None => with_ext x' s
     end).
Proof.
  intros H. unfold fresh_entry in H.
  unfold TelegramDBManager.search_in_db_channel, remote_search.
  unfold bind at 1. unfold lift at 1. unfold modify at 1. cbn [ext].
  unfold bind at 1. unfold get_state at 1.
  unfold bind at 1. unfold lift at 1. unfold time_time at 1.
  cbn [ext channel_cache clock log].
  replace (match channel_cache s !! video_id with
           | Some (cached_info, timestamp) =>
               if clock (ext s) - timestamp <? CACHE_TTL then Some cached_info else None
           | None => None
           end) with (@None Dict).
  unfold try_except, bind. unfold lift at 1. cbn [ext entered log].
  destruct (TelegramDBManager.get_chat_history E db None _) as [[[[status ok] result]|e] x1];
    [|reflexivity].
  destruct (if (status =? 200) && ok then _ else None) as [file_info|].
  - reflexivity.
  - unfold lift at 1. cbn [ext].
    destruct (TelegramDBManager._deep_search_channel E db video_id x1) as [[[fi|]|e] x2];
      reflexivity.
Qed.

Lemma scan_messages_found video_id messages file_info :
  TelegramDBManager.scan_messages video_id messages = Some file_info ->
  extracted_from_message video_id file_info.
Proof.
  induction messages as [|m messages IH]; simpl; [discriminate|].
  destruct (Str.contains video_id (TelegramDBManager.caption_or_text m)) eqn:Hc; [|exact IH].
  destruct (TelegramDBManager._extract_file_info m video_id) as [fi|] eqn:Hx; [|exact IH].
  intros H. injection H as <-. exists m. auto.
Qed.

Lemma get_chat_history_run E db offset_id x :
  exists r,
    TelegramDBManager.get_chat_history E db offset_id x
    = (r, log (EvGetChatHistory offset_id (getChatHistory E (ticks x) offset_id))
            (tick (latency E (ticks x)) x)).
Proof.
  unfold TelegramDBManager.get_chat_history.
  destruct (getChatHistory E (ticks x) offset_id); eexists; reflexivity.
Qed.

Lemma deep_search_pages_spec E db video_id pages offset_id x :
  exists r t x',
    TelegramDBManager.deep_search_pages E db video_id pages offset_id x = (r, x')
    /\ trace x' = trace x ++ t
    /\ forallb is_history_event t = true
    /\ files x' = files x
    /\ (forall file_info, r = Ok (Some file_info) -> extracted_from_message video_id file_info).
Proof.
  revert offset_id x. induction pages as [|pages IH]; intros offset_id x.
  - exists (Ok None), [], x. simpl. rewrite app_nil_r. repeat split; try reflexivity.
    intros fi H. discriminate.
  - cbn [TelegramDBManager.deep_search_pages]. unfold bind at 1.
    destruct (get_chat_history_run E db (Some offset_id) x) as [r0 Hr0]. rewrite Hr0.
    set (x1 := log _ _).
    assert (Hstop : forall r, (forall fi, r = Ok (Some fi) -> extracted_from_message video_id fi) ->
              exists (r' : Res (option Dict)) t x',
                (r, x1) = (r', x') /\ trace x' = trace x ++ t
                /\ forallb is_history_event t = true /\ files x' = files x
                /\ (forall fi, r' = Ok (Some fi) -> extracted_from_message video_id fi)).
    { intros r Hr. exists r, [EvGetChatHistory (Some offset_id)
                                 (getChatHistory E (ticks x) (Some offset_id))], x1.
      repeat split; auto. }
    destruct r0 as [[[status ok] messages]|e].
    + destruct (negb (status =? 200)); [apply Hstop; intros fi H; discriminate|].
      destruct (negb ok || bool_decide (messages = [])); [apply Hstop; intros fi H; discriminate|].
      destruct (TelegramDBManager.scan_messages video_id messages) as [fi|] eqn:Hscan.
      * apply Hstop. intros fi' H. injection H as <-. eapply scan_messages_found; eauto.
      * destruct (last messages) as [m|]; [|apply Hstop; intros fi H; discriminate].
        unfold bind at 1. destruct (message_id m) as [mid|]; simpl subscript.
        -- unfold ret at 1.
           destruct (IH mid x1) as (r & t & x' & Hrun & Htr & Hev & Hfs & Hfi).
           exists r, (EvGetChatHistory (Some offset_id)
                        (getChatHistory E (ticks x) (Some offset_id)) :: t), x'.
           split; [exact Hrun|]. split; [rewrite Htr; subst x1; simpl; rewrite <- app_assoc; reflexivity|].
           split; [simpl; exact Hev|]. split; [rewrite Hfs; reflexivity|exact Hfi].
        -- unfold raise. apply Hstop. intros fi H. discriminate.
    + apply Hstop. intros fi H. discriminate.
Qed.

Lemma remote_search_spec E db video_id x :
  exists t,
    trace (snd (remote_search E db video_id x))
    = trace x ++ EvGetChatHistory None (getChatHistory E (ticks x) None) :: t
    /\ forallb is_history_event t = true
    /\ files (snd (remote_search E db video_id x)) = files x
    /\ (forall file_info, fst (remote_search E db video_id x) = Some file_info ->
        extracted_from_message video_id file_info).
Proof.
  unfold remote_search.
  destruct (get_chat_history_run E db None x) as [r0 Hr0]. rewrite Hr0.
  set (x1 := log _ _).
  assert (Hstop : forall o, (forall fi, o = Some fi -> extracted_from_message video_id fi) ->
            exists t, trace (snd (o, x1))
                      = trace x ++ EvGetChatHistory None (getChatHistory E (ticks x) None) :: t
                      /\ forallb is_history_event t = true
                      /\ files (snd (o, x1)) = files x
                      /\ (forall fi, fst (o, x1) = Some fi -> extracted_from_message video_id fi)).
  { intros o Ho. exists []. repeat split; auto. }
  destruct r0 as [[[status ok] result]|e]; [|apply Hstop; intros fi H; discriminate].
  destruct (if (status =? 200) && ok then _ else None) as [fi|] eqn:Hscan.
  - apply Hstop. intros fi' H. injection H as <-.
    destruct ((status =? 200) && ok); [|discriminate]. eapply scan_messages_found; eauto.
  - unfold TelegramDBManager._deep_search_channel, try_except.
    destruct (deep_search_pages_spec E db video_id (Z.to_nat (500 / 100)) 0 x1)
      as (r & t & x' & Hrun & Htr & Hev & Hfs & Hfi).
    rewrite Hrun.
    assert (Htr' : trace x' = trace x ++ EvGetChatHistory None (getChatHistory E (ticks x) None) :: t).
    { rewrite Htr. subst x1. simpl. rewrite <- app_assoc. reflexivity. }
    destruct r as [[fi|]|e]; simpl; exists t; repeat split; auto; try discriminate.
    intros fi' H. apply Hfi. congruence.
Qed.

Lemma fresh_entry_delete video_id s :
  fresh_entry video_id (with_cache (delete video_id (channel_cache s)) s) = None.
Proof. unfold fresh_entry, with_cache. simpl. rewrite lookup_delete_eq. reflexivity. Qed.

Lemma remote_search_first_page E db video_id x result file_info :
  getChatHistory E (ticks x) None = HttpResponse 200 true result ->
  TelegramDBManager.scan_messages video_id result = Some file_info ->
  remote_search E db video_id x
  = (Some file_info,
     log (EvGetChatHistory None (HttpResponse 200 true result))
       (tick (latency E (ticks x)) x)).
Proof.
  intros Hreply Hscan. unfold remote_search, TelegramDBManager.get_chat_history.
  rewrite Hreply. cbn [Z.eqb Pos.eqb andb]. rewrite Hscan. reflexivity.
Qed.

(** C4. Let the cache hold [(cached_info, timestamp)] for [video_id]. A
    lookup at a clock reading less than [CACHE_TTL] after [timestamp]
    returns [cached_info] itself and only records the call: no request is
    sent and the cache is unchanged. A lookup at [CACHE_TTL] or more after
    [timestamp] does the remote search: it returns what the first page
    and then the deep search find, an entry made of a message of the
    channel or [None], never the stale entry for its own sake, and an
    entry it finds replaces the stale one in the cache with the current
    clock reading. In particular, when the first page answers 200 and ok
    and [scan_messages] finds an entry in it, that entry is returned and
    cached. Result and effects on the outside world are those of a lookup
    with the entry absent, and the first effect is a [getChatHistory]
    request. *)
Theorem search_cache_ttl E db video_id s cached_info timestamp :
  channel_cache s !! video_id = Some (cached_info, timestamp) ->
  (clock (ext s) - timestamp < CACHE_TTL ->
   TelegramDBManager.search_in_db_channel E db video_id s
   = (Ok (Some cached_info), entered video_id s))
  /\ (CACHE_TTL <= clock (ext s) - timestamp ->
      let absent := with_cache (delete video_id (channel_cache s)) s in
      let run := TelegramDBManager.search_in_db_channel E db video_id s in
      let run_absent := TelegramDBManager.search_in_db_channel E db video_id absent in
      let remote := remote_search E db video_id (ext (entered video_id s)) in
      fst run = Ok (fst remote)
      /\ ext (snd run) = snd remote
      /\ channel_cache (snd run)
         = match fst remote with
           | Some file_info =>
               <[video_id := (file_info, clock (snd remote))]> (channel_cache s)
           | None => channel_cache s
           end
      /\ (forall file_info, fst run = Ok (Some file_info) ->
          extracted_from_message video_id file_info)
      /\ (forall result file_info,
            getChatHistory E (ticks (ext s)) None = HttpResponse 200 true result ->
            TelegramDBManager.scan_messages video_id result = Some file_info ->
            fst run = Ok (Some file_info)
            /\ channel_cache (snd run) !! video_id
               = Some (file_info, clock (ext (snd run))))
      /\ fst run = fst run_absent
      /\ ext (snd run) = ext (snd run_absent)
      /\ exists rest,
           trace (ext (snd run))
           = trace (ext s) ++ EvEnter "search_in_db_channel" video_id
               :: EvGetChatHistory None (getChatHistory E (ticks (ext s)) None) :: rest).
Proof.
  intros Hc. split.
  - intros Hlt. apply search_hit. unfold fresh_entry. rewrite Hc.
    apply Z.ltb_lt in Hlt. rewrite Hlt. reflexivity.
  - intros Hge. cbv zeta.
    assert (Hmiss : fresh_entry video_id s = None).
    { unfold fresh_entry. rewrite Hc.
      destruct (Z.ltb_spec (clock (ext s) - timestamp) CACHE_TTL); [lia|reflexivity]. }
    rewrite (search_miss E db video_id s Hmiss).
    rewrite (search_miss E db video_id _ (fresh_entry_delete video_id s)).
    change (ext (entered video_id (with_cache (delete video_id (channel_cache s)) s)))
      with (ext (entered video_id s)).
    destruct (remote_search_spec E db video_id (ext (entered video_id s)))
      as (t & Htr & _ & _ & Hfi).
    pose proof (remote_search_first_page E db video_id (ext (entered video_id s))) as Hpage.
    destruct (remote_search E db video_id (ext (entered video_id s))) as [found x'].
    cbn [fst snd] in *. simpl in Htr.
    split; [reflexivity|]. split; [destruct found; reflexivity|].
    split; [destruct found; reflexivity|].
    split; [intros fi H; injection H as ->; apply Hfi; reflexivity|].
    split.
    { intros result fi Hreply Hscan.
      specialize (Hpage result fi Hreply Hscan). injection Hpage as -> ->.
      split; [reflexivity|]. cbn [with_cache with_ext channel_cache ext].
      apply lookup_insert_eq. }
    split; [reflexivity|]. split; [destruct found; reflexivity|].
    exists t. destruct found; simpl; rewrite Htr, <- app_assoc; reflexivity.
Qed.


Lemma upload_background_writes E dm uploader video_id media_type file_path s :
  DownloadManager.telegram_uploader dm = Some uploader ->
  exists s' started finished,
    DownloadManager.upload_to_telegram_background E dm video_id media_type file_path s
    = (Ok tt, s')
    /\ registry_writes s'
       = registry_writes s ++ [(task_key video_id media_type, started);
                               (task_key video_id media_type, finished)]
    /\ dict_get "status" started = Some (VStr "uploading")
    /\ terminal_status finished
    /\ background_upload_tasks s' !! task_key video_id media_type = Some finished.
Proof.
  intros Hup. unfold DownloadManager.upload_to_telegram_background. rewrite Hup.
  unfold try_except, bind. unfold lift at 1. unfold time_time at 1.
  unfold registry_put at 1. unfold modify at 1.
  unfold lift at 1. cbn [ext].
  destruct (TelegramUploader.upload_file E uploader file_path video_id media_type _ (ext s))
    as [[upload_result|e] x1].
  - unfold DownloadManager.dict_item, subscript.
    destruct (dict_get "status" upload_result) as [status|].
    + unfold ret at 1. unfold lift, time_time. cbn [ext clock].
      destruct (match status with VStr s0 => (s0 =? "success")%string | _ => false end);
        unfold registry_put, modify; cbn;
        eexists _, _, _; (split; [reflexivity|]);
        rewrite <- app_assoc; (split; [reflexivity|]); (split; [reflexivity|]);
        (split; [unfold terminal_status; simpl; auto|]); apply lookup_insert_eq.
    + unfold raise at 1. unfold lift, time_time, registry_put, modify. cbn.
      eexists _, _, _. split; [reflexivity|].
      rewrite <- app_assoc. split; [reflexivity|]. split; [reflexivity|].
      split; [unfold terminal_status; simpl; auto|]. apply lookup_insert_eq.
  - unfold lift, time_time, registry_put, modify. cbn.
    eexists _, _, _. split; [reflexivity|].
    rewrite <- app_assoc. split; [reflexivity|]. split; [reflexivity|].
    split; [unfold terminal_status; simpl; auto|]. apply lookup_insert_eq.
Qed.

(** C8. With an uploader configured, one run of
    [upload_to_telegram_background] assigns the registry exactly twice, both
    times under the key [video_id_media_type]: first an entry with status
    "uploading", then an entry with status "completed", "failed" or
    "error", which is the one the registry holds at the end. Once a
    terminal entry has been assigned, no later assignment of the run has
    status "uploading". *)
Theorem relay_task_status_is_monotonic E dm uploader video_id media_type file_path s :
  DownloadManager.telegram_uploader dm = Some uploader ->
  exists s' started finished,
    DownloadManager.upload_to_telegram_background E dm video_id media_type file_path s
    = (Ok tt, s')
    /\ registry_writes s'
       = registry_writes s ++ [(task_key video_id media_type, started);
                               (task_key video_id media_type, finished)]
    /\ dict_get "status" started = Some (VStr "uploading")
    /\ terminal_status finished
    /\ background_upload_tasks s' !! task_key video_id media_type = Some finished
    /\ (forall pre entry post,
          registry_writes s' = registry_writes s ++ pre ++ entry :: post ->
          terminal_status (snd entry) ->
          Forall (fun later => dict_get "status" (snd later) <> Some (VStr "uploading")) post).
Proof.
  intros Hup.
  destruct (upload_background_writes E dm uploader video_id media_type file_path s Hup)
    as (s' & started & finished & Hrun & Hw & Hst & Hterm & Hreg).
  exists s', started, finished. repeat (split; [assumption|]).
  intros pre entry post Hsplit Hentry. rewrite Hw in Hsplit.
  apply app_inv_head in Hsplit.
  destruct pre as [|first pre]; simpl in Hsplit.
  - injection Hsplit as <- _. simpl in Hentry.
    destruct Hentry as [H|[H|H]]; rewrite Hst in H; discriminate.
  - injection Hsplit as _ Hrest.
    destruct pre as [|second pre]; simpl in Hrest.
    + injection Hrest as _ <-. constructor.
    + injection Hrest as _ Hnil. destruct pre; discriminate.
Qed.

Lemma upload_background_unconfigured E dm video_id media_type file_path s :
  DownloadManager.telegram_uploader dm = None ->
  DownloadManager.upload_to_telegram_background E dm video_id media_type file_path s = (Ok tt, s).
Proof.
  intros H. unfold DownloadManager.upload_to_telegram_background. rewrite H. reflexivity.
Qed.

Lemma count_history_events t :
  forallb is_history_event t = true -> count_events is_search_entry t = 0%nat.
Proof.
  induction t as [|e t IH]; simpl; [reflexivity|].
  intros H. apply andb_prop in H as [He Ht]. rewrite (IH Ht).
  destruct e; simpl in *; try discriminate; reflexivity.
Qed.

Lemma search_in_db_channel_counted E db video_id s :
  exists found s',
    TelegramDBManager.search_in_db_channel E db video_id s = (Ok found, s')
    /\ search_calls (ext s') = S (search_calls (ext s)).
Proof.
  destruct (fresh_entry video_id s) as [info|] eqn:Hfresh.
  - rewrite (search_hit E db video_id s info Hfresh). eexists _, _. split; [reflexivity|].
    unfold search_calls, entered, log. simpl. rewrite count_events_app. simpl. lia.
  - rewrite (search_miss E db video_id s Hfresh).
    destruct (remote_search_spec E db video_id (ext (entered video_id s)))
      as (t & Htr & Hev & _).
    destruct (remote_search E db video_id (ext (entered video_id s))) as [found x'].
    simpl in Htr. eexists _, _. split; [reflexivity|].
    assert (Hc : search_calls x' = S (search_calls (ext s))).
    { unfold search_calls. rewrite Htr. unfold entered, log. simpl.
      rewrite !count_events_app. simpl. rewrite (count_history_events _ Hev). lia. }
    destruct found; exact Hc.
Qed.

Lemma get_file_download_url_total E db fid x :
  exists url x',
    TelegramDBManager.get_file_download_url E db fid x = (Ok url, x')
    /\ search_calls x' = search_calls x.
Proof.
  unfold TelegramDBManager.get_file_download_url, try_except, bind,
    TelegramDBManager.get_file.
  assert (Hc : forall reply, search_calls (log (EvGetFile fid reply) (tick (latency E (ticks x)) x))
                             = search_calls x).
  { intros reply. unfold search_calls, log. simpl. rewrite count_events_app. simpl. lia. }
  destruct (getFile E (ticks x) fid) as [e|status ok result] eqn:Hreply.
  - eexists _, _. split; [reflexivity|apply Hc].
  - destruct ((status =? 200) && ok).
    + destruct result as [file_path|]; eexists _, _; (split; [reflexivity|apply Hc]).
    + eexists _, _. split; [reflexivity|apply Hc].
Qed.

Lemma get_file_download_url_truthy E db fid x file_url :
  fst (TelegramDBManager.get_file_download_url E db fid x) = Ok (Some file_url) ->
  Str.truthy file_url = true.
Proof.
  unfold TelegramDBManager.get_file_download_url, try_except, bind,
    TelegramDBManager.get_file.
  destruct (getFile E (ticks x) fid) as [e|status ok result]; [discriminate|].
  destruct ((status =? 200) && ok); [|discriminate].
  destruct result as [file_path|]; [|discriminate].
  cbn. intros H. injection H as <-. reflexivity.
Qed.

Lemma orchestrator_table E C dm video_id media_type request s :
  exists local_result x1,
    LocalDownloadManager.download_media E (DownloadManager.local_downloader dm)
      video_id media_type (ext s) = (Ok local_result, x1)
    /\ search_calls x1 = search_calls (ext s)
    /\ let run := DownloadManager.download_media E C dm video_id media_type request s in
       if primary_succeeded local_result then
         exists file_path link,
           run = (Ok [("status", VStr "success"); ("type", VStr "local_file");
                      ("link", VStr link); ("file_path", VStr file_path);
                      ("video_id", VStr video_id); ("source", VStr "local_downloader")],
                  with_ext x1 s)
       else
         match DownloadManager.telegram_db dm with
         | None => run = (Ok (failure_result local_result), with_ext x1 s)
         | Some db =>
             exists found s2,
               TelegramDBManager.search_in_db_channel E db video_id (with_ext x1 s)
               = (Ok found, s2)
               /\ search_calls (ext s2) = S (search_calls x1)
               /\ match found with
                  | None => run = (Ok (failure_result local_result), s2)
                  | Some db_file =>
                      if negb (dict_truthy db_file)
                      then run = (Ok (failure_result local_result), s2)
                      else
                      match dict_get "file_id" db_file with
                      | None => run = (Raise (KeyError "file_id"), s2)
                      | Some fid =>
                          exists url x3,
                            TelegramDBManager.get_file_download_url E db
                              (DownloadManager.as_str fid) (ext s2) = (Ok url, x3)
                            /\ search_calls x3 = search_calls (ext s2)
                            /\ run = (Ok match url with
                                         | Some file_url =>
                                             [("status", VStr "success");
                                              ("type", VStr "db_channel");
                                              ("link", VStr file_url);
                                              ("video_id", VStr video_id);
                                              ("file_info", VDict db_file);
                                              ("source", VStr "telegram_db")]
                                         | None => failure_result local_result
                                         end,
                                      with_ext x3 s2)
                      end
                  end
         end.
Proof.
  destruct (local_download_media_total E (DownloadManager.local_downloader dm)
              video_id media_type (ext s)) as (local_result & x1 & Hlocal & Hc1).
  exists local_result, x1. split; [exact Hlocal|]. split; [exact Hc1|]. cbv zeta.
  pose proof (local_download_media_shape E (DownloadManager.local_downloader dm)
                video_id media_type (ext s)) as Hshape.
  rewrite Hlocal in Hshape. simpl in Hshape.
  remember (DownloadManager.download_media E C dm video_id media_type request s) as run eqn:Hrun.
  unfold DownloadManager.download_media in Hrun. unfold bind at 1 in Hrun.
  unfold lift at 1 in Hrun. rewrite Hlocal in Hrun.
  destruct Hshape as [[p Hp]|[m Hm]].
  - injection Hp as ->. unfold primary_succeeded, dict_str_is. simpl.
    eexists _, _. rewrite Hrun. reflexivity.
  - injection Hm as ->. unfold primary_succeeded, dict_str_is.
    unfold bind at 1 in Hrun. simpl in Hrun. simpl.
    change (mkApp x1 (channel_cache s) (background_upload_tasks s) (registry_writes s))
      with (with_ext x1 s) in Hrun.
    destruct (DownloadManager.telegram_db dm) as [db|]; [|rewrite Hrun; reflexivity].
    destruct (search_in_db_channel_counted E db video_id (with_ext x1 s))
      as (found & s2 & Hsearch & Hc2).
    exists found, s2. split; [exact Hsearch|]. split; [exact Hc2|].
    unfold bind at 1 in Hrun. rewrite Hsearch in Hrun.
    destruct found as [db_file|]; [|rewrite Hrun; reflexivity].
    destruct (dict_truthy db_file); cbn [negb]; [|rewrite Hrun; reflexivity].
    unfold bind at 1 in Hrun. unfold DownloadManager.dict_item, subscript in Hrun.
    destruct (dict_get "file_id" db_file) as [fid|]; [|rewrite Hrun; reflexivity].
    unfold ret at 1 in Hrun.
    destruct (get_file_download_url_total E db (DownloadManager.as_str fid) (ext s2))
      as (url & x3 & Hurl & Hc3).
    exists url, x3. split; [exact Hurl|]. split; [exact Hc3|].
    pose proof (get_file_download_url_truthy E db (DownloadManager.as_str fid) (ext s2))
      as Htruthy.
    unfold bind, lift in Hrun. rewrite Hurl in Hrun, Htruthy. rewrite Hrun.
    destruct url as [file_url|]; [|reflexivity].
    rewrite (Htruthy file_url eq_refl). reflexivity.
Qed.

Lemma orchestrator_local_link E C dm video_id media_type request s p x' :
  LocalDownloadManager.download_media E (DownloadManager.local_downloader dm)
    video_id media_type (ext s)
  = (Ok [("status", VStr "success"); ("file_path", VStr p);
         ("video_id", VStr video_id); ("media_type", VStr media_type)], x') ->
  DownloadManager.download_media E C dm video_id media_type request s
  = (Ok [("status", VStr "success"); ("type", VStr "local_file");
         ("link",
          VStr match request with
               | Some base_url => _make_full_link C base_url "/file" video_id
               | None =>
                   ("/file/" ++ video_id ++ "?api=" ++ API_KEY C ++ "&type=" ++ media_type)%string
               end);
         ("file_path", VStr p); ("video_id", VStr video_id);
         ("source", VStr "local_downloader")],
     with_ext x' s).
Proof.
  intros Hlocal. unfold DownloadManager.download_media.
  unfold bind at 1. unfold lift at 1. rewrite Hlocal. reflexivity.
Qed.

(** C5, amended. The primary engine always answers. If its status is
    "success", [search_in_db_channel] is not called and the answer is the
    local link: the link built from the request by [_make_full_link], or
    the relative link when there is no request, together with the path of
    the file. If it is not and a directory manager is configured,
    [search_in_db_channel] is called exactly once, and the answer is an
    error exactly when the search found nothing, [None] or an empty
    entry, or the file reference of the entry it found could not be
    resolved to a URL. If no directory manager is configured the search
    is not called and the answer is the error. *)
Theorem orchestrator_fallback_order E C dm video_id media_type request s :
  let local := LocalDownloadManager.download_media E (DownloadManager.local_downloader dm)
                 video_id media_type (ext s) in
  let run := DownloadManager.download_media E C dm video_id media_type request s in
  exists local_result,
    fst local = Ok local_result
    /\ (primary_succeeded local_result = true ->
        search_calls (ext (snd run)) = search_calls (ext s)
        /\ exists result,
             fst run = Ok result
             /\ dict_get "status" result = Some (VStr "success")
             /\ dict_get "type" result = Some (VStr "local_file")
             /\ dict_get "source" result = Some (VStr "local_downloader")
             /\ dict_get "link" result
                = Some (VStr match request with
                             | Some base_url => _make_full_link C base_url "/file" video_id
                             | None =>
                                 ("/file/" ++ video_id ++ "?api=" ++ API_KEY C
                                  ++ "&type=" ++ media_type)%string
                             end)
             /\ dict_get "file_path" result = dict_get "file_path" local_result
             /\ is_Some (dict_get "file_path" local_result))
    /\ (primary_succeeded local_result = false ->
        match DownloadManager.telegram_db dm with
        | None =>
            search_calls (ext (snd run)) = search_calls (ext s)
            /\ fst run = Ok (failure_result local_result)
        | Some db =>
            search_calls (ext (snd run)) = S (search_calls (ext s))
            /\ exists found s2,
                 TelegramDBManager.search_in_db_channel E db video_id (with_ext (snd local) s)
                 = (Ok found, s2)
                 /\ forall result,
                      fst run = Ok result ->
                      (dict_get "status" result = Some (VStr "error") <->
                       found = None
                       \/ found = Some []
                       \/ exists db_file fid,
                            found = Some db_file
                            /\ dict_get "file_id" db_file = Some fid
                            /\ fst (TelegramDBManager.get_file_download_url E db
                                      (DownloadManager.as_str fid) (ext s2)) = Ok None)
        end).
Proof.
  cbv zeta.
  destruct (orchestrator_table E C dm video_id media_type request s)
    as (local_result & x1 & Hlocal & Hc1 & Htable).
  exists local_result. rewrite Hlocal. split; [reflexivity|]. cbv zeta in Htable.
  split.
  - intros Hok.
    pose proof (local_download_media_shape E (DownloadManager.local_downloader dm)
                  video_id media_type (ext s)) as Hshape.
    rewrite Hlocal in Hshape. cbn [fst] in Hshape.
    destruct Hshape as [[p Hp]|[m Hm]].
    + injection Hp as ->.
      rewrite (orchestrator_local_link E C dm video_id media_type request s p x1 Hlocal).
      cbn [fst snd ext with_ext]. split; [exact Hc1|]. eexists. split; [reflexivity|].
      repeat split; eauto.
    + injection Hm as ->. discriminate Hok.
  - intros Hfail. rewrite Hfail in Htable.
    destruct (DownloadManager.telegram_db dm) as [db|].
    + destruct Htable as (found & s2 & Hsearch & Hc2 & Hrest). simpl snd.
      destruct found as [db_file|].
      * destruct (dict_truthy db_file) eqn:Htruthy; cbn [negb] in Hrest.
        -- destruct (dict_get "file_id" db_file) as [fid|] eqn:Hfid.
           ++ destruct Hrest as (url & x3 & Hurl & Hc3 & ->). simpl.
              split; [congruence|].
              exists (Some db_file), s2. split; [exact Hsearch|].
              intros result Hres. injection Hres as <-.
              destruct url as [file_url|]; simpl.
              ** split; [discriminate|].
                 intros [Hn|[Hn|(d & f & Hd & Hf & Hu)]]; [discriminate| |].
                 --- injection Hn as ->. discriminate Htruthy.
                 --- injection Hd as <-. rewrite Hfid in Hf. injection Hf as <-.
                     rewrite Hurl in Hu. discriminate.
              ** split; [|reflexivity]. intros _. right. right. exists db_file, fid.
                 rewrite Hurl. auto.
           ++ rewrite Hrest. simpl. split; [congruence|].
              exists (Some db_file), s2. split; [exact Hsearch|].
              intros result Hres. discriminate.
        -- rewrite Hrest. simpl. split; [congruence|].
           exists (Some db_file), s2. split; [exact Hsearch|].
           intros result Hres. injection Hres as <-. simpl. split; [|reflexivity].
           intros _. right. left. destruct db_file; [reflexivity|discriminate Htruthy].
      * rewrite Hrest. simpl. split; [congruence|].
        exists None, s2. split; [exact Hsearch|].
        intros result Hres. injection Hres as <-. simpl. split; auto.
    + rewrite Htable. simpl. auto.
Qed.

Lemma local_download_media_success E ld video_id media_type x p x' :
  LocalDownloadManager.downloader_available ld = true ->
  Downloader.download E video_id media_type x = (Ok p, x') ->
  Str.truthy p = true ->
  is_Some (files x' !! p) ->
  LocalDownloadManager.download_media E ld video_id media_type x
  = (Ok [("status", VStr "success"); ("file_path", VStr p);
         ("video_id", VStr video_id); ("media_type", VStr media_type)], x').
Proof.
  intros Havail Hdl Hp Hfile. unfold LocalDownloadManager.download_media.
  rewrite Havail. cbn [negb]. unfold try_except, bind. rewrite Hdl.
  unfold Os.path_exists. rewrite Hp, bool_decide_eq_true_2 by exact Hfile. reflexivity.
Qed.

Lemma orchestrator_local_success E C dm video_id media_type request s p x' :
  LocalDownloadManager.download_media E (DownloadManager.local_downloader dm)
    video_id media_type (ext s)
  = (Ok [("status", VStr "success"); ("file_path", VStr p);
         ("video_id", VStr video_id); ("media_type", VStr media_type)], x') ->
  exists link,
    DownloadManager.download_media E C dm video_id media_type request s
    = (Ok [("status", VStr "success"); ("type", VStr "local_file"); ("link", VStr link);
           ("file_path", VStr p); ("video_id", VStr video_id);
           ("source", VStr "local_downloader")],
       with_ext x' s).
Proof.
  intros Hlocal. unfold DownloadManager.download_media.
  unfold bind at 1. unfold lift at 1. rewrite Hlocal.
  eexists. reflexivity.
Qed.

Lemma song_local_success E C dm video_id request s link p s1 :
  DownloadManager.download_media E C dm video_id "audio" (Some request) s
  = (Ok [("status", VStr "success"); ("type", VStr "local_file"); ("link", VStr link);
         ("file_path", VStr p); ("video_id", VStr video_id);
         ("source", VStr "local_downloader")], s1) ->
  song E C dm video_id request true s
  = (Ok (mkJSONResponse
           [("status", VStr "done"); ("link", VStr link); ("type", VStr "local_file");
            ("video_id", VStr video_id); ("source", VStr "local_downloader");
            ("background_upload", VStr "started");
            ("upload_task_id", VStr (video_id ++ "_audio")%string)] 200,
         [mkBackgroundTask video_id "audio" p]), s1).
Proof.
  intros Hdm. unfold song, try_except. unfold bind at 1. rewrite Hdm. reflexivity.
Qed.

(** C6, amended. A request for song "abc123" with the right key, with no
    local file, a first fetch that fails with "format not available" and a
    second fetch that writes a 40MB file: the answer has code 200, status
    "done", type "local_file", source "local_downloader" and
    upload_task_id "abc123_audio", and the background upload it starts
    assigns the registry key "abc123_audio" first an entry with status
    "uploading" and then one more entry. *)
Theorem song_scenario E C dm uploader request s :
  LocalDownloadManager.downloader_available (DownloadManager.local_downloader dm) = true ->
  DownloadManager.telegram_uploader dm = Some uploader ->
  files (ext s) !! "downloads/abc123.webm" = None ->
  (forall opts, exists msg,
      ydl_error (yt_dlp E (ticks (ext s)) opts (Downloader.video_url "abc123")) = Some msg
      /\ Downloader.format_unavailable (Str.lower msg) = true) ->
  (forall opts, yt_dlp E (S (ticks (ext s))) opts (Downloader.video_url "abc123")
                = mkYdlOutcome (Some (40 * 1024 * 1024)) None) ->
  exists response s' started finished,
    get_song E C dm "abc123" request (API_KEY C) true s = (Ok response, s')
    /\ status_code response = 200
    /\ dict_get "status" (content response) = Some (VStr "done")
    /\ dict_get "type" (content response) = Some (VStr "local_file")
    /\ dict_get "source" (content response) = Some (VStr "local_downloader")
    /\ dict_get "upload_task_id" (content response) = Some (VStr "abc123_audio")
    /\ registry_writes s'
       = registry_writes s ++ [("abc123_audio", started); ("abc123_audio", finished)]
    /\ dict_get "status" started = Some (VStr "uploading").
Proof.
  intros Havail Hup Hfile H1 H2.
  destruct (download_second_tier E "abc123" "audio" (ext s) (40 * 1024 * 1024)
              (or_introl eq_refl) Hfile H1 H2) as (x' & Hdl & Hfile' & _).
  change (canonical_path "abc123" "audio") with "downloads/abc123.webm" in *.
  pose proof (local_download_media_success E _ _ _ _ _ _ Havail Hdl eq_refl
                (ex_intro _ _ Hfile')) as Hlocal.
  destruct (orchestrator_local_success E C dm _ _ (Some request) s _ _ Hlocal) as [link Hdm].
  pose proof (song_local_success E C dm _ _ _ _ _ _ Hdm) as Hsong.
  destruct (upload_background_writes E dm uploader "abc123" "audio" "downloads/abc123.webm"
              (with_ext x' s) Hup)
    as (s' & started & finished & Hbg & Hw & Hst & _).
  unfold get_song, try_except. unfold bind at 1. unfold verify_api_key.
  rewrite String.eqb_refl. cbn [negb]. unfold ret at 1.
  unfold bind at 1. rewrite Hsong.
  cbn [run_background_tasks task_video_id task_media_type task_file_path].
  unfold bind at 1. unfold bind at 1. rewrite Hbg. unfold ret.
  eexists _, s', started, finished. split; [reflexivity|].
  cbn [status_code content].
  repeat (split; [reflexivity|]). split; [exact Hw|exact Hst].
Qed.

Lemma session_post_files E up api_method path size x :
  files (snd (TelegramUploader.session_post E up api_method path size x)) = files x.
Proof.
  unfold TelegramUploader.session_post. destruct (post E (ticks x) api_method path size); reflexivity.
Qed.

Lemma send_file_keeps_files E up compressed_path file_path media_type file_ext file_size x :
  Str.truthy compressed_path && negb (String.eqb compressed_path file_path) = false ->
  files (snd (TelegramUploader.send_file E up compressed_path file_path media_type
                file_ext file_size x)) = files x.
Proof.
  intros Hcond. unfold TelegramUploader.send_file. rewrite Hcond.
  unfold bind at 1. unfold Os.open_rb.
  destruct (files x !! file_path); [|reflexivity].
  unfold bind at 1. unfold try_except at 1. unfold bind at 1.
  pose proof (session_post_files E up
                (TelegramUploader.choose_api_method media_type file_ext file_size)
                file_path file_size x) as Hp.
  destruct (TelegramUploader.session_post E up _ file_path file_size x)
    as [[[[status ok] result]|e] x2]; simpl in Hp.
  - destruct (status =? 200).
    + destruct ok; [|exact Hp].
      destruct result as [message|]; [|exact Hp].
      simpl. unfold bind, ret, subscript.
      destruct (message_id message); simpl; exact Hp.
    + simpl. unfold bind, ret. destruct (status =? 413); exact Hp.
  - destruct e; simpl; exact Hp.
Qed.

(** Whatever the upload answers, [upload_file] leaves the file system as
    [_compress_if_needed] left it: the clean-up of lines 236 and 255 never
    runs, because [file_path] has been reassigned to [compressed_path]. *)
Lemma upload_file_never_cleans_up E up file_path video_id media_type caption x size :
  files x !! file_path = Some size ->
  files (snd (TelegramUploader.upload_file E up file_path video_id media_type caption x))
  = files (snd (TelegramUploader._compress_if_needed E up file_path media_type size x)).
Proof.
  intros Hsize. unfold TelegramUploader.upload_file, try_except.
  unfold bind at 1. unfold Os.path_exists at 1.
  rewrite bool_decide_eq_true_2 by (rewrite Hsize; eauto). cbn [negb].
  unfold bind at 1. unfold Os.path_getsize at 1. rewrite Hsize.
  unfold bind at 1.
  destruct (TelegramUploader._compress_if_needed E up file_path media_type size x)
    as [[compressed_path|e] x1]; [|reflexivity].
  cbn [snd].
  assert (Htail : forall fp fsize fext,
            Str.truthy compressed_path && negb (String.eqb compressed_path fp) = false ->
            files (snd (let (r, s') :=
                          TelegramUploader.send_file E up compressed_path fp media_type
                            fext fsize x1 in
                        match r with
                        | Ok a => (Ok a, s')
                        | Raise e =>
                            ret (TelegramUploader.error_result
                                   ("Upload error: " ++ exn_str e)%string) s'
                        end)) = files x1).
  { intros fp fsize fext Hcond.
    pose proof (send_file_keeps_files E up compressed_path fp media_type fext fsize x1 Hcond)
      as Hs.
    destruct (TelegramUploader.send_file E up compressed_path fp media_type fext fsize x1)
      as [[a|e] s']; exact Hs. }
  destruct (Str.truthy compressed_path && negb (String.eqb compressed_path file_path)) eqn:Hcond.
  - unfold bind at 1. unfold bind at 1. unfold Os.path_getsize at 1.
    destruct (files x1 !! compressed_path) as [csize|]; [|reflexivity].
    unfold ret at 1.
    apply (Htail compressed_path csize).
    rewrite String.eqb_refl. apply andb_false_r.
  - unfold bind at 1. unfold ret at 1.
    apply (Htail file_path size). exact Hcond.
Qed.

(** The flaw behind the oversized result: when every re-encode succeeds
    with an output over the limit, the loop still ends with [success]
    true. *)
Lemma bitrate_loop_all_oversized (compress : string -> Eff Ext bool) temp_path file_limit
    bitrates success x :
  (forall bitrate y, exists y' n,
      compress bitrate y = (Ok true, y')
      /\ files y' !! temp_path = Some n /\ file_limit < n) ->
  bitrates <> [] ->
  exists x' n,
    TelegramUploader.bitrate_loop compress temp_path file_limit bitrates success x = (Ok true, x')
    /\ files x' !! temp_path = Some n /\ file_limit < n.
Proof.
  intros Hc. revert success x. induction bitrates as [|b bitrates IH]; intros success x Hne;
    [congruence|].
  cbn [TelegramUploader.bitrate_loop]. unfold bind at 1.
  destruct (Hc b x) as (y' & n & -> & Hn & Hlt).
  unfold bind at 1. unfold Os.path_getsize at 1. rewrite Hn.
  destruct (Z.leb_spec n file_limit); [lia|].
  destruct bitrates as [|b' bitrates'].
  - exists y', n. auto.
  - apply IH. discriminate.
Qed.

(** C1 (the code breaks the claim). A 60MB audio file whose three
    re-encodes succeed with 57MB, 56MB and 55MB: [_compress_if_needed]
    returns the temporary file, still larger than the 50MB limit, after
    three transcoder runs, and not the original path. *)
Theorem compress_returns_oversized_audio :
  let run := TelegramUploader._compress_if_needed (scripted 0 (58 * MB) upload_accepted)
               the_uploader "downloads/big.webm" "audio" (60 * MB)
               (one_file "downloads/big.webm" (60 * MB)) in
  fst run = Ok "/tmp/tmpk3v9qz.webm"
  /\ files (snd run) !! "/tmp/tmpk3v9qz.webm" = Some (55 * MB)
  /\ TELEGRAM_FILE_LIMIT < 55 * MB
  /\ count_events (fun e => match e with EvFfmpeg _ _ => true | _ => false end)
       (trace (snd run)) = 3%nat.
Proof. vm_compute. repeat split. Qed.

(** The same for the MP4 ladder after a rejected WebM conversion. *)
Example compress_returns_oversized_video :
  let run := TelegramUploader._compress_if_needed (scripted 0 (58 * MB) upload_accepted)
               the_uploader "downloads/big.mp4" "video" (60 * MB)
               (one_file "downloads/big.mp4" (60 * MB)) in
  fst run = Ok "/tmp/tmpk3v9qz.mp4"
  /\ files (snd run) !! "/tmp/tmpk3v9qz.mp4" = Some (54 * MB)
  /\ files (snd run) !! "/tmp/tmpk3v9qz.mp4.webm" = None.
Proof. vm_compute. repeat split. Qed.

(** C2 (the code breaks the claim). A 60MB audio file is compressed to
    40MB and uploaded. Whether the upload is accepted, rejected with 413 or
    500, or times out, the compressed copy is still on disk when
    [upload_file] returns and nothing was removed; the original is kept. *)
Theorem upload_leaves_compressed_copy :
  Forall
    (fun reply =>
       let run := TelegramUploader.upload_file (scripted 0 (41 * MB) reply) the_uploader
                    "downloads/big.webm" "big" "audio" "caption"
                    (one_file "downloads/big.webm" (60 * MB)) in
       files (snd run) !! "/tmp/tmpk3v9qz.webm" = Some (40 * MB)
       /\ files (snd run) !! "downloads/big.webm" = Some (60 * MB)
       /\ count_events is_remove (trace (snd run)) = 0%nat
       /\ exists result, fst run = Ok result)
    [upload_accepted; HttpResponse 413 false None; HttpResponse 500 false None;
     HttpRaises TimeoutError].
Proof. repeat constructor; vm_compute; eauto. Qed.

(** C5 as stated fails. The primary engine fails, the one search finds the
    entry, its file reference cannot be resolved, and the answer is an
    error although the search yielded something. *)
Lemma orchestrator_error_despite_directory_hit :
  let E := blocked_fetch_directory_hit in
  let dm := DownloadManager.init default_config in
  let local := LocalDownloadManager.download_media E (DownloadManager.local_downloader dm)
                 "abc123" "audio" (ext empty_app) in
  let search := TelegramDBManager.search_in_db_channel E the_directory "abc123"
                  (with_ext (snd local) empty_app) in
  let run := DownloadManager.download_media E default_config dm "abc123" "audio" None empty_app in
  DownloadManager.telegram_db dm = Some the_directory
  /\ (exists local_result, fst local = Ok local_result /\ primary_succeeded local_result = false)
  /\ (exists entry, fst search = Ok (Some entry))
  /\ search_calls (ext (snd run)) = 1%nat
  /\ (exists result, fst run = Ok result /\ dict_get "status" result = Some (VStr "error")).
Proof. vm_compute. repeat split; eauto. Qed.

(** Without a bot token there is no directory manager and no search. *)
Example orchestrator_without_directory :
  let E := blocked_fetch_directory_hit in
  let dm := DownloadManager.init no_token_config in
  let run := DownloadManager.download_media E no_token_config dm "abc123" "audio" None empty_app in
  DownloadManager.telegram_db dm = None
  /\ search_calls (ext (snd run)) = 0%nat
  /\ (exists result, fst run = Ok result /\ dict_get "status" result = Some (VStr "error")).
Proof. vm_compute. repeat split; eauto. Qed.

(** C6 as stated fails. In the scenario the answer carries status "done"
    and source "local_downloader", not "success" and "local". *)
Lemma song_answer_is_done_local_downloader :
  let E := scripted (40 * MB) 0 upload_accepted in
  let run := get_song E default_config (DownloadManager.init default_config)
               "abc123" "http://localhost:8080/" "Shadow" true empty_app in
  exists response,
    fst run = Ok response
    /\ dict_get "status" (content response) = Some (VStr "done")
    /\ dict_get "source" (content response) = Some (VStr "local_downloader")
    /\ ~ (dict_get "status" (content response) = Some (VStr "success")
          /\ dict_get "type" (content response) = Some (VStr "local_file")
          /\ dict_get "source" (content response) = Some (VStr "local")).
Proof.
  vm_compute. eexists. split; [reflexivity|]. split; [reflexivity|]. split; [reflexivity|].
  intros [H _]. discriminate.
Qed.

Lemma download_invalid_type_witness :
  Downloader.download (scripted (40 * MB) 0 upload_accepted) "abc123" "document" empty_ext
  = (Raise (ValueError "Invalid type"), empty_ext).
Proof. apply download_invalid_type; discriminate. Defined.

Lemma download_idempotent_witness :
  let E := scripted (40 * MB) 0 upload_accepted in
  let x := one_file "downloads/abc123.webm" (40 * MB) in
  let first_call := Downloader.download E "abc123" "audio" empty_ext in
  Downloader.download E "abc123" "audio" x = (Ok "downloads/abc123.webm", x)
  /\ fst first_call = Ok "downloads/abc123.webm"
  /\ Downloader.download E "abc123" "audio" (snd first_call)
     = (Ok "downloads/abc123.webm", snd first_call).
Proof.
  cbv zeta. split; [|split].
  - apply (proj1 (download_idempotent (scripted (40 * MB) 0 upload_accepted) "abc123" "audio"
                    (one_file "downloads/abc123.webm" (40 * MB)) (or_introl eq_refl))).
    vm_compute. eauto.
  - vm_compute. reflexivity.
  - apply (proj2 (download_idempotent (scripted (40 * MB) 0 upload_accepted) "abc123" "audio"
                    empty_ext (or_introl eq_refl))).
    vm_compute. reflexivity.
Defined.


Lemma search_cache_ttl_witness :
  let E := blocked_fetch_directory_hit in
  TelegramDBManager.search_in_db_channel E the_directory "xyz" (app_with_entry 0 1000)
  = (Ok (Some cached_entry), entered "xyz" (app_with_entry 0 1000))
  /\ (let s := app_with_entry 0 4000 in
      let absent := with_cache (delete "xyz" (channel_cache s)) s in
      let run := TelegramDBManager.search_in_db_channel E the_directory "xyz" s in
      let run_absent := TelegramDBManager.search_in_db_channel E the_directory "xyz" absent in
      let remote := remote_search E the_directory "xyz" (ext (entered "xyz" s)) in
      fst run = Ok (fst remote)
      /\ ext (snd run) = snd remote
      /\ channel_cache (snd run)
         = match fst remote with
           | Some file_info => <["xyz" := (file_info, clock (snd remote))]> (channel_cache s)
           | None => channel_cache s
           end
      /\ (forall file_info, fst run = Ok (Some file_info) ->
          extracted_from_message "xyz" file_info)
      /\ (forall result file_info,
            getChatHistory E (ticks (ext s)) None = HttpResponse 200 true result ->
            TelegramDBManager.scan_messages "xyz" result = Some file_info ->
            fst run = Ok (Some file_info)
            /\ channel_cache (snd run) !! "xyz" = Some (file_info, clock (ext (snd run))))
      /\ fst run = fst run_absent
      /\ ext (snd run) = ext (snd run_absent)
      /\ exists rest,
           trace (ext (snd run))
           = trace (ext s) ++ EvEnter "search_in_db_channel" "xyz"
               :: EvGetChatHistory None (getChatHistory E (ticks (ext s)) None) :: rest)
  /\ (let s := mkApp (mkExt ∅ 4000 0 []) {[ "abc123" := (cached_entry, 0) ]} ∅ [] in
      let run := TelegramDBManager.search_in_db_channel E the_directory "abc123" s in
      exists file_info,
        TelegramDBManager.scan_messages "abc123"
          [stored_audio 77 "Audio Download, Video ID: abc123"] = Some file_info
        /\ fst run = Ok (Some file_info)
        /\ channel_cache (snd run) !! "abc123" = Some (file_info, clock (ext (snd run)))).
Proof.
  cbv zeta. split; [|split].
  - apply (proj1 (search_cache_ttl blocked_fetch_directory_hit the_directory "xyz"
                    (app_with_entry 0 1000) cached_entry 0 eq_refl)).
    reflexivity.
  - apply (proj2 (search_cache_ttl blocked_fetch_directory_hit the_directory "xyz"
                    (app_with_entry 0 4000) cached_entry 0 eq_refl)).
    discriminate.
  - eexists. split; [reflexivity|].
    refine (proj1 (proj2 (proj2 (proj2 (proj2 (proj2
              (search_cache_ttl blocked_fetch_directory_hit the_directory "abc123"
                 (mkApp (mkExt ∅ 4000 0 []) {[ "abc123" := (cached_entry, 0) ]} ∅ [])
                 cached_entry 0 _) _))))) _ _ _ _).
    + vm_compute. reflexivity.
    + discriminate.
    + reflexivity.
    + reflexivity.
Defined.

Lemma relay_task_status_is_monotonic_witness :
  let E := scripted (40 * MB) 0 upload_accepted in
  let dm := DownloadManager.init default_config in
  let s := mkApp (one_file "downloads/abc123.webm" (40 * MB)) ∅ ∅ [] in
  exists s' started finished,
    DownloadManager.upload_to_telegram_background E dm "abc123" "audio" "downloads/abc123.webm" s
    = (Ok tt, s')
    /\ registry_writes s'
       = registry_writes s ++ [(task_key "abc123" "audio", started);
                               (task_key "abc123" "audio", finished)]
    /\ dict_get "status" started = Some (VStr "uploading")
    /\ terminal_status finished
    /\ background_upload_tasks s' !! task_key "abc123" "audio" = Some finished
    /\ (forall pre entry post,
          registry_writes s' = registry_writes s ++ pre ++ entry :: post ->
          terminal_status (snd entry) ->
          Forall (fun later => dict_get "status" (snd later) <> Some (VStr "uploading")) post).
Proof.
  cbv zeta.
  apply (relay_task_status_is_monotonic (scripted (40 * MB) 0 upload_accepted)
           (DownloadManager.init default_config)
           (TelegramUploader.mk (TELEGRAM_BOT_TOKEN default_config)
              (TELEGRAM_UPLOAD_CHANNEL default_config))
           "abc123" "audio" "downloads/abc123.webm"
           (mkApp (one_file "downloads/abc123.webm" (40 * MB)) ∅ ∅ [])).
  reflexivity.
Defined.

Lemma song_scenario_witness :
  let E := scripted (40 * MB) 0 upload_accepted in
  let dm := DownloadManager.init default_config in
  exists response s' started finished,
    get_song E default_config dm "abc123" "http://localhost:8080/" (API_KEY default_config)
      true empty_app = (Ok response, s')
    /\ status_code response = 200
    /\ dict_get "status" (content response) = Some (VStr "done")
    /\ dict_get "type" (content response) = Some (VStr "local_file")
    /\ dict_get "source" (content response) = Some (VStr "local_downloader")
    /\ dict_get "upload_task_id" (content response) = Some (VStr "abc123_audio")
    /\ registry_writes s'
       = registry_writes empty_app ++ [("abc123_audio", started); ("abc123_audio", finished)]
    /\ dict_get "status" started = Some (VStr "uploading").
Proof.
  cbv zeta.
  apply (song_scenario (scripted (40 * MB) 0 upload_accepted) default_config
           (DownloadManager.init default_config)
           (TelegramUploader.mk (TELEGRAM_BOT_TOKEN default_config)
              (TELEGRAM_UPLOAD_CHANNEL default_config))
           "http://localhost:8080/" empty_app).
  - reflexivity.
  - reflexivity.
  - reflexivity.
  - intros opts. eexists. split; [reflexivity|]. vm_compute. reflexivity.
  - intros opts. reflexivity.
Defined.

Lemma total_sleep_app t1 t2 : total_sleep (t1 ++ t2) = total_sleep t1 + total_sleep t2.
Proof.
  induction t1 as [|e t1 IH]; simpl; [reflexivity|].
  destruct e; rewrite ?IH; lia.
Qed.

Lemma tries_loop_outcome E url path tries a x :
  Forall (fun o => outtmpl o = path) tries ->
  let run := Downloader.tries_loop E url path (enumerate_from a tries) x in
  (fst run = Ok path /\ is_Some (files (snd run) !! path))
  \/ fst run = Raise (RuntimeError "attempts failed").
Proof.
  intros Hall. revert a x. induction Hall as [|o tries Ho Hall IH]; intros a x; cbv zeta.
  - right. reflexivity.
  - destruct (retry_loop_spec E a o url path (enumerate Downloader.backoff) x Ho)
      as (r1 & t1 & x1 & Hrun & _ & _ & _ & _ & _ & Hres1).
    assert (Heq : Downloader.tries_loop E url path (enumerate_from a (o :: tries)) x
                  = match r1 with
                    | Some p => (Ok p, x1)
                    | None => Downloader.tries_loop E url path (enumerate_from (S a) tries) x1
                    end).
    { cbn [Downloader.tries_loop enumerate_from]. unfold bind. rewrite Hrun.
      destruct r1; reflexivity. }
    rewrite Heq. destruct r1 as [p|].
    + destruct (Hres1 p eq_refl) as [-> Hex]. left. simpl. auto.
    + apply IH.
Qed.

(** X1. For kind "audio" or "video", [download] ends in one of two ways: it
    returns the canonical path of the artifact, and a file exists at that
    path in the world it leaves, or it raises
    [RuntimeError("attempts failed")]. It never returns a path without a
    file and never raises anything else. *)
Theorem download_outcome E video_id type_ x :
  type_ = "audio" \/ type_ = "video" ->
  let run := Downloader.download E video_id type_ x in
  (fst run = Ok (canonical_path video_id type_)
   /\ is_Some (files (snd run) !! canonical_path video_id type_))
  \/ fst run = Raise (RuntimeError "attempts failed").
Proof.
  intros Ht. cbv zeta.
  destruct (download_run E video_id type_ x Ht) as (tries & Hall & _ & ->).
  case_bool_decide as Hex.
  - left. simpl. auto.
  - apply tries_loop_outcome. exact Hall.
Qed.

Lemma download_outcome_witness :
  let run := Downloader.download (scripted (40 * MB) 0 upload_accepted) "abc123" "audio"
               empty_ext in
  (fst run = Ok (canonical_path "abc123" "audio")
   /\ is_Some (files (snd run) !! canonical_path "abc123" "audio"))
  \/ fst run = Raise (RuntimeError "attempts failed").
Proof.
  apply (download_outcome (scripted (40 * MB) 0 upload_accepted) "abc123" "audio" empty_ext).
  left. reflexivity.
Defined.

Lemma sleep_events_total delay : 0 <= delay -> total_sleep (sleep_events delay) = delay.
Proof. intros H. unfold sleep_events. case_bool_decide; simpl; lia. Qed.

Lemma sleep_events_no_fetch delay : count_events is_fetch (sleep_events delay) = 0%nat.
Proof. unfold sleep_events. case_bool_decide; reflexivity. Qed.

Lemma retry_loop_budget E a opts url path sched x :
  Forall (fun kd => 0 <= snd kd) sched ->
  exists t,
    trace (snd (Downloader.retry_loop E a opts url path sched x)) = trace x ++ t
    /\ (count_events is_fetch t <= length sched)%nat
    /\ 0 <= total_sleep t <= fold_right Z.add 0 (map snd sched).
Proof.
  intros Hall. revert x. induction Hall as [|[k delay] sched Hd Hall IH]; intros x.
  - exists []. simpl. rewrite app_nil_r. repeat split; lia.
  - pose proof (retry_body_eq E a opts url path k delay x) as Hb. cbv zeta in Hb.
    set (ctl := attempt_ctl _ _ _ _) in Hb. set (x1 := mkExt _ _ _ _) in Hb.
    assert (Heq : Downloader.retry_loop E a opts url path ((k, delay) :: sched) x
                  = match ctl with
                    | Return p => (Ok (Some p), x1)
                    | Break => (Ok None, x1)
                    | Continue => Downloader.retry_loop E a opts url path sched x1
                    end).
    { cbn [Downloader.retry_loop]. unfold bind. rewrite Hb. destruct ctl; reflexivity. }
    rewrite Heq. simpl in Hd.
    destruct (IH x1) as (t' & Htr & Hc & Hs).
    assert (Hstop : exists t, trace x1 = trace x ++ t
              /\ (count_events is_fetch t <= length ((k, delay) :: sched))%nat
              /\ 0 <= total_sleep t <= fold_right Z.add 0 (map snd ((k, delay) :: sched))).
    { exists (sleep_events delay ++ [EvYdl a k opts url (yt_dlp E (ticks x) opts url)]).
      split; [reflexivity|].
      rewrite count_events_app, total_sleep_app, sleep_events_no_fetch,
        sleep_events_total by exact Hd.
      simpl. split; lia. }
    destruct ctl; [exact Hstop|exact Hstop|].
    exists ((sleep_events delay ++ [EvYdl a k opts url (yt_dlp E (ticks x) opts url)]) ++ t').
    split.
    + rewrite Htr. subst x1. simpl. rewrite !app_assoc. reflexivity.
    + rewrite !count_events_app, !total_sleep_app, sleep_events_no_fetch,
        sleep_events_total by exact Hd.
      simpl. split; lia.
Qed.

Lemma tries_loop_budget E url path tries a x :
  exists t,
    trace (snd (Downloader.tries_loop E url path (enumerate_from a tries) x)) = trace x ++ t
    /\ (count_events is_fetch t <= 4 * length tries)%nat
    /\ 0 <= total_sleep t <= 7 * Z.of_nat (length tries).
Proof.
  revert a x. induction tries as [|o tries IH]; intros a x.
  - exists []. simpl. rewrite app_nil_r. repeat split; lia.
  - destruct (retry_loop_budget E a o url path (enumerate Downloader.backoff) x)
      as (t1 & Htr1 & Hc1 & Hs1).
    { repeat constructor; simpl; lia. }
    simpl in Hc1, Hs1.
    destruct (Downloader.retry_loop E a o url path (enumerate Downloader.backoff) x)
      as [r1 x1] eqn:Hrun.
    simpl in Htr1.
    assert (Heq : Downloader.tries_loop E url path (enumerate_from a (o :: tries)) x
                  = match r1 with
                    | Ok (Some p) => (Ok p, x1)
                    | Ok None => Downloader.tries_loop E url path (enumerate_from (S a) tries) x1
                    | Raise e => (Raise e, x1)
                    end).
    { cbn [Downloader.tries_loop enumerate_from]. unfold bind. rewrite Hrun.
      destruct r1 as [[p|]|e]; reflexivity. }
    rewrite Heq.
    assert (Hstop : exists t, trace x1 = trace x ++ t
              /\ (count_events is_fetch t <= 4 * length (o :: tries))%nat
              /\ 0 <= total_sleep t <= 7 * Z.of_nat (length (o :: tries))).
    { exists t1. split; [exact Htr1|]. simpl length. split; lia. }
    destruct r1 as [[p|]|e]; [exact Hstop| |exact Hstop].
    destruct (IH (S a) x1) as (t2 & Htr2 & Hc2 & Hs2).
    exists (t1 ++ t2). split; [rewrite Htr2, Htr1, app_assoc; reflexivity|].
    rewrite count_events_app, total_sleep_app. simpl length. split; lia.
Qed.

(** X2. Whatever yt-dlp does, one call of [download] runs yt-dlp at most 12
    times (three tiers of four tries) and sleeps at most 21 seconds in all
    (1 + 2 + 4 in each tier); what it adds to the trace comes after what
    was there. *)
Theorem download_budget E video_id type_ x :
  exists t,
    trace (snd (Downloader.download E video_id type_ x)) = trace x ++ t
    /\ (count_events is_fetch t <= 12)%nat
    /\ 0 <= total_sleep t <= 21.
Proof.
  assert (Hnone : forall r, exists t, trace (snd (r : Res string, x)) = trace x ++ t
            /\ (count_events is_fetch t <= 12)%nat /\ 0 <= total_sleep t <= 21).
  { intros r. exists []. simpl. rewrite app_nil_r. repeat split; lia. }
  destruct (decide (type_ = "audio" \/ type_ = "video")) as [Ht|Ht].
  - destruct (download_run E video_id type_ x Ht) as (tries & _ & Hlen & ->).
    case_bool_decide as Hex; [apply Hnone|].
    destruct Hlen as [Hs|Hlen]; [contradiction|].
    destruct (tries_loop_budget E (Downloader.video_url video_id)
                (canonical_path video_id type_) tries 0 x) as (t & Htr & Hc & Hs).
    rewrite Hlen in Hc, Hs. exists t. split; [exact Htr|]. split; lia.
  - assert (type_ <> "audio" /\ type_ <> "video") as [Ha Hv] by tauto.
    unfold Downloader.download. apply String.eqb_neq in Ha, Hv. rewrite Ha, Hv.
    apply Hnone.
Qed.

Section AllAttemptsFail.

Variable E : Collaborators.

(** Every run of yt-dlp raises, and never with "format not available". *)
Hypothesis transient :
  forall n opts url, exists msg,
    ydl_error (yt_dlp E n opts url) = Some msg
    /\ Downloader.format_unavailable (Str.lower msg) = false.

Lemma retry_body_transient a opts url path k delay x :
  exists x',
    Downloader.retry_body E a opts url path k delay x
    = (Ok (if (k =? 3)%nat then Break else Continue), x')
    /\ ticks x' = S (ticks x)
    /\ map step_of (trace x')
       = map step_of (trace x) ++ map step_of (sleep_events delay) ++ [Some (inr (a, k))].
Proof.
  rewrite retry_body_eq. destruct (transient (ticks x) opts url) as (msg & Herr & Hfu).
  unfold attempt_ctl, except_ctl. rewrite Herr, Hfu.
  eexists. split; [reflexivity|]. split; [reflexivity|].
  cbn [trace]. rewrite !map_app. reflexivity.
Qed.

Lemma retry_loop_transient a opts url path x :
  exists x',
    Downloader.retry_loop E a opts url path (enumerate Downloader.backoff) x = (Ok None, x')
    /\ ticks x' = (ticks x + 4)%nat
    /\ map step_of (trace x') = map step_of (trace x) ++ exhausted_tier a.
Proof.
  change (enumerate Downloader.backoff) with [(0%nat, 0); (1%nat, 1); (2%nat, 2); (3%nat, 4)].
  destruct (retry_body_transient a opts url path 0 0 x) as (x1 & H1 & Hk1 & Ht1).
  destruct (retry_body_transient a opts url path 1 1 x1) as (x2 & H2 & Hk2 & Ht2).
  destruct (retry_body_transient a opts url path 2 2 x2) as (x3 & H3 & Hk3 & Ht3).
  destruct (retry_body_transient a opts url path 3 4 x3) as (x4 & H4 & Hk4 & Ht4).
  exists x4. split; [|split].
  - cbn [Downloader.retry_loop]. unfold bind. rewrite H1. cbn [Nat.eqb].
    rewrite H2. cbn [Nat.eqb]. rewrite H3. cbn [Nat.eqb]. rewrite H4. reflexivity.
  - lia.
  - rewrite Ht4, Ht3, Ht2, Ht1. unfold exhausted_tier. simpl. rewrite <- !app_assoc.
    reflexivity.
Qed.

Lemma tries_loop_transient url path tries a x :
  exists x',
    Downloader.tries_loop E url path (enumerate_from a tries) x
    = (Raise (RuntimeError "attempts failed"), x')
    /\ map step_of (trace x')
       = map step_of (trace x) ++ concat (map exhausted_tier (seq a (length tries))).
Proof.
  revert a x. induction tries as [|o tries IH]; intros a x.
  - exists x. simpl. rewrite app_nil_r. auto.
  - destruct (retry_loop_transient a o url path x) as (x1 & Hrun & _ & Ht1).
    destruct (IH (S a) x1) as (x' & Hrun' & Ht').
    exists x'. split.
    + cbn [Downloader.tries_loop enumerate_from]. unfold bind. rewrite Hrun. exact Hrun'.
    + rewrite Ht', Ht1. simpl. rewrite <- !app_assoc. reflexivity.
Qed.

End AllAttemptsFail.

(** X3. If the file is absent and every run of yt-dlp fails with an error
    other than "requested format is not available", [download] goes
    through the three tiers in order, four tries each, sleeping 1, 2 and 4
    seconds between the tries of a tier and not at all before the first
    try of a tier, and then raises [RuntimeError("attempts failed")]. *)
Theorem download_exhausts_every_tier E video_id type_ x :
  type_ = "audio" \/ type_ = "video" ->
  files x !! canonical_path video_id type_ = None ->
  (forall n opts url, exists msg,
      ydl_error (yt_dlp E n opts url) = Some msg
      /\ Downloader.format_unavailable (Str.lower msg) = false) ->
  let run := Downloader.download E video_id type_ x in
  fst run = Raise (RuntimeError "attempts failed")
  /\ map step_of (trace (snd run))
     = map step_of (trace x) ++ exhausted_tier 0 ++ exhausted_tier 1 ++ exhausted_tier 2.
Proof.
  intros Ht Hfile Hall. cbv zeta.
  destruct (download_run E video_id type_ x Ht) as (tries & _ & Hlen & ->).
  rewrite bool_decide_eq_false_2 by (rewrite Hfile; intros [? ?]; discriminate).
  destruct Hlen as [[? Hs]|Hlen]; [rewrite Hfile in Hs; discriminate|].
  destruct (tries_loop_transient E Hall (Downloader.video_url video_id)
              (canonical_path video_id type_) tries 0 x) as (x' & -> & Htr).
  split; [reflexivity|]. cbn [snd]. rewrite Htr, Hlen. reflexivity.
Qed.

Lemma download_exhausts_every_tier_witness :
  let run := Downloader.download blocked_fetch_directory_hit "abc123" "video" empty_ext in
  fst run = Raise (RuntimeError "attempts failed")
  /\ map step_of (trace (snd run))
     = map step_of (trace empty_ext) ++ exhausted_tier 0 ++ exhausted_tier 1 ++ exhausted_tier 2.
Proof.
  apply (download_exhausts_every_tier blocked_fetch_directory_hit "abc123" "video" empty_ext).
  - right. reflexivity.
  - reflexivity.
  - intros n opts url. eexists. split; [reflexivity|]. vm_compute. reflexivity.
Defined.

Lemma same_outside_refl paths fs : same_outside paths fs fs.
Proof. intros p _. reflexivity. Qed.

Lemma same_outside_trans paths fs1 fs2 fs3 :
  same_outside paths fs1 fs2 -> same_outside paths fs2 fs3 -> same_outside paths fs1 fs3.
Proof. intros H12 H23 p Hp. rewrite (H23 p Hp). apply H12. exact Hp. Qed.

Lemma same_outside_weaken paths paths' fs fs' :
  (forall p, In p paths -> In p paths') ->
  same_outside paths fs fs' -> same_outside paths' fs fs'.
Proof. intros Hsub H p Hp. apply H. intros Hin. apply Hp, Hsub, Hin. Qed.

Lemma same_outside_write path wrote fs :
  same_outside [path] fs (write_file path wrote fs).
Proof.
  intros p Hp. destruct wrote as [n|]; simpl; [|reflexivity].
  apply lookup_insert_ne. intros ->. apply Hp. left. reflexivity.
Qed.

Lemma run_ffmpeg_spec E cmd output_path x :
  exists r x',
    MediaCompressor.run_ffmpeg E cmd output_path x = (r, x')
    /\ same_outside [output_path] (files x) (files x')
    /\ ticks x' = S (ticks x)
    /\ count_events is_ffmpeg (trace x') = S (count_events is_ffmpeg (trace x))
    /\ (forall rc, r = Ok rc ->
        rc = ff_returncode (ffmpeg E (ticks x) cmd)
        /\ files x' = write_file output_path (ff_wrote (ffmpeg E (ticks x) cmd)) (files x)).
Proof.
  unfold MediaCompressor.run_ffmpeg.
  destruct (ff_spawn_error (ffmpeg E (ticks x) cmd)); eexists _, _; (split; [reflexivity|]);
    cbn [files ticks trace log tick set_files]; rewrite count_events_app; simpl.
  - split; [apply same_outside_refl|]. split; [reflexivity|]. split; [lia|]. discriminate.
  - split; [apply same_outside_write|]. split; [reflexivity|]. split; [lia|].
    intros rc H. injection H as <-. auto.
Qed.

Lemma log_compression_pure input_path output_path x :
  snd (MediaCompressor.log_compression input_path output_path x) = x.
Proof.
  unfold MediaCompressor.log_compression, bind, Os.path_getsize, ret, raise.
  destruct (files x !! input_path); [|reflexivity].
  destruct (files x !! output_path); [|reflexivity].
  destruct (_ =? 0); reflexivity.
Qed.

Lemma compress_audio_like E input_path output_path bitrate :
  transcoder_like E output_path
    (MediaCompressor.compress_audio E input_path output_path bitrate).
Proof.
  intros x. unfold MediaCompressor.compress_audio, try_except. unfold bind at 1.
  destruct (run_ffmpeg_spec E
              ["ffmpeg"; "-i"; input_path; "-b:a"; bitrate; "-vn"; "-y"; output_path]
              output_path x) as (r & x1 & -> & Hfs & Hk & Hc & _).
  destruct r as [rc|e]; [|eexists _, _; split; [reflexivity|]; repeat split; auto; discriminate].
  unfold bind at 1. unfold Os.path_exists at 1.
  destruct ((rc =? 0) && bool_decide (is_Some (files x1 !! output_path))) eqn:Hok.
  - apply andb_prop in Hok as [_ Hex]. apply bool_decide_eq_true_1 in Hex.
    unfold bind at 1.
    pose proof (log_compression_pure input_path output_path x1) as Hpure.
    destruct (MediaCompressor.log_compression input_path output_path x1) as [[[]|e] x2];
      simpl in Hpure; subst x2; eexists _, _; (split; [reflexivity|]); repeat split; auto.
  - eexists _, _. split; [reflexivity|]. repeat split; auto. discriminate.
Qed.

Lemma compress_video_like E input_path output_path v_bitrate a_bitrate scale :
  transcoder_like E output_path
    (MediaCompressor.compress_video E input_path output_path v_bitrate a_bitrate scale).
Proof.
  intros x. unfold MediaCompressor.compress_video, try_except. unfold bind at 1.
  destruct (run_ffmpeg_spec E
              ["ffmpeg"; "-i"; input_path; "-c:v"; "libx264"; "-b:v"; v_bitrate;
               "-c:a"; "aac"; "-b:a"; a_bitrate;
               "-vf"; ("scale=" ++ scale ++ ":flags=lanczos")%string;
               "-preset"; "medium"; "-crf"; "23"; "-y"; output_path]
              output_path x) as (r & x1 & -> & Hfs & Hk & Hc & _).
  destruct r as [rc|e]; [|eexists _, _; split; [reflexivity|]; repeat split; auto; discriminate].
  unfold bind at 1. unfold Os.path_exists at 1.
  destruct ((rc =? 0) && bool_decide (is_Some (files x1 !! output_path))) eqn:Hok.
  - apply andb_prop in Hok as [_ Hex]. apply bool_decide_eq_true_1 in Hex.
    unfold bind at 1.
    pose proof (log_compression_pure input_path output_path x1) as Hpure.
    destruct (MediaCompressor.log_compression input_path output_path x1) as [[[]|e] x2];
      simpl in Hpure; subst x2; eexists _, _; (split; [reflexivity|]); repeat split; auto.
  - eexists _, _. split; [reflexivity|]. repeat split; auto. discriminate.
Qed.

Lemma convert_to_webm_like E input_path output_path :
  transcoder_like E output_path (MediaCompressor.convert_to_webm E input_path output_path).
Proof.
  intros x. unfold MediaCompressor.convert_to_webm, try_except. unfold bind at 1.
  destruct (run_ffmpeg_spec E
              ["ffmpeg"; "-i"; input_path; "-c:v"; "libvpx-vp9"; "-b:v"; "1M";
               "-c:a"; "libopus"; "-b:a"; "128k"; "-f"; "webm"; "-y"; output_path]
              output_path x) as (r & x1 & -> & Hfs & Hk & Hc & _).
  destruct r as [rc|e]; [|eexists _, _; split; [reflexivity|]; repeat split; auto; discriminate].
  unfold bind at 1. unfold Os.path_exists at 1. unfold ret.
  eexists _, _. split; [reflexivity|]. repeat split; auto.
  intros Hok. apply andb_prop in Hok as [_ Hex]. apply bool_decide_eq_true_1 in Hex. exact Hex.
Qed.

Lemma bitrate_loop_like E (compress : string -> Eff Ext bool) temp_path file_limit bitrates :
  (forall bitrate, transcoder_like E temp_path (compress bitrate)) ->
  forall success x,
    (success = true -> is_Some (files x !! temp_path)) ->
    exists b x',
      TelegramUploader.bitrate_loop compress temp_path file_limit bitrates success x
      = (Ok b, x')
      /\ same_outside [temp_path] (files x) (files x')
      /\ (b = true -> is_Some (files x' !! temp_path))
      /\ (count_events is_ffmpeg (trace x')
          <= count_events is_ffmpeg (trace x) + length bitrates)%nat
      /\ (count_events is_ffmpeg (trace x) <= count_events is_ffmpeg (trace x'))%nat.
Proof.
  intros Hlike. induction bitrates as [|bitrate bitrates IH]; intros success x Hs.
  - exists success, x. simpl. repeat split; auto using same_outside_refl; lia.
  - cbn [TelegramUploader.bitrate_loop]. unfold bind at 1.
    destruct (Hlike bitrate x) as (b1 & x1 & -> & Hfs1 & Hex1 & _ & Hc1).
    assert (Hnext : exists b x',
              TelegramUploader.bitrate_loop compress temp_path file_limit bitrates b1 x1
              = (Ok b, x')
              /\ same_outside [temp_path] (files x) (files x')
              /\ (b = true -> is_Some (files x' !! temp_path))
              /\ (count_events is_ffmpeg (trace x')
                  <= count_events is_ffmpeg (trace x) + length (bitrate :: bitrates))%nat
              /\ (count_events is_ffmpeg (trace x) <= count_events is_ffmpeg (trace x'))%nat).
    { destruct (IH b1 x1 Hex1) as (b & x' & Hrun & Hfs & Hex & Hc & Hc').
      exists b, x'. split; [exact Hrun|]. split; [eapply same_outside_trans; eauto|].
      split; [exact Hex|]. simpl length. split; lia. }
    destruct b1; [|exact Hnext].
    unfold bind at 1. unfold Os.path_getsize at 1.
    destruct (Hex1 eq_refl) as [n Hn]. rewrite Hn.
    destruct (n <=? file_limit); [|exact Hnext].
    exists true, x1. split; [reflexivity|]. split; [exact Hfs1|]. split; [auto|].
    simpl length. split; lia.
Qed.

Lemma compress_finish_spec file_path temp_path success x :
  exists p x',
    compress_finish file_path temp_path success x = (Ok p, x')
    /\ same_outside [temp_path] (files x) (files x')
    /\ (p = temp_path /\ success = true /\ x' = x /\ is_Some (files x !! temp_path)
        \/ p = file_path /\ files x' !! temp_path = None)
    /\ count_events is_ffmpeg (trace x') = count_events is_ffmpeg (trace x).
Proof.
  unfold compress_finish, bind, Os.path_exists, Os.path_getsize, Os.remove, ret.
  destruct (files x !! temp_path) as [n|] eqn:Hn.
  - rewrite bool_decide_eq_true_2 by eauto. destruct success; simpl.
    + rewrite Hn. eexists _, _. split; [reflexivity|].
      split; [apply same_outside_refl|]. split; [left; eauto|reflexivity].
    + rewrite bool_decide_eq_true_2 by eauto. rewrite Hn.
      eexists _, _. split; [reflexivity|]. cbn [files trace log set_files].
      split; [|split; [right; split; [reflexivity|apply lookup_delete_eq]|]].
      * intros p Hp. apply lookup_delete_ne. intros ->. apply Hp. left. reflexivity.
      * rewrite count_events_app. simpl. lia.
  - rewrite bool_decide_eq_false_2 by (intros [? ?]; discriminate).
    rewrite andb_false_r. rewrite bool_decide_eq_false_2 by (rewrite Hn; intros [? ?]; discriminate).
    eexists _, _. split; [reflexivity|].
    split; [apply same_outside_refl|]. split; [right; auto|reflexivity].
Qed.

Lemma compress_unfold E up file_path media_type file_size x :
  limit_of media_type < file_size ->
  TelegramUploader._compress_if_needed E up file_path media_type file_size x
  = match mkstemp E (ticks x) (temp_suffix file_path) with
    | None => (Ok file_path, tick (latency E (ticks x)) x)
    | Some temp_path =>
        let x0 := log (EvMkstemp temp_path)
                    (set_files (insert temp_path 0) (tick (latency E (ticks x)) x)) in
        match compress_ladders E file_path media_type temp_path (limit_of media_type) x0 with
        | (Ok success, x1) =>
            match compress_finish file_path temp_path success x1 with
            | (Ok p, x2) => (Ok p, x2)
            | (Raise _, x2) => (Ok file_path, x2)
            end
        | (Raise _, x1) => (Ok file_path, x1)
        end
    end.
Proof.
  intros Hlt. unfold TelegramUploader._compress_if_needed, try_except.
  fold (limit_of media_type). fold (temp_suffix file_path).
  destruct (Z.leb_spec file_size (limit_of media_type)); [lia|].
  unfold bind at 1. unfold TelegramUploader.named_temporary_file at 1.
  destruct (mkstemp E (ticks x) (temp_suffix file_path)) as [temp_path|]; [|reflexivity].
  cbv zeta.
  change (bind ?m ?k) with (bind m (compress_finish file_path temp_path)) at 1.
  unfold bind at 1.
  change (if String.eqb media_type "audio" then _ else _)
    with (compress_ladders E file_path media_type temp_path (limit_of media_type)).
  destruct (compress_ladders E file_path media_type temp_path (limit_of media_type) _)
    as [[success|e] x1]; reflexivity.
Qed.

Lemma same_outside_two_l a b fs fs' :
  same_outside [a] fs fs' -> same_outside [a; b] fs fs'.
Proof. apply same_outside_weaken. intros p [->|[]]. left. reflexivity. Qed.

Lemma same_outside_two_r a b fs fs' :
  same_outside [b] fs fs' -> same_outside [a; b] fs fs'.
Proof. apply same_outside_weaken. intros p [->|[]]. right. left. reflexivity. Qed.

Lemma compress_ladders_spec E file_path media_type temp_path file_limit x :
  exists b x',
    compress_ladders E file_path media_type temp_path file_limit x = (Ok b, x')
    /\ same_outside [temp_path; (temp_path ++ ".webm")%string] (files x) (files x')
    /\ (b = true -> is_Some (files x' !! temp_path))
    /\ (count_events is_ffmpeg (trace x') <= count_events is_ffmpeg (trace x) + 4)%nat.
Proof.
  unfold compress_ladders.
  destruct (String.eqb media_type "audio").
  { destruct (bitrate_loop_like E (MediaCompressor.compress_audio E file_path temp_path)
                temp_path file_limit ["128k"; "96k"; "64k"]
                (compress_audio_like E file_path temp_path) false x)
      as (b & x' & Hrun & Hfs & Hex & Hc & _); [discriminate|].
    exists b, x'. split; [exact Hrun|]. split; [apply same_outside_two_l, Hfs|].
    split; [exact Hex|]. simpl in Hc. lia. }
  destruct (String.eqb media_type "video").
  2:{ exists false, x. split; [reflexivity|]. split; [apply same_outside_refl|].
      split; [discriminate|lia]. }
  set (webm_path := (temp_path ++ ".webm")%string).
  unfold bind at 1.
  destruct (convert_to_webm_like E file_path webm_path x)
    as (converted & xa & -> & Hfsa & Hexa & _ & Hca).
  assert (Hladder : forall xb,
            same_outside [temp_path; webm_path] (files x) (files xb) ->
            count_events is_ffmpeg (trace xb) = S (count_events is_ffmpeg (trace x)) ->
            exists b x',
              TelegramUploader.bitrate_loop
                (fun v_bitrate =>
                   MediaCompressor.compress_video E file_path temp_path v_bitrate
                     "128k" "1280:720")
                temp_path file_limit ["1M"; "800k"; "500k"] false xb = (Ok b, x')
              /\ same_outside [temp_path; webm_path] (files x) (files x')
              /\ (b = true -> is_Some (files x' !! temp_path))
              /\ (count_events is_ffmpeg (trace x')
                  <= count_events is_ffmpeg (trace x) + 4)%nat).
  { intros xb Hfsb Hcb.
    destruct (bitrate_loop_like E
                (fun v_bitrate =>
                   MediaCompressor.compress_video E file_path temp_path v_bitrate
                     "128k" "1280:720")
                temp_path file_limit ["1M"; "800k"; "500k"]
                (fun b => compress_video_like E file_path temp_path b "128k" "1280:720")
                false xb)
      as (b & x' & Hrun & Hfs & Hex & Hc & _); [discriminate|].
    exists b, x'. split; [exact Hrun|].
    split; [eapply same_outside_trans; [exact Hfsb|apply same_outside_two_l, Hfs]|].
    split; [exact Hex|]. simpl in Hc. lia. }
  destruct converted.
  - destruct (Hexa eq_refl) as [n Hn].
    unfold bind at 1. unfold bind at 1. unfold Os.path_getsize at 1. rewrite Hn.
    destruct (n <=? file_limit).
    + unfold bind at 1. unfold Os.rename. rewrite Hn. unfold ret at 1. cbn [negb].
      unfold ret. eexists _, _. split; [reflexivity|]. cbn [files trace log set_files].
      split; [|split].
      * intros p Hp. rewrite lookup_insert_ne, lookup_delete_ne.
        -- apply Hfsa. intros [<-|[]]. apply Hp. right. left. reflexivity.
        -- intros <-. apply Hp. right. left. reflexivity.
        -- intros <-. apply Hp. left. reflexivity.
      * intros _. rewrite lookup_insert_eq. eauto.
      * rewrite count_events_app. simpl. lia.
    + unfold bind at 1. unfold Os.remove. rewrite Hn. unfold ret at 1. cbn [negb].
      apply Hladder.
      * cbn [files log set_files]. intros p Hp. rewrite lookup_delete_ne.
        -- apply Hfsa. intros [<-|[]]. apply Hp. right. left. reflexivity.
        -- intros <-. apply Hp. right. left. reflexivity.
      * cbn [trace log set_files]. rewrite count_events_app. simpl. lia.
  - unfold bind at 1. unfold ret at 1. cbn [negb].
    apply Hladder; [apply same_outside_two_r, Hfsa|exact Hca].
Qed.

Lemma compress_spec E up file_path media_type file_size x :
  exists p x',
    TelegramUploader._compress_if_needed E up file_path media_type file_size x = (Ok p, x')
    /\ (forall temp_path,
          mkstemp E (ticks x) (temp_suffix file_path) = Some temp_path ->
          same_outside [temp_path; (temp_path ++ ".webm")%string] (files x) (files x'))
    /\ (mkstemp E (ticks x) (temp_suffix file_path) = None -> files x' = files x)
    /\ (p = file_path
        /\ (file_size <= limit_of media_type -> x' = x)
        /\ (limit_of media_type < file_size ->
            forall temp_path,
              mkstemp E (ticks x) (temp_suffix file_path) = Some temp_path ->
              files x' !! temp_path = None)
        \/ limit_of media_type < file_size
           /\ mkstemp E (ticks x) (temp_suffix file_path) = Some p
           /\ is_Some (files x' !! p))
    /\ (count_events is_ffmpeg (trace x') <= count_events is_ffmpeg (trace x) + 4)%nat.
Proof.
  destruct (Z.leb_spec file_size (limit_of media_type)) as [Hle|Hlt].
  - exists file_path, x. split.
    + unfold TelegramUploader._compress_if_needed, try_except. fold (limit_of media_type).
      destruct (Z.leb_spec file_size (limit_of media_type)); [reflexivity|lia].
    + split; [intros; apply same_outside_refl|]. split; [reflexivity|].
      split; [left; split; [reflexivity|split; [reflexivity|lia]]|lia].
  - rewrite (compress_unfold E up file_path media_type file_size x Hlt).
    destruct (mkstemp E (ticks x) (temp_suffix file_path)) as [temp_path|].
    + cbv zeta. set (x0 := log _ _).
      destruct (compress_ladders_spec E file_path media_type temp_path (limit_of media_type) x0)
        as (b & x1 & -> & Hfs1 & Hex1 & Hc1).
      destruct (compress_finish_spec file_path temp_path b x1)
        as (p & x2 & -> & Hfs2 & Hp & Hc2).
      exists p, x2. split; [reflexivity|].
      assert (Hfs0 : same_outside [temp_path; (temp_path ++ ".webm")%string]
                       (files x) (files x0)).
      { subst x0. cbn [files log set_files tick]. intros q Hq. apply lookup_insert_ne.
        intros <-. apply Hq. left. reflexivity. }
      split.
      { intros t Ht. injection Ht as <-.
        eapply same_outside_trans; [exact Hfs0|].
        eapply same_outside_trans; [exact Hfs1|]. apply same_outside_two_l, Hfs2. }
      split; [discriminate|]. split.
      { destruct Hp as [(-> & _ & -> & Hex)|[-> Hgone]].
        - right. auto.
        - left. split; [reflexivity|]. split; [lia|].
          intros _ t Ht. injection Ht as <-. exact Hgone. }
      rewrite Hc2. subst x0. cbn [trace log set_files tick] in Hc1.
      rewrite count_events_app in Hc1. simpl in Hc1. lia.
    + exists file_path, (tick (latency E (ticks x)) x). split; [reflexivity|].
      split; [discriminate|]. split; [reflexivity|].
      split; [|simpl; lia].
      left. split; [reflexivity|]. split; [lia|]. discriminate.
Qed.

Lemma string_length_app (s t : string) :
  String.length (s ++ t)%string = (String.length s + String.length t)%nat.
Proof. induction s as [|c s IH]; simpl; [reflexivity|]. rewrite IH. reflexivity. Qed.

Lemma append_webm_ne (s : string) : (s ++ ".webm")%string <> s.
Proof.
  intros H. apply (f_equal String.length) in H.
  rewrite string_length_app in H. simpl in H. lia.
Qed.

(** X4. [_compress_if_needed] never raises. It returns either the path it
    was given, and then the temporary file it may have created for a file
    over the limit is gone, or the temporary file that
    [NamedTemporaryFile] created for a file over the limit, and then that
    file exists. *)
Theorem compress_answer E up file_path media_type file_size x :
  exists p x',
    TelegramUploader._compress_if_needed E up file_path media_type file_size x = (Ok p, x')
    /\ (p = file_path
        /\ (forall temp_path,
              limit_of media_type < file_size ->
              mkstemp E (ticks x) (temp_suffix file_path) = Some temp_path ->
              files x' !! temp_path = None)
        \/ limit_of media_type < file_size
           /\ mkstemp E (ticks x) (temp_suffix file_path) = Some p
           /\ is_Some (files x' !! p)).
Proof.
  destruct (compress_spec E up file_path media_type file_size x)
    as (p & x' & Hrun & _ & _ & Hp & _).
  exists p, x'. split; [exact Hrun|].
  destruct Hp as [(-> & _ & Hgone)|Hp]; [left|right; exact Hp].
  split; [reflexivity|]. intros t Hlt Ht. exact (Hgone Hlt t Ht).
Qed.

(** X5. Apart from its temporary file and the same name with ".webm"
    appended, [_compress_if_needed] leaves every path of the file system
    as it was: present or not, and with the same size. *)
Theorem compress_touches_only_its_temp_files E up file_path media_type file_size x q :
  (forall temp_path,
      mkstemp E (ticks x) (temp_suffix file_path) = Some temp_path ->
      q <> temp_path /\ q <> (temp_path ++ ".webm")%string) ->
  files (snd (TelegramUploader._compress_if_needed E up file_path media_type file_size x)) !! q
  = files x !! q.
Proof.
  intros Hq.
  destruct (compress_spec E up file_path media_type file_size x)
    as (p & x' & -> & Hsome & Hnone & _ & _). cbn [snd].
  destruct (mkstemp E (ticks x) (temp_suffix file_path)) as [temp_path|] eqn:Hmk.
  - apply (Hsome temp_path eq_refl). destruct (Hq temp_path eq_refl) as [H1 H2].
    intros [<-|[<-|[]]]; congruence.
  - rewrite Hnone by reflexivity. reflexivity.
Qed.

Lemma compress_touches_only_its_temp_files_witness :
  files (snd (TelegramUploader._compress_if_needed (scripted 0 (58 * MB) upload_accepted)
                the_uploader "downloads/big.webm" "audio" (60 * MB)
                (one_file "downloads/big.webm" (60 * MB)))) !! "downloads/big.webm"
  = files (one_file "downloads/big.webm" (60 * MB)) !! "downloads/big.webm".
Proof.
  apply (compress_touches_only_its_temp_files (scripted 0 (58 * MB) upload_accepted)
           the_uploader "downloads/big.webm" "audio" (60 * MB)
           (one_file "downloads/big.webm" (60 * MB)) "downloads/big.webm").
  intros temp_path H. vm_compute in H. injection H as <-. split; discriminate.
Defined.

(** X6. [_compress_if_needed] runs ffmpeg at most four times (one WebM
    conversion and three bitrates), and for a file within the limit of its
    kind it does nothing at all: it returns the path it was given and the
    world is unchanged. *)
Theorem compress_transcoder_budget E up file_path media_type file_size x :
  let run := TelegramUploader._compress_if_needed E up file_path media_type file_size x in
  (count_events is_ffmpeg (trace (snd run)) <= count_events is_ffmpeg (trace x) + 4)%nat
  /\ (file_size <= limit_of media_type -> run = (Ok file_path, x)).
Proof.
  cbv zeta.
  destruct (compress_spec E up file_path media_type file_size x)
    as (p & x' & -> & _ & _ & Hp & Hc). cbn [snd].
  split; [exact Hc|]. intros Hle.
  destruct Hp as [(-> & Hsame & _)|(Hlt & _)]; [|lia].
  rewrite (Hsame Hle). reflexivity.
Qed.

Lemma run_ffmpeg_started E cmd output_path x :
  ff_spawn_error (ffmpeg E (ticks x) cmd) = None ->
  MediaCompressor.run_ffmpeg E cmd output_path x
  = (Ok (ff_returncode (ffmpeg E (ticks x) cmd)),
     log (EvFfmpeg cmd (ffmpeg E (ticks x) cmd))
       (set_files (write_file output_path (ff_wrote (ffmpeg E (ticks x) cmd)))
          (tick (latency E (ticks x)) x))).
Proof. intros H. unfold MediaCompressor.run_ffmpeg. rewrite H. reflexivity. Qed.

Lemma convert_to_webm_run E input_path output_path x :
  ff_spawn_error (ffmpeg E (ticks x) (webm_cmd input_path output_path)) = None ->
  MediaCompressor.convert_to_webm E input_path output_path x
  = (Ok ((ff_returncode (ffmpeg E (ticks x) (webm_cmd input_path output_path)) =? 0)
         && bool_decide (is_Some
              (files (after_ffmpeg E (webm_cmd input_path output_path) output_path x)
                 !! output_path))),
     after_ffmpeg E (webm_cmd input_path output_path) output_path x).
Proof.
  intros H. unfold MediaCompressor.convert_to_webm, try_except, bind.
  fold (webm_cmd input_path output_path).
  rewrite (run_ffmpeg_started E _ output_path x H). reflexivity.
Qed.

Lemma compress_audio_run E input_path output_path bitrate x n size :
  ffmpeg E (ticks x) (audio_cmd input_path output_path bitrate)
  = mkFfmpegOutcome None 0 (Some n) ->
  files x !! input_path = Some size -> size <> 0 -> input_path <> output_path ->
  MediaCompressor.compress_audio E input_path output_path bitrate x
  = (Ok true, after_ffmpeg E (audio_cmd input_path output_path bitrate) output_path x).
Proof.
  intros H Hin Hsize Hne. unfold MediaCompressor.compress_audio, try_except.
  fold (audio_cmd input_path output_path bitrate). unfold bind at 1.
  rewrite (run_ffmpeg_started E _ output_path x) by (rewrite H; reflexivity).
  fold (after_ffmpeg E (audio_cmd input_path output_path bitrate) output_path x).
  assert (Hout : files (after_ffmpeg E (audio_cmd input_path output_path bitrate) output_path x)
                 !! output_path = Some n).
  { unfold after_ffmpeg. rewrite H. cbn. apply lookup_insert_eq. }
  assert (Hin' : files (after_ffmpeg E (audio_cmd input_path output_path bitrate) output_path x)
                 !! input_path = Some size).
  { unfold after_ffmpeg. rewrite H. cbn. rewrite lookup_insert_ne by congruence. exact Hin. }
  rewrite H. cbn [ff_returncode]. unfold bind at 1. unfold Os.path_exists at 1.
  rewrite bool_decide_eq_true_2 by eauto. cbn [Z.eqb andb].
  unfold bind at 1. unfold MediaCompressor.log_compression, bind, Os.path_getsize.
  rewrite Hin', Hout. destruct (Z.eqb_spec size 0); [contradiction|]. reflexivity.
Qed.

(** X7. For a video over the limit whose WebM conversion exits with 0 and
    writes [n] bytes, [n] within the limit, the converted file is renamed
    to the temporary path, which is returned and has size [n]; the name
    with ".webm" appended is gone, and ffmpeg ran exactly once. *)
Theorem webm_conversion_accepted E up file_path file_size x temp_path n :
  TELEGRAM_VIDEO_LIMIT < file_size ->
  mkstemp E (ticks x) (temp_suffix file_path) = Some temp_path ->
  ffmpeg E (S (ticks x)) (webm_cmd file_path (temp_path ++ ".webm")%string)
  = mkFfmpegOutcome None 0 (Some n) ->
  n <= TELEGRAM_VIDEO_LIMIT ->
  let run := TelegramUploader._compress_if_needed E up file_path "video" file_size x in
  fst run = Ok temp_path
  /\ files (snd run) !! temp_path = Some n
  /\ files (snd run) !! (temp_path ++ ".webm")%string = None
  /\ count_events is_ffmpeg (trace (snd run)) = S (count_events is_ffmpeg (trace x)).
Proof.
  intros Hlt Hmk Hff Hn. cbv zeta.
  rewrite (compress_unfold E up file_path "video" file_size x) by exact Hlt.
  rewrite Hmk. cbv zeta. set (x0 := log _ _).
  set (webm_path := (temp_path ++ ".webm")%string) in *.
  assert (Hladder : compress_ladders E file_path "video" temp_path (limit_of "video") x0
                    = (Ok true,
                       log (EvRename webm_path temp_path)
                         (set_files (fun fs => <[temp_path := n]> (delete webm_path fs))
                            (after_ffmpeg E (webm_cmd file_path webm_path) webm_path x0)))).
  { unfold compress_ladders.
    change (String.eqb "video" "audio") with false. change (String.eqb "video" "video") with true.
    cbv iota. fold webm_path. unfold bind at 1.
    rewrite (convert_to_webm_run E file_path webm_path x0)
      by (change (ticks x0) with (S (ticks x)); rewrite Hff; reflexivity).
    assert (Hout : files (after_ffmpeg E (webm_cmd file_path webm_path) webm_path x0)
                   !! webm_path = Some n).
    { unfold after_ffmpeg. change (ticks x0) with (S (ticks x)). rewrite Hff. cbn.
      apply lookup_insert_eq. }
    change (ticks x0) with (S (ticks x)) at 1. rewrite Hff. cbn [ff_returncode Z.eqb].
    rewrite bool_decide_eq_true_2 by eauto. cbn [andb].
    unfold bind at 1. unfold bind at 1. unfold Os.path_getsize at 1. rewrite Hout.
    change (limit_of "video") with TELEGRAM_VIDEO_LIMIT.
    destruct (Z.leb_spec n TELEGRAM_VIDEO_LIMIT); [|lia].
    unfold bind at 1. unfold Os.rename. rewrite Hout. reflexivity. }
  rewrite Hladder. set (x1 := log (EvRename webm_path temp_path) _).
  assert (Hx1 : files x1 !! temp_path = Some n) by apply lookup_insert_eq.
  assert (Hfin : compress_finish file_path temp_path true x1 = (Ok temp_path, x1)).
  { unfold compress_finish, bind, Os.path_exists, Os.path_getsize, ret.
    rewrite Hx1. rewrite bool_decide_eq_true_2 by eauto. cbn [andb]. rewrite Hx1.
    reflexivity. }
  rewrite Hfin. cbn [fst snd].
  split; [reflexivity|]. split; [exact Hx1|]. split.
  - subst x1. cbn [files log set_files].
    rewrite lookup_insert_ne by (intros H; symmetry in H; exact (append_webm_ne _ H)).
    apply lookup_delete_eq.
  - subst x1. unfold after_ffmpeg, x0. cbn [trace log set_files tick].
    rewrite !count_events_app. simpl. lia.
Qed.

Lemma webm_conversion_accepted_witness :
  let x := one_file "downloads/big.mp4" (60 * MB) in
  let run := TelegramUploader._compress_if_needed (scripted 0 (41 * MB) upload_accepted)
               the_uploader "downloads/big.mp4" "video" (60 * MB) x in
  fst run = Ok "/tmp/tmpk3v9qz.mp4"
  /\ files (snd run) !! "/tmp/tmpk3v9qz.mp4" = Some (40 * MB)
  /\ files (snd run) !! "/tmp/tmpk3v9qz.mp4.webm" = None
  /\ count_events is_ffmpeg (trace (snd run)) = S (count_events is_ffmpeg (trace x)).
Proof.
  apply (webm_conversion_accepted (scripted 0 (41 * MB) upload_accepted) the_uploader
           "downloads/big.mp4" (60 * MB) (one_file "downloads/big.mp4" (60 * MB))
           "/tmp/tmpk3v9qz.mp4" (40 * MB)).
  - reflexivity.
  - reflexivity.
  - reflexivity.
  - vm_compute. discriminate.
Defined.

(** X8. For an audio file over the limit whose first re-encode, at 128k,
    exits with 0 and writes [n] bytes, [n] within the limit, the ladder
    stops there: the temporary path is returned and has size [n], the
    original is intact, and ffmpeg ran exactly once. *)
Theorem audio_ladder_stops_at_first_fit E up file_path file_size x temp_path n :
  TELEGRAM_FILE_LIMIT < file_size ->
  files x !! file_path = Some file_size ->
  mkstemp E (ticks x) (temp_suffix file_path) = Some temp_path ->
  temp_path <> file_path ->
  ffmpeg E (S (ticks x)) (audio_cmd file_path temp_path "128k")
  = mkFfmpegOutcome None 0 (Some n) ->
  n <= TELEGRAM_FILE_LIMIT ->
  let run := TelegramUploader._compress_if_needed E up file_path "audio" file_size x in
  fst run = Ok temp_path
  /\ files (snd run) !! temp_path = Some n
  /\ files (snd run) !! file_path = Some file_size
  /\ count_events is_ffmpeg (trace (snd run)) = S (count_events is_ffmpeg (trace x)).
Proof.
  intros Hlt Hfile Hmk Hne Hff Hn. cbv zeta.
  rewrite (compress_unfold E up file_path "audio" file_size x) by exact Hlt.
  rewrite Hmk. cbv zeta. set (x0 := log _ _).
  assert (Hfile0 : files x0 !! file_path = Some file_size).
  { subst x0. cbn [files log set_files tick]. rewrite lookup_insert_ne by exact Hne.
    exact Hfile. }
  set (x1 := after_ffmpeg E (audio_cmd file_path temp_path "128k") temp_path x0).
  assert (Hx1 : files x1 !! temp_path = Some n).
  { subst x1. unfold after_ffmpeg. change (ticks x0) with (S (ticks x)). rewrite Hff. cbn.
    apply lookup_insert_eq. }
  assert (Hx1' : files x1 !! file_path = Some file_size).
  { subst x1. unfold after_ffmpeg. change (ticks x0) with (S (ticks x)). rewrite Hff. cbn.
    rewrite lookup_insert_ne by exact Hne. exact Hfile0. }
  assert (Hladder : compress_ladders E file_path "audio" temp_path (limit_of "audio") x0
                    = (Ok true, x1)).
  { unfold compress_ladders. change (String.eqb "audio" "audio") with true. cbv iota.
    cbn [TelegramUploader.bitrate_loop]. unfold bind at 1.
    rewrite (compress_audio_run E file_path temp_path "128k" x0 n file_size);
      [|exact Hff|exact Hfile0|unfold TELEGRAM_FILE_LIMIT in Hlt; lia|congruence].
    fold x1. unfold bind at 1. unfold Os.path_getsize at 1. rewrite Hx1.
    change (limit_of "audio") with TELEGRAM_FILE_LIMIT.
    destruct (Z.leb_spec n TELEGRAM_FILE_LIMIT); [reflexivity|lia]. }
  rewrite Hladder.
  assert (Hfin : compress_finish file_path temp_path true x1 = (Ok temp_path, x1)).
  { unfold compress_finish, bind, Os.path_exists, Os.path_getsize, ret.
    rewrite Hx1. rewrite bool_decide_eq_true_2 by eauto. cbn [andb]. rewrite Hx1.
    reflexivity. }
  rewrite Hfin. cbn [fst snd].
  split; [reflexivity|]. split; [exact Hx1|]. split; [exact Hx1'|].
  subst x1. unfold after_ffmpeg, x0. cbn [trace log set_files tick].
  rewrite !count_events_app. simpl. lia.
Qed.

Lemma audio_ladder_stops_at_first_fit_witness :
  let x := one_file "downloads/big.webm" (60 * MB) in
  let run := TelegramUploader._compress_if_needed (scripted 0 (41 * MB) upload_accepted)
               the_uploader "downloads/big.webm" "audio" (60 * MB) x in
  fst run = Ok "/tmp/tmpk3v9qz.webm"
  /\ files (snd run) !! "/tmp/tmpk3v9qz.webm" = Some (40 * MB)
  /\ files (snd run) !! "downloads/big.webm" = Some (60 * MB)
  /\ count_events is_ffmpeg (trace (snd run)) = S (count_events is_ffmpeg (trace x)).
Proof.
  apply (audio_ladder_stops_at_first_fit (scripted 0 (41 * MB) upload_accepted) the_uploader
           "downloads/big.webm" (60 * MB) (one_file "downloads/big.webm" (60 * MB))
           "/tmp/tmpk3v9qz.webm" (40 * MB)).
  - reflexivity.
  - reflexivity.
  - reflexivity.
  - discriminate.
  - reflexivity.
  - vm_compute. discriminate.
Defined.

(** X9. A WebM conversion that exits with a code other than 0 after
    writing [n] bytes leaves its output behind: when [_compress_if_needed]
    is done, the file at the temporary path with ".webm" appended still
    exists, with size [n]; nothing removes it. *)
Theorem failed_webm_conversion_leaves_its_output E up file_path file_size x temp_path out n :
  TELEGRAM_VIDEO_LIMIT < file_size ->
  mkstemp E (ticks x) (temp_suffix file_path) = Some temp_path ->
  ffmpeg E (S (ticks x)) (webm_cmd file_path (temp_path ++ ".webm")%string) = out ->
  ff_spawn_error out = None -> ff_returncode out <> 0 -> ff_wrote out = Some n ->
  files (snd (TelegramUploader._compress_if_needed E up file_path "video" file_size x))
    !! (temp_path ++ ".webm")%string = Some n.
Proof.
  intros Hlt Hmk Hff Hspawn Hrc Hwrote.
  rewrite (compress_unfold E up file_path "video" file_size x) by exact Hlt.
  rewrite Hmk. cbv zeta. set (x0 := log _ _).
  set (webm_path := (temp_path ++ ".webm")%string) in *.
  set (x1 := after_ffmpeg E (webm_cmd file_path webm_path) webm_path x0).
  assert (Hx1 : files x1 !! webm_path = Some n).
  { subst x1. unfold after_ffmpeg. change (ticks x0) with (S (ticks x)). rewrite Hff.
    cbn [files log set_files]. rewrite Hwrote. apply lookup_insert_eq. }
  assert (Hkeep : forall fs fs', same_outside [temp_path] fs fs' ->
                                 fs' !! webm_path = fs !! webm_path).
  { intros fs fs' H. apply H. intros [H1|[]]. exact (append_webm_ne _ (eq_sym H1)). }
  destruct (bitrate_loop_like E
              (fun v_bitrate =>
                 MediaCompressor.compress_video E file_path temp_path v_bitrate
                   "128k" "1280:720")
              temp_path (limit_of "video") ["1M"; "800k"; "500k"]
              (fun b => compress_video_like E file_path temp_path b "128k" "1280:720")
              false x1) as (b & x2 & Hloop & Hfs2 & _); [discriminate|].
  assert (Hladder : compress_ladders E file_path "video" temp_path (limit_of "video") x0
                    = (Ok b, x2)).
  { unfold compress_ladders.
    change (String.eqb "video" "audio") with false. change (String.eqb "video" "video") with true.
    cbv iota. fold webm_path. unfold bind at 1.
    rewrite (convert_to_webm_run E file_path webm_path x0)
      by (change (ticks x0) with (S (ticks x)); rewrite Hff; exact Hspawn).
    fold x1. change (ticks x0) with (S (ticks x)). rewrite Hff.
    destruct (Z.eqb_spec (ff_returncode out) 0); [contradiction|]. cbn [andb].
    unfold bind at 1. unfold ret at 1. cbn [negb]. exact Hloop. }
  rewrite Hladder.
  destruct (compress_finish_spec file_path temp_path b x2) as (p & x3 & -> & Hfs3 & _).
  cbn [snd]. rewrite (Hkeep _ _ Hfs3), (Hkeep _ _ Hfs2). exact Hx1.
Qed.

Lemma failed_webm_conversion_leaves_its_output_witness :
  files (snd (TelegramUploader._compress_if_needed failing_transcoder the_uploader
                "downloads/big.mp4" "video" (60 * MB)
                (one_file "downloads/big.mp4" (60 * MB))))
    !! "/tmp/tmpk3v9qz.mp4.webm" = Some (3 * MB).
Proof.
  apply (failed_webm_conversion_leaves_its_output failing_transcoder the_uploader
           "downloads/big.mp4" (60 * MB) (one_file "downloads/big.mp4" (60 * MB))
           "/tmp/tmpk3v9qz.mp4" (mkFfmpegOutcome None 1 (Some (3 * MB))) (3 * MB)).
  - reflexivity.
  - reflexivity.
  - reflexivity.
  - reflexivity.
  - discriminate.
  - reflexivity.
Defined.

Lemma upload_file_unfold E up file_path video_id media_type caption x size :
  files x !! file_path = Some size ->
  TelegramUploader.upload_file E up file_path video_id media_type caption x
  = match TelegramUploader._compress_if_needed E up file_path media_type size x with
    | (Raise e, x1) => reported (Raise e, x1)
    | (Ok compressed_path, x1) =>
        if substituted compressed_path file_path then
          match files x1 !! compressed_path with
          | Some csize =>
              reported (TelegramUploader.send_file E up compressed_path compressed_path
                          media_type (temp_suffix compressed_path) csize x1)
          | None => reported (Raise (OSError "No such file or directory"), x1)
          end
        else
          reported (TelegramUploader.send_file E up compressed_path file_path
                      media_type (temp_suffix file_path) size x1)
    end.
Proof.
  intros Hsize. unfold TelegramUploader.upload_file, try_except.
  unfold bind at 1. unfold Os.path_exists at 1.
  rewrite bool_decide_eq_true_2 by (rewrite Hsize; eauto). cbn [negb].
  unfold bind at 1. unfold Os.path_getsize at 1. rewrite Hsize.
  unfold bind at 1.
  destruct (TelegramUploader._compress_if_needed E up file_path media_type size x)
    as [[compressed_path|e] x1]; [|reflexivity].
  fold (substituted compressed_path file_path).
  destruct (substituted compressed_path file_path).
  - unfold bind at 1. unfold bind at 1. unfold Os.path_getsize at 1.
    destruct (files x1 !! compressed_path) as [csize|]; [|reflexivity].
    unfold ret at 1. unfold reported, temp_suffix.
    destruct (TelegramUploader.send_file _ _ _ _ _ _ _ _) as [[a|e] s']; reflexivity.
  - unfold bind at 1. unfold ret at 1. unfold reported, temp_suffix.
    destruct (TelegramUploader.send_file _ _ _ _ _ _ _ _) as [[a|e] s']; reflexivity.
Qed.

(** What [send_file] does when the clean-up guard is false, which it always
    is: one request, and an answer read off the reply. *)
Lemma send_file_run E up compressed_path file_path media_type file_ext file_size x :
  substituted compressed_path file_path = false ->
  is_Some (files x !! file_path) ->
  let api_method := TelegramUploader.choose_api_method media_type file_ext file_size in
  let reply := post E (ticks x) api_method file_path file_size in
  exists r,
    TelegramUploader.send_file E up compressed_path file_path media_type file_ext file_size x
    = (r, log (EvPost api_method file_path file_size reply) (tick (latency E (ticks x)) x))
    /\ (forall result, reported (r, x) = (Ok result, x) ->
        (dict_get "status" result = Some (VStr "success")
         /\ accepted reply = true
         /\ dict_get "compressed" result = Some (VBool false))
        \/ (dict_get "status" result = Some (VStr "error") /\ accepted reply = false)).
Proof.
  intros Hcond [n Hn]. cbv zeta. unfold substituted in Hcond.
  unfold TelegramUploader.send_file. rewrite Hcond.
  unfold bind at 1. unfold Os.open_rb. rewrite Hn.
  unfold bind at 1. unfold try_except at 1. unfold bind at 1.
  unfold TelegramUploader.session_post.
  set (api_method := TelegramUploader.choose_api_method media_type file_ext file_size).
  destruct (post E (ticks x) api_method file_path file_size) as [e|status ok result] eqn:Hreply.
  - destruct e; eexists; (split; [reflexivity|]); intros res Hres; injection Hres as <-;
      right; auto.
  - destruct (Z.eqb_spec status 200) as [->|Hne].
    + destruct ok.
      * destruct result as [message|].
        -- unfold bind, subscript, ret. cbn.
           destruct (message_id message) as [mid|] eqn:Hmid; cbn;
             eexists; (split; [reflexivity|]); intros res Hres; injection Hres as <-.
           ++ left. cbn. split; [reflexivity|]. split; [reflexivity|].
              destruct (Str.truthy compressed_path); [|reflexivity].
              simpl in Hcond. rewrite Hcond. reflexivity.
           ++ right. cbn. auto.
        -- eexists. split; [reflexivity|]. intros res Hres. injection Hres as <-.
           right. auto.
      * eexists. split; [reflexivity|]. intros res Hres. injection Hres as <-.
        right. auto.
    + unfold bind, ret. cbn. assert (Hacc : accepted (HttpResponse status ok result) = false).
      { unfold accepted. destruct status as [|p|p]; try reflexivity.
        do 8 (destruct p as [p|p|]; try reflexivity). contradiction. }
      destruct (status =? 413); eexists; (split; [reflexivity|]); intros res Hres;
        injection Hres as <-; right; auto.
Qed.

Lemma send_file_missing E up compressed_path file_path media_type file_ext file_size x :
  files x !! file_path = None ->
  TelegramUploader.send_file E up compressed_path file_path media_type file_ext file_size x
  = (Raise (OSError "No such file or directory"), x).
Proof.
  intros Hn. unfold TelegramUploader.send_file. unfold bind at 1. unfold Os.open_rb.
  rewrite Hn. reflexivity.
Qed.

Lemma substituted_self p : substituted p p = false.
Proof. unfold substituted. rewrite String.eqb_refl. apply andb_false_r. Qed.

Lemma reported_send_file E up compressed_path file_path media_type file_ext file_size x :
  substituted compressed_path file_path = false ->
  exists result x',
    reported (TelegramUploader.send_file E up compressed_path file_path media_type
                file_ext file_size x) = (Ok result, x')
    /\ files x' = files x
    /\ upload_verdict x' result.
Proof.
  intros Hcond. destruct (files x !! file_path) as [n|] eqn:Hn.
  - destruct (send_file_run E up compressed_path file_path media_type file_ext file_size x
                Hcond (ex_intro _ n Hn)) as (r & Hrun & Hres).
    rewrite Hrun.
    set (x' := log _ _) in *.
    destruct r as [result|e].
    + exists result, x'. split; [reflexivity|]. split; [reflexivity|].
      destruct (Hres result eq_refl) as [(Hs & Hacc & Hc)|[Hs _]]; [right|left; exact Hs].
      split; [exact Hs|]. split; [exact Hc|]. eexists _, _, _, _, _. split; [reflexivity|].
      exact Hacc.
    + eexists _, x'. split; [reflexivity|]. split; [reflexivity|]. left. reflexivity.
  - rewrite send_file_missing by exact Hn. eexists _, _. split; [reflexivity|].
    split; [reflexivity|]. left. reflexivity.
Qed.

Lemma upload_file_spec E up file_path video_id media_type caption x :
  exists result x',
    TelegramUploader.upload_file E up file_path video_id media_type caption x
    = (Ok result, x')
    /\ upload_verdict x' result
    /\ (files x !! file_path = None ->
        result = TelegramUploader.error_result "File not found" /\ x' = x).
Proof.
  destruct (files x !! file_path) as [size|] eqn:Hsize.
  - rewrite (upload_file_unfold E up file_path video_id media_type caption x size Hsize).
    destruct (TelegramUploader._compress_if_needed E up file_path media_type size x)
      as [[compressed_path|e] x1].
    + destruct (substituted compressed_path file_path) eqn:Hsub.
      * destruct (files x1 !! compressed_path) as [csize|].
        -- destruct (reported_send_file E up compressed_path compressed_path media_type
                       (temp_suffix compressed_path) csize x1 (substituted_self _))
             as (result & x' & -> & _ & Hv).
           exists result, x'. split; [reflexivity|]. split; [exact Hv|discriminate].
        -- eexists _, _. split; [reflexivity|]. split; [left; reflexivity|discriminate].
      * destruct (reported_send_file E up compressed_path file_path media_type
                    (temp_suffix file_path) size x1 Hsub) as (result & x' & -> & _ & Hv).
        exists result, x'. split; [reflexivity|]. split; [exact Hv|discriminate].
    + eexists _, _. split; [reflexivity|]. split; [left; reflexivity|discriminate].
  - exists (TelegramUploader.error_result "File not found"), x. split.
    + unfold TelegramUploader.upload_file, try_except, bind, Os.path_exists.
      rewrite Hsize. rewrite bool_decide_eq_false_2 by (intros [? ?]; discriminate).
      reflexivity.
    + split; [left; reflexivity|auto].
Qed.

(** X10. [upload_file] never raises: it always returns a dict whose status
    is "success" or "error". For a path with no file the dict is exactly
    the error "File not found" and the world is untouched. *)
Theorem upload_file_always_answers E up file_path video_id media_type caption x :
  exists result x',
    TelegramUploader.upload_file E up file_path video_id media_type caption x
    = (Ok result, x')
    /\ (dict_get "status" result = Some (VStr "success")
        \/ dict_get "status" result = Some (VStr "error"))
    /\ (files x !! file_path = None ->
        result = TelegramUploader.error_result "File not found" /\ x' = x).
Proof.
  destruct (upload_file_spec E up file_path video_id media_type caption x)
    as (result & x' & Hrun & Hv & Hmissing).
  exists result, x'. split; [exact Hrun|]. split; [|exact Hmissing].
  destruct Hv as [He|[Hs _]]; auto.
Qed.

Lemma surjective_pairing_ok (run : Res Dict * Ext) :
  (exists result, fst run = Ok result) -> run = (Ok (result_of (fst run)), snd run).
Proof. destruct run as [[result|e] x]; intros [r H]; [reflexivity|discriminate]. Qed.

(** X11. [upload_file] reports "success" only when the last thing it did
    was the POST and the reply to it had status 200, ok true, a result and
    a message id. *)
Theorem upload_success_needs_acceptance E up file_path video_id media_type caption x result x' :
  TelegramUploader.upload_file E up file_path video_id media_type caption x = (Ok result, x') ->
  dict_get "status" result = Some (VStr "success") ->
  exists t api_method path size reply,
    trace x' = t ++ [EvPost api_method path size reply]
    /\ accepted reply = true.
Proof.
  intros Hrun Hs.
  destruct (upload_file_spec E up file_path video_id media_type caption x)
    as (result' & x'' & Hrun' & Hv & _).
  rewrite Hrun in Hrun'. injection Hrun' as <- <-.
  destruct Hv as [He|(_ & _ & Hpost)]; [congruence|exact Hpost].
Qed.

Lemma upload_success_needs_acceptance_witness :
  let run := TelegramUploader.upload_file (scripted 0 (41 * MB) upload_accepted) the_uploader
               "downloads/big.webm" "abc123" "audio" "Audio Download"
               (one_file "downloads/big.webm" (60 * MB)) in
  exists t api_method path size reply,
    trace (snd run) = t ++ [EvPost api_method path size reply]
    /\ accepted reply = true.
Proof.
  eapply (upload_success_needs_acceptance (scripted 0 (41 * MB) upload_accepted) the_uploader
            "downloads/big.webm" "abc123" "audio" "Audio Download"
            (one_file "downloads/big.webm" (60 * MB))).
  - apply surjective_pairing_ok. vm_compute. eexists. reflexivity.
  - vm_compute. reflexivity.
Defined.

(** X12. Whenever [upload_file] reports "success", its "compressed" flag
    is False, also when the file it sent was the compressed copy: line 185
    made [file_path] the compressed path before the flag compares the
    two. *)
Theorem upload_never_reports_compression E up file_path video_id media_type caption x
    result x' :
  TelegramUploader.upload_file E up file_path video_id media_type caption x = (Ok result, x') ->
  dict_get "status" result = Some (VStr "success") ->
  dict_get "compressed" result = Some (VBool false).
Proof.
  intros Hrun Hs.
  destruct (upload_file_spec E up file_path video_id media_type caption x)
    as (result' & x'' & Hrun' & Hv & _).
  rewrite Hrun in Hrun'. injection Hrun' as <- <-.
  destruct Hv as [He|(_ & Hc & _)]; [congruence|exact Hc].
Qed.

Lemma upload_never_reports_compression_witness :
  let run := TelegramUploader.upload_file (scripted 0 (41 * MB) upload_accepted) the_uploader
               "downloads/big.webm" "abc123" "audio" "Audio Download"
               (one_file "downloads/big.webm" (60 * MB)) in
  (exists api_method size reply,
     last (trace (snd run)) = Some (EvPost api_method "/tmp/tmpk3v9qz.webm" size reply))
  /\ dict_get "compressed" (result_of (fst run)) = Some (VBool false).
Proof.
  split.
  - vm_compute. eexists _, _, _. reflexivity.
  - eapply (upload_never_reports_compression (scripted 0 (41 * MB) upload_accepted)
              the_uploader "downloads/big.webm" "abc123" "audio" "Audio Download"
              (one_file "downloads/big.webm" (60 * MB))).
    + apply surjective_pairing_ok. vm_compute. eexists. reflexivity.
    + vm_compute. reflexivity.
Defined.

Lemma compress_within_limit E up file_path media_type file_size x :
  file_size <= limit_of media_type ->
  TelegramUploader._compress_if_needed E up file_path media_type file_size x
  = (Ok file_path, x).
Proof.
  intros Hle. unfold TelegramUploader._compress_if_needed, try_except.
  fold (limit_of media_type).
  destruct (Z.leb_spec file_size (limit_of media_type)); [reflexivity|lia].
Qed.

Lemma upload_within_limit E up file_path video_id media_type caption x size :
  files x !! file_path = Some size ->
  size <= limit_of media_type ->
  let api_method := TelegramUploader.choose_api_method media_type (temp_suffix file_path) size in
  let reply := post E (ticks x) api_method file_path size in
  exists result,
    TelegramUploader.upload_file E up file_path video_id media_type caption x
    = (Ok result, log (EvPost api_method file_path size reply) (tick (latency E (ticks x)) x))
    /\ (dict_get "status" result = Some (VStr "success") /\ accepted reply = true
        \/ dict_get "status" result = Some (VStr "error") /\ accepted reply = false).
Proof.
  intros Hsize Hle. cbv zeta.
  rewrite (upload_file_unfold E up file_path video_id media_type caption x size Hsize).
  rewrite (compress_within_limit E up file_path media_type size x Hle).
  rewrite substituted_self.
  destruct (send_file_run E up file_path file_path media_type (temp_suffix file_path) size x
              (substituted_self _) (ex_intro _ size Hsize)) as (r & Hrun & Hres).
  rewrite Hrun. set (x' := log _ _) in *.
  destruct r as [result|e].
  - exists result. split; [reflexivity|].
    destruct (Hres result eq_refl) as [(Hs & Hacc & _)|[Hs Hacc]]; auto.
  - specialize (Hres (TelegramUploader.error_result ("Upload error: " ++ exn_str e)%string)).
    eexists. split; [reflexivity|]. right. split; [reflexivity|].
    destruct (Hres eq_refl) as [(Hs & _)|[_ Hacc]]; [discriminate Hs|exact Hacc].
Qed.

(** X13. A file within the limit of its kind, with an extension of ASCII
    characters, is sent as it is: [upload_file] adds exactly one event,
    the POST of the original path with its size to the method chosen from
    kind, extension and size, the file system is unchanged, and the
    answer is "success" exactly when the reply to that POST is
    accepted. *)
Theorem small_file_is_sent_as_is E up file_path video_id media_type caption x size :
  files x !! file_path = Some size ->
  size <= limit_of media_type ->
  Str.is_ascii (snd (OsPath.splitext file_path)) = true ->
  let run := TelegramUploader.upload_file E up file_path video_id media_type caption x in
  let api_method := TelegramUploader.choose_api_method media_type (temp_suffix file_path) size in
  let reply := post E (ticks x) api_method file_path size in
  files (snd run) = files x
  /\ trace (snd run) = trace x ++ [EvPost api_method file_path size reply]
  /\ exists result,
       fst run = Ok result
       /\ (dict_get "status" result = Some (VStr "success") <-> accepted reply = true).
Proof.
  intros Hsize Hle _. cbv zeta.
  destruct (upload_within_limit E up file_path video_id media_type caption x size Hsize Hle)
    as (result & -> & Hres).
  cbn [fst snd]. split; [reflexivity|]. split; [reflexivity|].
  exists result. split; [reflexivity|].
  destruct Hres as [[Hs Hacc]|[Hs Hacc]]; rewrite Hs, Hacc; split; auto; discriminate.
Qed.

Lemma small_file_is_sent_as_is_witness :
  let E := scripted 0 0 upload_accepted in
  let x := one_file "downloads/abc123.webm" (40 * MB) in
  let run := TelegramUploader.upload_file E the_uploader "downloads/abc123.webm" "abc123"
               "audio" "Audio Download" x in
  files (snd run) = files x
  /\ trace (snd run) = trace x ++ [EvPost "sendAudio" "downloads/abc123.webm" (40 * MB)
                                     upload_accepted]
  /\ exists result,
       fst run = Ok result
       /\ (dict_get "status" result = Some (VStr "success") <-> accepted upload_accepted = true).
Proof.
  apply (small_file_is_sent_as_is (scripted 0 0 upload_accepted) the_uploader
           "downloads/abc123.webm" "abc123" "audio" "Audio Download"
           (one_file "downloads/abc123.webm" (40 * MB)) (40 * MB)).
  - reflexivity.
  - vm_compute. discriminate.
  - reflexivity.
Defined.

Lemma extract_usable message video_id file_info :
  TelegramDBManager._extract_file_info message video_id = Some file_info ->
  usable_entry file_info.
Proof.
  unfold TelegramDBManager._extract_file_info.
  destruct (audio message) as [a|].
  - destruct (file_id a) as [fid|]; [|discriminate].
    destruct (message_id message) as [mid|]; [|discriminate].
    cbn. intros H. injection H as <-.
    split; [eexists; reflexivity|]. split; [eexists; reflexivity|]. left. reflexivity.
  - destruct (document message) as [d|].
    + destruct (_ || _ || _).
      * destruct (file_id d) as [fid|]; [|discriminate].
        destruct (message_id message) as [mid|]; [|discriminate].
        cbn. intros H. injection H as <-.
        split; [eexists; reflexivity|]. split; [eexists; reflexivity|]. left. reflexivity.
      * destruct (_ || _ || _); [|discriminate].
        destruct (file_id d) as [fid|]; [|discriminate].
        destruct (message_id message) as [mid|]; [|discriminate].
        cbn. intros H. injection H as <-.
        split; [eexists; reflexivity|]. split; [eexists; reflexivity|]. right. reflexivity.
    + destruct (video message) as [v|]; [|discriminate].
      destruct (file_id v) as [fid|]; [|discriminate].
      destruct (message_id message) as [mid|]; [|discriminate].
      cbn. intros H. injection H as <-.
      split; [eexists; reflexivity|]. split; [eexists; reflexivity|]. right. reflexivity.
Qed.

Lemma extracted_usable video_id file_info :
  extracted_from_message video_id file_info -> usable_entry file_info.
Proof. intros (m & _ & Hm). eapply extract_usable; eauto. Qed.

Lemma search_usable E db video_id s :
  cache_usable s ->
  exists found s',
    TelegramDBManager.search_in_db_channel E db video_id s = (Ok found, s')
    /\ cache_usable s'
    /\ (forall file_info, found = Some file_info -> usable_entry file_info)
    /\ files (ext s') = files (ext s)
    /\ background_upload_tasks s' = background_upload_tasks s.
Proof.
  intros Hwf. destruct (fresh_entry video_id s) as [info|] eqn:Hfresh.
  - rewrite (search_hit E db video_id s info Hfresh). eexists _, _. split; [reflexivity|].
    split; [exact Hwf|]. split; [|split; reflexivity].
    intros fi H. injection H as <-. unfold fresh_entry in Hfresh.
    destruct (channel_cache s !! video_id) as [[ci ts]|] eqn:Hc; [|discriminate].
    destruct (_ <? _); [|discriminate]. injection Hfresh as <-. eapply Hwf; eauto.
  - rewrite (search_miss E db video_id s Hfresh).
    destruct (remote_search_spec E db video_id (ext (entered video_id s)))
      as (t & _ & _ & Hfs & Hfi).
    destruct (remote_search E db video_id (ext (entered video_id s))) as [found x'].
    cbn [fst snd] in *. eexists _, _. split; [reflexivity|].
    destruct found as [fi|].
    + pose proof (extracted_usable _ _ (Hfi fi eq_refl)) as Hu.
      split; [|split; [|split; [exact Hfs|reflexivity]]].
      * intros k i ts. unfold with_cache. cbn [channel_cache].
        destruct (decide (k = video_id)) as [->|Hne].
        -- rewrite lookup_insert_eq. intros H. injection H as <- _. exact Hu.
        -- rewrite lookup_insert_ne by congruence. apply Hwf.
      * intros fi' H. injection H as <-. exact Hu.
    + split; [exact Hwf|]. split; [discriminate|]. split; [exact Hfs|reflexivity].
Qed.

Lemma app_with_usable_entry_ok : cache_usable app_with_usable_entry.
Proof.
  intros k file_info ts H. unfold app_with_usable_entry in H. cbn [channel_cache] in H.
  apply lookup_singleton_Some in H as [_ H].
  injection H as <- _. split; [eexists; reflexivity|]. split; [eexists; reflexivity|].
  left. reflexivity.
Qed.

(** X14. If every cached entry has a string file_id, an integer message_id
    and media_type "audio" or "video", then [search_in_db_channel] does
    not raise, leaves the cache in that shape, returns only such entries,
    and changes neither the file system nor the upload registry. *)
Theorem search_keeps_cache_usable E db video_id s :
  cache_usable s ->
  exists found s',
    TelegramDBManager.search_in_db_channel E db video_id s = (Ok found, s')
    /\ cache_usable s'
    /\ (forall file_info, found = Some file_info -> usable_entry file_info)
    /\ files (ext s') = files (ext s)
    /\ background_upload_tasks s' = background_upload_tasks s.
Proof. apply search_usable. Qed.

Lemma search_keeps_cache_usable_witness :
  exists found s',
    TelegramDBManager.search_in_db_channel blocked_fetch_directory_hit the_directory "xyz"
      app_with_usable_entry = (Ok found, s')
    /\ cache_usable s'
    /\ (forall file_info, found = Some file_info -> usable_entry file_info)
    /\ files (ext s') = files (ext app_with_usable_entry)
    /\ background_upload_tasks s' = background_upload_tasks app_with_usable_entry.
Proof.
  apply (search_keeps_cache_usable blocked_fetch_directory_hit the_directory "xyz"
           app_with_usable_entry).
  exact app_with_usable_entry_ok.
Defined.

Lemma deep_search_pages_budget E db video_id pages offset_id x :
  exists t,
    trace (snd (TelegramDBManager.deep_search_pages E db video_id pages offset_id x))
    = trace x ++ t
    /\ forallb is_history_event t = true
    /\ (length t <= pages)%nat.
Proof.
  revert offset_id x. induction pages as [|pages IH]; intros offset_id x.
  - exists []. cbn. rewrite app_nil_r. auto.
  - cbn [TelegramDBManager.deep_search_pages]. unfold bind at 1.
    destruct (get_chat_history_run E db (Some offset_id) x) as [r0 Hr0]. rewrite Hr0.
    set (ev := EvGetChatHistory (Some offset_id) (getChatHistory E (ticks x) (Some offset_id))).
    set (x1 := log _ _).
    assert (Hstop : forall r : Res (option Dict),
              exists t, trace (snd (r, x1)) = trace x ++ t
                        /\ forallb is_history_event t = true /\ (length t <= S pages)%nat).
    { intros r. exists [ev]. cbn. repeat split; auto. lia. }
    destruct r0 as [[[status ok] messages]|e]; [|apply Hstop].
    destruct (negb (status =? 200)); [apply Hstop|].
    destruct (negb ok || bool_decide (messages = [])); [apply Hstop|].
    destruct (TelegramDBManager.scan_messages video_id messages); [apply Hstop|].
    destruct (last messages) as [m|]; [|apply Hstop].
    unfold bind at 1. destruct (message_id m) as [mid|]; cbn [subscript].
    + unfold ret at 1. destruct (IH mid x1) as (t & Htr & Hev & Hlen).
      exists (ev :: t). rewrite Htr. subst x1. cbn. rewrite <- app_assoc.
      repeat split; auto. lia.
    + apply Hstop.
Qed.

Lemma remote_search_budget E db video_id x :
  exists t,
    trace (snd (remote_search E db video_id x)) = trace x ++ t
    /\ forallb is_history_event t = true
    /\ (1 <= length t <= 6)%nat.
Proof.
  unfold remote_search.
  destruct (get_chat_history_run E db None x) as [r0 Hr0]. rewrite Hr0.
  set (ev := EvGetChatHistory None (getChatHistory E (ticks x) None)).
  set (x1 := log _ _).
  assert (Hstop : forall o : option Dict,
            exists t, trace (snd (o, x1)) = trace x ++ t
                      /\ forallb is_history_event t = true /\ (1 <= length t <= 6)%nat).
  { intros o. exists [ev]. cbn. repeat split; auto; lia. }
  destruct r0 as [[[status ok] result]|e]; [|apply Hstop].
  destruct (if (status =? 200) && ok then _ else None); [apply Hstop|].
  unfold TelegramDBManager._deep_search_channel, try_except.
  destruct (deep_search_pages_budget E db video_id (Z.to_nat (500 / 100)) 0 x1)
    as (t & Htr & Hev & Hlen).
  change (Z.to_nat (500 / 100)) with 5%nat in *.
  destruct (TelegramDBManager.deep_search_pages E db video_id 5 0 x1) as [r x2].
  cbn [snd] in Htr.
  assert (Hx2 : trace x2 = trace x ++ ev :: t).
  { rewrite Htr. subst x1. cbn. rewrite <- app_assoc. reflexivity. }
  destruct r as [found|e]; exists (ev :: t); cbn [snd]; (split; [exact Hx2|]);
    (split; [exact Hev|cbn; lia]).
Qed.

(** X15. One call of [search_in_db_channel] records its entry and then only
    sends getChatHistory requests, at most six of them (the first page and
    five deep pages), and none exactly when the cache holds a fresh entry
    for the identifier. *)
Theorem search_request_budget E db video_id s :
  let run := TelegramDBManager.search_in_db_channel E db video_id s in
  exists t,
    trace (ext (snd run))
    = trace (ext s) ++ EvEnter "search_in_db_channel" video_id :: t
    /\ forallb is_history_event t = true
    /\ (length t <= 6)%nat
    /\ (t = [] <-> is_Some (fresh_entry video_id s)).
Proof.
  cbv zeta. destruct (fresh_entry video_id s) as [info|] eqn:Hfresh.
  - rewrite (search_hit E db video_id s info Hfresh). exists []. cbn.
    repeat split; auto; try lia.
  - rewrite (search_miss E db video_id s Hfresh).
    destruct (remote_search_budget E db video_id (ext (entered video_id s)))
      as (t & Htr & Hev & Hlen).
    destruct (remote_search E db video_id (ext (entered video_id s))) as [found x'].
    cbn [snd] in Htr. exists t.
    assert (Hx : trace x' = trace (ext s) ++ EvEnter "search_in_db_channel" video_id :: t).
    { rewrite Htr. cbn. rewrite <- app_assoc. reflexivity. }
    split; [destruct found; exact Hx|]. split; [exact Hev|]. split; [lia|].
    split; [intros ->; cbn in Hlen; lia|intros [? ?]; discriminate].
Qed.

(** X16. When a search that had no fresh entry to serve returns an entry,
    the cache now holds that entry under the identifier, stamped with the
    clock of the final state, and a search repeated in that state returns
    the same entry and only records the call. *)
Theorem found_entry_is_served_from_cache E db video_id s file_info s' :
  fresh_entry video_id s = None ->
  TelegramDBManager.search_in_db_channel E db video_id s = (Ok (Some file_info), s') ->
  channel_cache s' = <[video_id := (file_info, clock (ext s'))]> (channel_cache s)
  /\ TelegramDBManager.search_in_db_channel E db video_id s'
     = (Ok (Some file_info), entered video_id s').
Proof.
  intros Hfresh Hrun. rewrite (search_miss E db video_id s Hfresh) in Hrun.
  destruct (remote_search E db video_id (ext (entered video_id s))) as [found x'].
  destruct found as [fi|]; [|discriminate].
  injection Hrun as <- <-. cbn [with_cache with_ext channel_cache ext].
  split; [reflexivity|]. apply search_hit. unfold fresh_entry, with_cache, with_ext.
  cbn [channel_cache ext]. rewrite lookup_insert_eq.
  rewrite Z.sub_diag. reflexivity.
Qed.

Lemma found_entry_is_served_from_cache_witness :
  let E := blocked_fetch_directory_hit in
  let run := TelegramDBManager.search_in_db_channel E the_directory "abc123" empty_app in
  exists file_info,
    fst run = Ok (Some file_info)
    /\ channel_cache (snd run)
       = <["abc123" := (file_info, clock (ext (snd run)))]> (channel_cache empty_app)
    /\ TelegramDBManager.search_in_db_channel E the_directory "abc123" (snd run)
       = (Ok (Some file_info), entered "abc123" (snd run)).
Proof.
  cbv zeta.
  destruct (TelegramDBManager.search_in_db_channel blocked_fetch_directory_hit the_directory
              "abc123" empty_app) as [r s'] eqn:Hrun.
  assert (Hr : exists file_info, r = Ok (Some file_info)).
  { apply (f_equal fst) in Hrun. vm_compute in Hrun. subst r. eexists. reflexivity. }
  destruct Hr as [file_info ->]. exists file_info. split; [reflexivity|].
  apply (found_entry_is_served_from_cache blocked_fetch_directory_hit the_directory "abc123"
           empty_app file_info s').
  - reflexivity.
  - exact Hrun.
Defined.

Lemma cache_usable_with_ext x s : cache_usable s -> cache_usable (with_ext x s).
Proof. intros H k i ts. apply H. Qed.

Lemma local_download_media_cases E ld video_id media_type x :
  exists x1,
    (exists p,
       LocalDownloadManager.download_media E ld video_id media_type x
       = (Ok [("status", VStr "success"); ("file_path", VStr p);
              ("video_id", VStr video_id); ("media_type", VStr media_type)], x1)
       /\ is_Some (files x1 !! p))
    \/ (exists m,
          LocalDownloadManager.download_media E ld video_id media_type x
          = (Ok [("status", VStr "error"); ("message", VStr m)], x1)).
Proof.
  unfold LocalDownloadManager.download_media.
  destruct (negb (LocalDownloadManager.downloader_available ld));
    [exists x; right; eexists; reflexivity|].
  unfold try_except, bind.
  destruct (Downloader.download E video_id media_type x) as [[p|e] x1]; exists x1.
  - unfold Os.path_exists.
    destruct (bool_decide (is_Some (files x1 !! p))) eqn:Hp.
    + apply bool_decide_eq_true_1 in Hp. destruct (Str.truthy p); cbn [andb].
      * left. exists p. split; [reflexivity|exact Hp].
      * right. eexists. reflexivity.
    + rewrite andb_false_r. right. eexists. reflexivity.
  - right. eexists. reflexivity.
Qed.

(** X17. With a cache in the shape of X14,
    [DownloadManager.download_media] never raises; the cache keeps its
    shape, the upload registry is unchanged, and the answer is an error
    with neither link nor file_path, or a success with a link: from the
    local engine, with the path of a file that exists, or from the
    directory, without a path. *)
Theorem orchestrator_never_raises E C dm video_id media_type request s :
  cache_usable s ->
  exists result s',
    DownloadManager.download_media E C dm video_id media_type request s = (Ok result, s')
    /\ cache_usable s'
    /\ background_upload_tasks s' = background_upload_tasks s
    /\ download_answer s' result.
Proof.
  intros Hwf.
  destruct (orchestrator_table E C dm video_id media_type request s)
    as (local_result & x1 & Hlocal & _ & Htable).
  cbv zeta in Htable.
  destruct (local_download_media_cases E (DownloadManager.local_downloader dm)
              video_id media_type (ext s)) as (x1' & [(p & Hp & Hfile)|(m & Hm)]).
  { rewrite Hlocal in Hp. injection Hp as -> <-.
    destruct (orchestrator_local_success E C dm video_id media_type request s p x1 Hlocal)
      as (link & ->).
    eexists _, _. split; [reflexivity|]. split; [apply cache_usable_with_ext, Hwf|].
    split; [reflexivity|]. right. split; [reflexivity|]. split; [eexists; reflexivity|].
    left. split; [reflexivity|]. exists p. split; [reflexivity|exact Hfile]. }
  rewrite Hlocal in Hm. injection Hm as -> <-.
  change (primary_succeeded [("status", VStr "error"); ("message", VStr m)]) with false
    in Htable. cbv iota in Htable.
  set (local_result := [("status", VStr "error"); ("message", VStr m)]) in *.
  assert (Hfail : forall s', cache_usable s' ->
            background_upload_tasks s' = background_upload_tasks s ->
            exists result s'',
              (Ok (failure_result local_result), s') = (Ok result, s'')
              /\ cache_usable s''
              /\ background_upload_tasks s'' = background_upload_tasks s
              /\ download_answer s'' result).
  { intros s' Hs' Hb. eexists _, _. split; [reflexivity|]. split; [exact Hs'|].
    split; [exact Hb|]. left. repeat split; reflexivity. }
  destruct (DownloadManager.telegram_db dm) as [db|].
  - destruct Htable as (found & s2 & Hsearch & _ & Hrest).
    destruct (search_usable E db video_id (with_ext x1 s) (cache_usable_with_ext _ _ Hwf))
      as (found' & s2' & Hsearch' & Hwf2 & Hfound & _ & Hb2).
    rewrite Hsearch in Hsearch'. injection Hsearch' as <- <-.
    destruct found as [db_file|].
    + destruct (Hfound db_file eq_refl) as ((fid & Hfid) & _).
      assert (Htruthy : dict_truthy db_file = true)
        by (destruct db_file; [discriminate Hfid|reflexivity]).
      rewrite Htruthy in Hrest. cbn [negb] in Hrest.
      rewrite Hfid in Hrest. destruct Hrest as (url & x3 & _ & _ & ->).
      destruct url as [file_url|].
      * eexists _, _. split; [reflexivity|].
         split; [apply cache_usable_with_ext, Hwf2|]. split; [exact Hb2|].
         right. split; [reflexivity|]. split; [eexists; reflexivity|].
         right. split; reflexivity.
      * apply Hfail; [apply cache_usable_with_ext, Hwf2|exact Hb2].
    + rewrite Hrest. apply Hfail; [exact Hwf2|exact Hb2].
  - rewrite Htable. apply Hfail; [apply cache_usable_with_ext, Hwf|reflexivity].
Qed.

Lemma orchestrator_never_raises_witness :
  exists result s',
    DownloadManager.download_media blocked_fetch_directory_hit default_config
      (DownloadManager.init default_config) "xyz" "audio" None app_with_usable_entry
    = (Ok result, s')
    /\ cache_usable s'
    /\ background_upload_tasks s' = background_upload_tasks app_with_usable_entry
    /\ download_answer s' result.
Proof.
  apply (orchestrator_never_raises blocked_fetch_directory_hit default_config
           (DownloadManager.init default_config) "xyz" "audio" None app_with_usable_entry).
  exact app_with_usable_entry_ok.
Defined.

Lemma alt_path_loop_eq video_id exts file_path x :
  alt_path_loop video_id exts file_path x
  = (Ok (default file_path
           (first_existing (files x)
              (map (fun ext => OsPath.join DOWNLOAD_FOLDER (video_id ++ ext)%string) exts))), x).
Proof.
  induction exts as [|ext exts IH]; [reflexivity|].
  cbn [alt_path_loop map first_existing]. unfold bind, Os.path_exists.
  destruct (bool_decide _); [reflexivity|exact IH].
Qed.

Lemma first_existing_some fs paths p :
  first_existing fs paths = Some p -> In p paths /\ is_Some (fs !! p).
Proof.
  induction paths as [|q paths IH]; [discriminate|]. cbn [first_existing].
  case_bool_decide as Hq.
  - intros H. injection H as <-. split; [left; reflexivity|exact Hq].
  - intros H. destruct (IH H). split; [right|]; assumption.
Qed.

Lemma first_existing_none fs paths :
  first_existing fs paths = None <-> Forall (fun p => fs !! p = None) paths.
Proof.
  induction paths as [|q paths IH]; cbn [first_existing].
  - split; [constructor|reflexivity].
  - case_bool_decide as Hq.
    + split; [discriminate|]. intros H. apply Forall_cons in H as [Hn _].
      rewrite Hn in Hq. destruct Hq; discriminate.
    + rewrite IH. split.
      * intros H. constructor; [|exact H]. destruct (fs !! q) eqn:Hl; [|reflexivity].
        exfalso. apply Hq. eauto.
      * intros H. apply Forall_cons in H as [_ H]. exact H.
Qed.

Lemma serve_file_eq video_id type_ x :
  serve_file video_id type_ x
  = match first_existing (files x) (served_candidates video_id type_) with
    | Some p =>
        (Ok (mkFileResponse p (if String.eqb type_ "audio" then "audio/mpeg" else "video/mp4")
               (served_name video_id type_)), x)
    | None => (Raise (HTTPException 500 "Error serving file"), x)
    end.
Proof.
  unfold serve_file, try_except. fold (served_name video_id type_).
  unfold served_candidates. cbn [first_existing].
  unfold bind at 1. unfold Os.path_exists at 1.
  set (primary := OsPath.join DOWNLOAD_FOLDER (served_name video_id type_)).
  destruct (bool_decide (is_Some (files x !! primary))) eqn:Hp; cbn [negb].
  - unfold bind, ret, Os.path_exists. rewrite Hp. reflexivity.
  - unfold bind at 1. rewrite alt_path_loop_eq.
    destruct (first_existing (files x) _) as [p|] eqn:Hf; cbn [default].
    + apply first_existing_some in Hf as [_ Hex].
      unfold bind, Os.path_exists. rewrite bool_decide_eq_true_2 by exact Hex. reflexivity.
    + unfold bind, Os.path_exists. rewrite Hp. reflexivity.
Qed.

Lemma first_existing_first fs paths p :
  first_existing fs paths = Some p ->
  exists earlier later,
    paths = earlier ++ p :: later
    /\ Forall (fun q => fs !! q = None) earlier
    /\ is_Some (fs !! p).
Proof.
  induction paths as [|q paths IH]; [discriminate|]. cbn [first_existing].
  case_bool_decide as Hq.
  - intros H. injection H as <-. exists [], paths. split; [reflexivity|].
    split; [constructor|exact Hq].
  - intros H. destruct (IH H) as (earlier & later & -> & Hnone & Hex).
    exists (q :: earlier), later. split; [reflexivity|]. split; [|exact Hex].
    constructor; [|exact Hnone]. destruct (fs !! q) eqn:Hl; [|reflexivity].
    exfalso. apply Hq. eauto.
Qed.

(** X18. [serve_file] changes nothing and never answers 404. It returns a
    response for the first of its five candidate paths that exists: the
    candidates before it do not exist; the response has the media type
    and the download name of the requested kind. When no candidate
    exists it raises [HTTPException(500, "Error serving file")]; the 404
    raised inside the [try] is caught by its own [except]. *)
Theorem serve_file_answer video_id type_ x :
  let run := serve_file video_id type_ x in
  snd run = x
  /\ ((exists earlier p later,
         served_candidates video_id type_ = earlier ++ p :: later
         /\ Forall (fun q => files x !! q = None) earlier
         /\ is_Some (files x !! p)
         /\ fst run = Ok (mkFileResponse p
                            (if String.eqb type_ "audio" then "audio/mpeg" else "video/mp4")
                            (served_name video_id type_)))
      \/ (fst run = Raise (HTTPException 500 "Error serving file")
          /\ Forall (fun p => files x !! p = None) (served_candidates video_id type_))).
Proof.
  cbv zeta. rewrite serve_file_eq.
  destruct (first_existing (files x) (served_candidates video_id type_)) as [p|] eqn:Hf.
  - split; [reflexivity|]. left.
    destruct (first_existing_first _ _ _ Hf) as (earlier & later & Heq & Hnone & Hex).
    exists earlier, p, later. auto.
  - split; [reflexivity|]. right. split; [reflexivity|].
    apply first_existing_none. exact Hf.
Qed.

Lemma download_ok E video_id type_ x p x' :
  Downloader.download E video_id type_ x = (Ok p, x') ->
  (type_ = "audio" \/ type_ = "video")
  /\ p = canonical_path video_id type_
  /\ is_Some (files x' !! p).
Proof.
  intros Hrun. destruct (decide (type_ = "audio" \/ type_ = "video")) as [Ht|Ht].
  - split; [exact Ht|].
    destruct (download_run E video_id type_ x Ht) as (tries & Hall & _ & Heq).
    rewrite Heq in Hrun. revert Hrun. case_bool_decide as Hex.
    + intros H. injection H as <- <-. auto.
    + intros Hrun.
      pose proof (tries_loop_outcome E (Downloader.video_url video_id)
                    (canonical_path video_id type_) tries 0%nat x Hall) as Hout.
      cbv zeta in Hout. rewrite Hrun in Hout. cbn [fst snd] in Hout.
      destruct Hout as [[H1 H2]|H]; [|discriminate].
      injection H1 as ->. auto.
  - assert (type_ <> "audio" /\ type_ <> "video") as [Ha Hv] by tauto.
    unfold Downloader.download in Hrun. apply String.eqb_neq in Ha, Hv.
    rewrite Ha, Hv in Hrun. discriminate.
Qed.

Lemma canonical_is_candidate video_id type_ :
  type_ = "audio" \/ type_ = "video" ->
  In (canonical_path video_id type_) (served_candidates video_id type_).
Proof.
  intros [-> | ->]; unfold canonical_path, served_candidates; cbn.
  - right. right. right. left. reflexivity.
  - right. right. left. reflexivity.
Qed.

(** X19. After [download] has returned a path, [serve_file] for the same
    identifier and kind returns a response for a file that exists; for
    kind "video" it is the downloaded file. *)
Theorem downloaded_file_can_be_served E video_id type_ x p x' :
  Downloader.download E video_id type_ x = (Ok p, x') ->
  exists served,
    serve_file video_id type_ x'
    = (Ok (mkFileResponse served
             (if String.eqb type_ "audio" then "audio/mpeg" else "video/mp4")
             (served_name video_id type_)), x')
    /\ is_Some (files x' !! served)
    /\ (type_ = "video" -> served = p).
Proof.
  intros Hrun. apply download_ok in Hrun as (Ht & -> & Hex).
  rewrite serve_file_eq.
  destruct (first_existing (files x') (served_candidates video_id type_)) as [q|] eqn:Hf.
  - exists q. split; [reflexivity|]. split; [apply (first_existing_some _ _ _ Hf)|].
    intros ->. revert Hf Hex. unfold served_candidates, served_name, canonical_path.
    change (String.eqb "video" "audio") with false. cbv iota.
    change (video_id ++ "." ++ "mp4")%string with (video_id ++ ".mp4")%string.
    change (OsPath.join DOWNLOAD_FOLDER (video_id ++ ".mp4")%string)
      with (Downloader.video_path video_id).
    intros Hf Hex. cbn [first_existing] in Hf.
    rewrite bool_decide_eq_true_2 in Hf by exact Hex. congruence.
  - exfalso. apply first_existing_none in Hf.
    rewrite List.Forall_forall in Hf. specialize (Hf _ (canonical_is_candidate video_id type_ Ht)).
    rewrite Hf in Hex. destruct Hex; discriminate.
Qed.

Lemma downloaded_file_can_be_served_witness :
  let run := Downloader.download (scripted (40 * MB) 0 upload_accepted) "abc123" "audio"
               empty_ext in
  exists served,
    serve_file "abc123" "audio" (snd run)
    = (Ok (mkFileResponse served "audio/mpeg" "abc123.mp3"), snd run)
    /\ is_Some (files (snd run) !! served)
    /\ ("audio" = "video" -> served = "downloads/abc123.webm").
Proof.
  apply (downloaded_file_can_be_served (scripted (40 * MB) 0 upload_accepted) "abc123" "audio"
           empty_ext "downloads/abc123.webm").
  vm_compute. reflexivity.
Defined.

(** X20. With no .mp3 but an .mp4 of the identifier in the download
    folder, an audio request is answered with the .mp4 file, labelled
    audio/mpeg and named .mp3. *)
Theorem audio_request_can_get_the_video_file video_id x size :
  files x !! OsPath.join DOWNLOAD_FOLDER (video_id ++ ".mp3")%string = None ->
  files x !! OsPath.join DOWNLOAD_FOLDER (video_id ++ ".mp4")%string = Some size ->
  serve_file video_id "audio" x
  = (Ok (mkFileResponse (OsPath.join DOWNLOAD_FOLDER (video_id ++ ".mp4")%string) "audio/mpeg"
           (video_id ++ ".mp3")%string), x).
Proof.
  intros Hmp3 Hmp4. rewrite serve_file_eq. unfold served_candidates, served_name.
  cbn [String.eqb Ascii.eqb Bool.eqb map first_existing].
  change (video_id ++ "." ++ "mp3")%string with (video_id ++ ".mp3")%string.
  rewrite !bool_decide_eq_false_2 by (rewrite Hmp3; intros [? ?]; discriminate).
  rewrite bool_decide_eq_true_2 by (rewrite Hmp4; eauto). reflexivity.
Qed.

Lemma audio_request_can_get_the_video_file_witness :
  serve_file "abc123" "audio" (one_file "downloads/abc123.mp4" (40 * MB))
  = (Ok (mkFileResponse "downloads/abc123.mp4" "audio/mpeg" "abc123.mp3"),
     one_file "downloads/abc123.mp4" (40 * MB)).
Proof.
  apply (audio_request_can_get_the_video_file "abc123"
           (one_file "downloads/abc123.mp4" (40 * MB)) (40 * MB)).
  - reflexivity.
  - reflexivity.
Defined.

Lemma upload_background_run E dm uploader video_id media_type file_path s :
  DownloadManager.telegram_uploader dm = Some uploader ->
  exists upload_result x1,
    TelegramUploader.upload_file E uploader file_path video_id media_type
      (DownloadManager.upload_caption video_id media_type) (ext s) = (Ok upload_result, x1)
    /\ upload_verdict x1 upload_result
    /\ DownloadManager.upload_to_telegram_background E dm video_id media_type file_path s
       = (Ok tt,
          mkApp x1 (channel_cache s)
            (<[task_key video_id media_type := finished_entry upload_result (clock x1)]>
               (<[task_key video_id media_type :=
                    [("status", VStr "uploading"); ("start_time", VInt (clock (ext s)))]]>
                  (background_upload_tasks s)))
            (registry_writes s
             ++ [(task_key video_id media_type,
                  [("status", VStr "uploading"); ("start_time", VInt (clock (ext s)))]);
                 (task_key video_id media_type, finished_entry upload_result (clock x1))])).
Proof.
  intros Hup.
  destruct (upload_file_spec E uploader file_path video_id media_type
              (DownloadManager.upload_caption video_id media_type) (ext s))
    as (upload_result & x1 & Hrun & Hv & _).
  exists upload_result, x1. split; [exact Hrun|]. split; [exact Hv|].
  unfold DownloadManager.upload_to_telegram_background. rewrite Hup.
  unfold try_except, bind. unfold lift at 1. unfold time_time at 1.
  unfold registry_put at 1. unfold modify at 1.
  unfold lift at 1. cbn [ext]. rewrite Hrun.
  unfold DownloadManager.dict_item, subscript, finished_entry, dict_str_is.
  destruct Hv as [He|(Hs & _)]; [rewrite He|rewrite Hs];
    unfold ret at 1; unfold lift, time_time, registry_put, modify; cbn;
    rewrite <- app_assoc; reflexivity.
Qed.

(** X21. With an uploader configured, [upload_to_telegram_background]
    never raises and never leaves the status "error" or "uploading": the
    registry entry ends as "completed" when [upload_file] answered
    "success" and as "failed" when it answered "error", and carries that
    answer as "result"; the outside world is the one [upload_file]
    left. *)
Theorem background_upload_completes_or_fails E dm uploader video_id media_type file_path s :
  DownloadManager.telegram_uploader dm = Some uploader ->
  let run := DownloadManager.upload_to_telegram_background E dm video_id media_type
               file_path s in
  let upload := TelegramUploader.upload_file E uploader file_path video_id media_type
                  (DownloadManager.upload_caption video_id media_type) (ext s) in
  exists upload_result finished,
    fst upload = Ok upload_result
    /\ fst run = Ok tt
    /\ ext (snd run) = snd upload
    /\ background_upload_tasks (snd run) !! task_key video_id media_type = Some finished
    /\ dict_get "result" finished = Some (VDict upload_result)
    /\ (dict_get "status" finished = Some (VStr "completed")
        /\ dict_get "status" upload_result = Some (VStr "success")
        \/ dict_get "status" finished = Some (VStr "failed")
           /\ dict_get "status" upload_result = Some (VStr "error")).
Proof.
  intros Hup. cbv zeta.
  destruct (upload_background_run E dm uploader video_id media_type file_path s Hup)
    as (upload_result & x1 & Hrun & Hv & ->).
  rewrite Hrun. cbn [fst snd ext background_upload_tasks].
  exists upload_result, (finished_entry upload_result (clock x1)).
  split; [reflexivity|]. split; [reflexivity|]. split; [reflexivity|].
  split; [apply lookup_insert_eq|]. split; [reflexivity|].
  unfold finished_entry, dict_str_is.
  destruct Hv as [He|(Hs & _)]; [rewrite He; right|rewrite Hs; left]; split; reflexivity.
Qed.

Lemma background_upload_completes_or_fails_witness :
  let E := scripted 0 0 upload_accepted in
  let dm := DownloadManager.init default_config in
  let s := mkApp (one_file "downloads/abc123.webm" (40 * MB)) ∅ ∅ [] in
  let run := DownloadManager.upload_to_telegram_background E dm "abc123" "audio"
               "downloads/abc123.webm" s in
  let upload := TelegramUploader.upload_file E
                  (TelegramUploader.mk (TELEGRAM_BOT_TOKEN default_config)
                     (TELEGRAM_UPLOAD_CHANNEL default_config))
                  "downloads/abc123.webm" "abc123" "audio"
                  (DownloadManager.upload_caption "abc123" "audio") (ext s) in
  exists upload_result finished,
    fst upload = Ok upload_result
    /\ fst run = Ok tt
    /\ ext (snd run) = snd upload
    /\ background_upload_tasks (snd run) !! task_key "abc123" "audio" = Some finished
    /\ dict_get "result" finished = Some (VDict upload_result)
    /\ (dict_get "status" finished = Some (VStr "completed")
        /\ dict_get "status" upload_result = Some (VStr "success")
        \/ dict_get "status" finished = Some (VStr "failed")
           /\ dict_get "status" upload_result = Some (VStr "error")).
Proof.
  apply (background_upload_completes_or_fails (scripted 0 0 upload_accepted)
           (DownloadManager.init default_config)
           (TelegramUploader.mk (TELEGRAM_BOT_TOKEN default_config)
              (TELEGRAM_UPLOAD_CHANNEL default_config))
           "abc123" "audio" "downloads/abc123.webm"
           (mkApp (one_file "downloads/abc123.webm" (40 * MB)) ∅ ∅ [])).
  reflexivity.
Defined.

(** X22. After a background upload of (video_id, media_type),
    [get_upload_status] for the identifier video_id_media_type returns
    the entry the registry holds under that identifier, whose status is
    "completed" or "failed" and whose "result" is the answer of
    [upload_file], and changes nothing. *)
Theorem upload_status_after_background_upload E dm uploader video_id media_type file_path s :
  DownloadManager.telegram_uploader dm = Some uploader ->
  let s' := snd (DownloadManager.upload_to_telegram_background E dm video_id media_type
                   file_path s) in
  let upload := TelegramUploader.upload_file E uploader file_path video_id media_type
                  (DownloadManager.upload_caption video_id media_type) (ext s) in
  exists finished upload_result,
    background_upload_tasks s' !! (video_id ++ "_" ++ media_type)%string = Some finished
    /\ Routes.get_upload_status (video_id ++ "_" ++ media_type)%string s'
       = (Ok [("task_id", VStr (video_id ++ "_" ++ media_type)%string);
              ("status", VDict finished)], s')
    /\ fst upload = Ok upload_result
    /\ dict_get "result" finished = Some (VDict upload_result)
    /\ (dict_get "status" finished = Some (VStr "completed")
        /\ dict_get "status" upload_result = Some (VStr "success")
        \/ dict_get "status" finished = Some (VStr "failed")
           /\ dict_get "status" upload_result = Some (VStr "error")).
Proof.
  intros Hup. cbv zeta.
  destruct (upload_background_run E dm uploader video_id media_type file_path s Hup)
    as (upload_result & x1 & Hrun & Hv & ->).
  rewrite Hrun. cbn [fst snd].
  exists (finished_entry upload_result (clock x1)), upload_result.
  assert (Hheld : background_upload_tasks
                    (mkApp x1 (channel_cache s)
                       (<[task_key video_id media_type
                          := finished_entry upload_result (clock x1)]>
                          (<[task_key video_id media_type :=
                               [("status", VStr "uploading");
                                ("start_time", VInt (clock (ext s)))]]>
                             (background_upload_tasks s)))
                       (registry_writes s
                        ++ [(task_key video_id media_type,
                             [("status", VStr "uploading");
                              ("start_time", VInt (clock (ext s)))]);
                            (task_key video_id media_type,
                             finished_entry upload_result (clock x1))]))
                  !! (video_id ++ "_" ++ media_type)%string
                  = Some (finished_entry upload_result (clock x1))).
  { cbn [background_upload_tasks]. fold (task_key video_id media_type).
    apply lookup_insert_eq. }
  split; [exact Hheld|]. split.
  - unfold Routes.get_upload_status, bind, get_state. rewrite Hheld. reflexivity.
  - split; [reflexivity|]. split; [reflexivity|].
    unfold finished_entry, dict_str_is.
    destruct Hv as [He|(Hs & _)]; [rewrite He; right|rewrite Hs; left]; split; reflexivity.
Qed.

Lemma upload_status_after_background_upload_witness :
  let E := blocked_fetch_directory_hit in
  let s := mkApp (one_file "downloads/abc123.webm" (40 * MB)) ∅ ∅ [] in
  let s' := snd (DownloadManager.upload_to_telegram_background E
                   (DownloadManager.init default_config)
                   "abc123" "audio" "downloads/abc123.webm" s) in
  let upload := TelegramUploader.upload_file E
                  (TelegramUploader.mk (TELEGRAM_BOT_TOKEN default_config)
                     (TELEGRAM_UPLOAD_CHANNEL default_config))
                  "downloads/abc123.webm" "abc123" "audio"
                  (DownloadManager.upload_caption "abc123" "audio") (ext s) in
  exists finished upload_result,
    background_upload_tasks s' !! "abc123_audio" = Some finished
    /\ Routes.get_upload_status "abc123_audio" s'
       = (Ok [("task_id", VStr "abc123_audio"); ("status", VDict finished)], s')
    /\ fst upload = Ok upload_result
    /\ dict_get "result" finished = Some (VDict upload_result)
    /\ (dict_get "status" finished = Some (VStr "completed")
        /\ dict_get "status" upload_result = Some (VStr "success")
        \/ dict_get "status" finished = Some (VStr "failed")
           /\ dict_get "status" upload_result = Some (VStr "error")).
Proof.
  apply (upload_status_after_background_upload blocked_fetch_directory_hit
           (DownloadManager.init default_config)
           (TelegramUploader.mk (TELEGRAM_BOT_TOKEN default_config)
              (TELEGRAM_UPLOAD_CHANNEL default_config))
           "abc123" "audio" "downloads/abc123.webm"
           (mkApp (one_file "downloads/abc123.webm" (40 * MB)) ∅ ∅ [])).
  reflexivity.
Defined.

Lemma search_frame E db video_id s :
  exists found s',
    TelegramDBManager.search_in_db_channel E db video_id s = (Ok found, s')
    /\ files (ext s') = files (ext s)
    /\ background_upload_tasks s' = background_upload_tasks s
    /\ registry_writes s' = registry_writes s.
Proof.
  destruct (fresh_entry video_id s) as [info|] eqn:Hfresh.
  - rewrite (search_hit E db video_id s info Hfresh). eexists _, _. repeat split.
  - rewrite (search_miss E db video_id s Hfresh).
    destruct (remote_search_spec E db video_id (ext (entered video_id s)))
      as (t & _ & _ & Hfs & _).
    destruct (remote_search E db video_id (ext (entered video_id s))) as [found x'].
    cbn [fst snd] in *. eexists _, _. split; [reflexivity|].
    destruct found; repeat split; exact Hfs.
Qed.

Lemma orchestrator_cases E C dm video_id media_type request s :
  exists r s',
    DownloadManager.download_media E C dm video_id media_type request s = (r, s')
    /\ background_upload_tasks s' = background_upload_tasks s
    /\ registry_writes s' = registry_writes s
    /\ (forall result, r = Ok result -> download_answer s' result).
Proof.
  destruct (local_download_media_cases E (DownloadManager.local_downloader dm)
              video_id media_type (ext s)) as (x1 & [(p & Hp & Hfile)|(m & Hm)]).
  - destruct (orchestrator_local_success E C dm video_id media_type request s p x1 Hp)
      as (link & ->).
    eexists _, _. split; [reflexivity|]. split; [reflexivity|]. split; [reflexivity|].
    intros result H. injection H as <-. right. split; [reflexivity|].
    split; [eexists; reflexivity|]. left. split; [reflexivity|].
    exists p. split; [reflexivity|exact Hfile].
  - assert (Hfail : forall s' result, Ok (failure_result [("status", VStr "error");
                                                          ("message", VStr m)]) = Ok result ->
              download_answer s' result).
    { intros s' result H. injection H as <-. left. repeat split; reflexivity. }
    unfold DownloadManager.download_media. unfold bind at 1. unfold lift at 1. rewrite Hm.
    unfold bind at 1. cbn [DownloadManager.dict_item dict_get String.eqb Ascii.eqb Bool.eqb
                           subscript ret].
    change (mkApp x1 (channel_cache s) (background_upload_tasks s) (registry_writes s))
      with (with_ext x1 s).
    destruct (DownloadManager.telegram_db dm) as [db|].
    + destruct (search_frame E db video_id (with_ext x1 s))
        as (found & s2 & Hsearch & _ & Hb2 & Hw2).
      unfold bind at 1. rewrite Hsearch.
      destruct found as [db_file|].
      * destruct (dict_truthy db_file).
        -- unfold bind at 1. unfold DownloadManager.dict_item, subscript.
           destruct (dict_get "file_id" db_file) as [fid|].
           ++ unfold ret at 1.
              destruct (get_file_download_url_total E db (DownloadManager.as_str fid) (ext s2))
                as (url & x3 & Hurl & _).
              unfold bind, lift. rewrite Hurl.
              destruct url as [file_url|]; [destruct (Str.truthy file_url)|];
                eexists _, _; (split; [reflexivity|]);
                (split; [exact Hb2|]); (split; [exact Hw2|]).
              ** intros result H. injection H as <-. right. split; [reflexivity|].
                 split; [eexists; reflexivity|]. right. split; reflexivity.
              ** apply Hfail.
              ** apply Hfail.
           ++ eexists _, _. split; [reflexivity|]. split; [exact Hb2|]. split; [exact Hw2|].
              intros result H. discriminate.
        -- eexists _, _. split; [reflexivity|]. split; [exact Hb2|]. split; [exact Hw2|].
           apply Hfail.
      * eexists _, _. split; [reflexivity|]. split; [exact Hb2|]. split; [exact Hw2|].
        apply Hfail.
    + eexists _, _. split; [reflexivity|]. split; [reflexivity|]. split; [reflexivity|].
      apply Hfail.
Qed.

Lemma song_is_media_endpoint E C dm : song E C dm = media_endpoint E C dm "audio".
Proof. reflexivity. Qed.

Lemma video_is_media_endpoint E C dm : Routes.video E C dm = media_endpoint E C dm "video".
Proof. reflexivity. Qed.

Lemma media_endpoint_total E C dm media video_id request upload s :
  exists response tasks s',
    media_endpoint E C dm media video_id request upload s = (Ok (response, tasks), s')
    /\ background_upload_tasks s' = background_upload_tasks s
    /\ registry_writes s' = registry_writes s
    /\ media_answer media video_id upload s' response tasks.
Proof.
  destruct (orchestrator_cases E C dm video_id media (Some request) s)
    as (r & s' & Hrun & Hb & Hw & Hans).
  unfold media_endpoint, try_except. unfold bind at 1. rewrite Hrun.
  destruct r as [download_info|e].
  - destruct (Hans download_info eq_refl)
      as [(Hs & _ & _)|(Hs & (link & Hlink) & Hsrc)].
    + unfold bind at 1. unfold DownloadManager.dict_item at 1. rewrite Hs.
      cbn [subscript ret String.eqb Ascii.eqb Bool.eqb].
      eexists _, _, _. split; [reflexivity|]. split; [exact Hb|]. split; [exact Hw|].
      right. repeat split; reflexivity.
    + unfold bind at 1. unfold DownloadManager.dict_item at 1. rewrite Hs.
      cbn [subscript ret String.eqb Ascii.eqb Bool.eqb].
      unfold bind at 1. unfold DownloadManager.dict_item at 1. rewrite Hlink.
      cbn [subscript ret].
      destruct Hsrc as [(Hsrc & file_path & Hfp & Hex)|(Hsrc & Hfp)].
      * unfold dict_str_is, dict_has. rewrite Hsrc, Hfp.
        cbn [String.eqb Ascii.eqb Bool.eqb andb]. rewrite andb_true_r.
        destruct upload.
        -- unfold bind at 1. unfold DownloadManager.dict_item at 1. rewrite Hfp.
           cbn [subscript ret DownloadManager.as_str].
           eexists _, _, _. split; [reflexivity|]. split; [exact Hb|]. split; [exact Hw|].
           left. split; [reflexivity|]. split; [reflexivity|]. right.
           split; [reflexivity|]. split; [reflexivity|].
           exists file_path. split; [reflexivity|exact Hex].
        -- eexists _, _, _. split; [reflexivity|]. split; [exact Hb|]. split; [exact Hw|].
           left. split; [reflexivity|]. split; [reflexivity|]. left. split; reflexivity.
      * unfold dict_str_is. rewrite Hsrc.
        cbn [String.eqb Ascii.eqb Bool.eqb andb]. rewrite andb_false_r. cbn [andb].
        eexists _, _, _. split; [reflexivity|]. split; [exact Hb|]. split; [exact Hw|].
        left. split; [reflexivity|]. split; [reflexivity|]. left. split; reflexivity.
  - eexists _, _, _. split; [reflexivity|]. split; [exact Hb|]. split; [exact Hw|].
    right. repeat split; reflexivity.
Qed.

(** X23. [video] never raises and does not touch the upload registry. It
    answers 200 with status "done", and then hands over at most one upload
    task, only if upload was requested, for kind "video" and a file that
    exists, announced as upload_task_id video_id_video; or it answers 500
    with status "error" and no task. *)
Theorem video_answers_and_defers_the_upload E C dm video_id request upload s :
  exists response tasks s',
    Routes.video E C dm video_id request upload s = (Ok (response, tasks), s')
    /\ background_upload_tasks s' = background_upload_tasks s
    /\ registry_writes s' = registry_writes s
    /\ media_answer "video" video_id upload s' response tasks.
Proof. rewrite video_is_media_endpoint. apply media_endpoint_total. Qed.

Lemma upload_background_total E dm video_id media_type file_path s :
  exists s',
    DownloadManager.upload_to_telegram_background E dm video_id media_type file_path s
    = (Ok tt, s')
    /\ channel_cache s' = channel_cache s.
Proof.
  destruct (DownloadManager.telegram_uploader dm) as [uploader|] eqn:Hup.
  - destruct (upload_background_run E dm uploader video_id media_type file_path s Hup)
      as (upload_result & x1 & _ & _ & ->).
    eexists. split; reflexivity.
  - rewrite (upload_background_unconfigured E dm video_id media_type file_path s Hup).
    eexists. split; reflexivity.
Qed.

Lemma run_background_tasks_total E dm tasks s :
  exists s',
    run_background_tasks E dm tasks s = (Ok tt, s')
    /\ channel_cache s' = channel_cache s.
Proof.
  revert s. induction tasks as [|task tasks IH]; intros s.
  - exists s. split; reflexivity.
  - cbn [run_background_tasks]. unfold bind.
    destruct (upload_background_total E dm (task_video_id task) (task_media_type task)
                (task_file_path task) s) as (s1 & -> & Hc1).
    destruct (IH s1) as (s' & -> & Hc). exists s'. split; [reflexivity|congruence].
Qed.

(** X24. A [GET /song] request always gets a response. With a wrong key it
    is 403 "Invalid API Key" and the state is unchanged: nothing was
    downloaded, searched or registered. With the right key it is 200 or
    500, and a 500 leaves the upload registry unchanged. *)
Theorem get_song_checks_the_key_first E C dm video_id request api upload s :
  exists response s',
    get_song E C dm video_id request api upload s = (Ok response, s')
    /\ (api <> API_KEY C ->
        response = mkJSONResponse [("detail", VStr "Invalid API Key")] 403 /\ s' = s)
    /\ (api = API_KEY C ->
        (status_code response = 200 \/ status_code response = 500)
        /\ (status_code response = 500 ->
            background_upload_tasks s' = background_upload_tasks s)).
Proof.
  unfold get_song, try_except, verify_api_key. unfold bind at 1.
  destruct (String.eqb_spec api (API_KEY C)) as [Hkey|Hkey]; cbn [negb].
  - unfold ret at 1. rewrite song_is_media_endpoint.
    destruct (media_endpoint_total E C dm "audio" video_id request upload s)
      as (response & tasks & s1 & Hrun & Hb & _ & Hans).
    unfold bind at 1. rewrite Hrun.
    destruct (run_background_tasks_total E dm tasks s1) as (s2 & Htasks & _).
    unfold bind at 1. rewrite Htasks. unfold ret.
    exists response, s2. split; [reflexivity|]. split; [contradiction|]. intros _.
    destruct Hans as [(Hcode & _)|(Hcode & _ & ->)].
    + split; [left; exact Hcode|]. intros H. rewrite Hcode in H. discriminate.
    + split; [right; exact Hcode|]. intros _. cbn in Htasks. injection Htasks as <-.
      exact Hb.
  - unfold raise at 1. eexists _, _. split; [reflexivity|]. split; [auto|contradiction].
Qed.

Lemma in_kinds type_ :
  Str.in_list type_ ["audio"; "video"] = true -> type_ = "audio" \/ type_ = "video".
Proof.
  unfold Str.in_list. cbn [existsb]. rewrite orb_false_r. intros H.
  apply orb_prop in H as [H|H]; apply String.eqb_eq in H; auto.
Qed.

Lemma download_endpoint_unfold E C dm url type_ upload request background_tasks s :
  valid_video_id (parse_video_id url) = true ->
  Str.in_list type_ ["audio"; "video"] = true ->
  Routes.download_endpoint E C dm url type_ upload request background_tasks s
  = match DownloadManager.download_media E C dm (parse_video_id url) type_ request s with
    | (Raise e, s') =>
        (Ok (mkJSONResponse
               [("status", VStr "error");
                ("message", VStr ("Internal server error: " ++ exn_str e)%string)] 500, []),
         s')
    | (Ok download_info, s') =>
        if upload && dict_str_is "status" download_info "success"
           && dict_str_is "source" download_info "local_downloader"
           && dict_has "file_path" download_info && background_tasks
        then
          match dict_get "file_path" download_info with
          | Some file_path =>
              (Ok (mkJSONResponse
                     (dict_set "upload_task_id"
                        (VStr (parse_video_id url ++ "_" ++ type_)%string)
                        (dict_set "background_upload" (VStr "started") download_info)) 200,
                   [mkBackgroundTask (parse_video_id url) type_
                      (DownloadManager.as_str file_path)]), s')
          | None =>
              (Ok (mkJSONResponse
                     [("status", VStr "error");
                      ("message",
                       VStr ("Internal server error: " ++ exn_str (KeyError "file_path"))%string)]
                     500, []), s')
          end
        else (Ok (mkJSONResponse download_info 200, []), s')
    end.
Proof.
  intros Hid Hty. unfold Routes.download_endpoint. unfold valid_video_id in Hid.
  apply andb_prop in Hid as [Ht Hl]. rewrite Ht. apply negb_true_iff in Hl. rewrite Hl.
  rewrite Hty. cbn [negb orb]. unfold try_except. unfold bind at 1.
  destruct (DownloadManager.download_media E C dm (parse_video_id url) type_ request s)
    as [[download_info|e] s']; [|reflexivity].
  destruct (upload && dict_str_is "status" download_info "success"
            && dict_str_is "source" download_info "local_downloader"
            && dict_has "file_path" download_info); cbn [andb]; [|reflexivity].
  destruct background_tasks; [|reflexivity].
  unfold bind, DownloadManager.dict_item, subscript.
  destruct (dict_get "file_path" download_info); reflexivity.
Qed.

(** X25. [download_endpoint] never raises and answers 200, 400 or 500. It
    answers 400 exactly when the parsed identifier is empty or shorter
    than three characters or the kind is not "audio" or "video", and then
    the state is unchanged and no task is queued. A queued task needs
    upload and a task queue, is for the parsed identifier and the kind,
    and names a file that exists. *)
Theorem download_endpoint_validates_before_acting E C dm url type_ upload request
    background_tasks s :
  exists response tasks s',
    Routes.download_endpoint E C dm url type_ upload request background_tasks s
    = (Ok (response, tasks), s')
    /\ (status_code response = 200 \/ status_code response = 400
        \/ status_code response = 500)
    /\ (valid_video_id (parse_video_id url) && Str.in_list type_ ["audio"; "video"] = false
        <-> status_code response = 400)
    /\ (status_code response = 400 -> s' = s /\ tasks = [])
    /\ (forall task, In task tasks ->
        upload = true /\ background_tasks = true
        /\ task = mkBackgroundTask (parse_video_id url) type_ (task_file_path task)
        /\ is_Some (files (ext s') !! task_file_path task)).
Proof.
  destruct (valid_video_id (parse_video_id url)) eqn:Hid.
  - destruct (Str.in_list type_ ["audio"; "video"]) eqn:Hty.
    + rewrite (download_endpoint_unfold E C dm url type_ upload request background_tasks s
                 Hid Hty).
      destruct (orchestrator_cases E C dm (parse_video_id url) type_ request s)
        as (r & s' & -> & _ & _ & Hans).
      destruct r as [download_info|e].
      * destruct (upload && dict_str_is "status" download_info "success"
                  && dict_str_is "source" download_info "local_downloader"
                  && dict_has "file_path" download_info && background_tasks) eqn:Hcond.
        -- apply andb_prop in Hcond as [Hcond ->]. apply andb_prop in Hcond as [Hcond _].
           apply andb_prop in Hcond as [Hcond _]. apply andb_prop in Hcond as [-> Hs].
           destruct (Hans download_info eq_refl)
             as [(He & _)|(_ & _ & [(_ & p & Hp & Hex)|(_ & Hn)])].
           ++ unfold dict_str_is in Hs. rewrite He in Hs. discriminate.
           ++ rewrite Hp. eexists _, _, _. split; [reflexivity|]. cbn [status_code andb].
              split; [auto|]. split; [split; discriminate|]. split; [discriminate|].
              intros task [<-|[]]. cbn [task_file_path DownloadManager.as_str]. auto.
           ++ unfold dict_has in Hn. destruct (dict_get "file_path" download_info);
                [discriminate|].
              eexists _, _, _. split; [reflexivity|]. cbn [status_code andb].
              split; [auto|]. split; [split; discriminate|]. split; [discriminate|].
              intros task [].
        -- eexists _, _, _. split; [reflexivity|]. cbn [status_code andb].
           split; [auto|]. split; [split; discriminate|]. split; [discriminate|].
           intros task [].
      * eexists _, _, _. split; [reflexivity|]. cbn [status_code andb].
        split; [auto|]. split; [split; discriminate|]. split; [discriminate|].
        intros task [].
    + unfold Routes.download_endpoint. rewrite Hty. cbn [negb].
      destruct (negb (Str.truthy (parse_video_id url)) || _);
        eexists _, _, _; (split; [reflexivity|]); cbn [status_code andb];
        (split; [auto|]); (split; [split; reflexivity|]); (split; [auto|]);
        intros task [].
  - unfold Routes.download_endpoint. unfold valid_video_id in Hid.
    assert (Hbad : negb (Str.truthy (parse_video_id url))
                   || (py_len (parse_video_id url) <? 3)%nat = true).
    { destruct (Str.truthy (parse_video_id url)); [|reflexivity]. cbn [andb negb orb] in *.
      apply negb_false_iff in Hid. exact Hid. }
    rewrite Hbad. eexists _, _, _. split; [reflexivity|]. cbn [status_code andb].
    split; [auto|]. split; [split; reflexivity|]. split; [auto|]. intros task [].
Qed.

(** X26. The same failed download gets two status codes: when
    [DownloadManager.download_media] answers with status "error", [video]
    responds 500 with an error body, while [download_endpoint] responds
    200 with the orchestrator's answer as the body. *)
Theorem failed_download_is_500_on_video_and_200_on_download E C dm url request upload
    background_tasks s result s1 :
  valid_video_id (parse_video_id url) = true ->
  DownloadManager.download_media E C dm (parse_video_id url) "video" (Some request) s
  = (Ok result, s1) ->
  dict_get "status" result = Some (VStr "error") ->
  Routes.video E C dm (parse_video_id url) request upload s
  = (Ok (mkJSONResponse
           [("status", VStr "error");
            ("message", dict_get_default "message" result (VStr "Download failed"))] 500,
         []), s1)
  /\ Routes.download_endpoint E C dm url "video" upload (Some request) background_tasks s
     = (Ok (mkJSONResponse result 200, []), s1).
Proof.
  intros Hid Hrun Hs. split.
  - unfold Routes.video, try_except. unfold bind at 1. rewrite Hrun.
    unfold bind at 1. unfold DownloadManager.dict_item. rewrite Hs. reflexivity.
  - rewrite (download_endpoint_unfold E C dm url "video" upload (Some request)
               background_tasks s Hid eq_refl).
    rewrite Hrun. unfold dict_str_is at 1. rewrite Hs.
    cbn [String.eqb Ascii.eqb Bool.eqb]. rewrite andb_false_r. reflexivity.
Qed.

Lemma failed_download_is_500_on_video_and_200_on_download_witness :
  let E := blocked_fetch_directory_hit in
  let dm := DownloadManager.init no_token_config in
  let run := DownloadManager.download_media E no_token_config dm "abc123" "video"
               (Some "http://localhost:8080/") empty_app in
  Routes.video E no_token_config dm "abc123" "http://localhost:8080/" true empty_app
  = (Ok (mkJSONResponse
           [("status", VStr "error");
            ("message", dict_get_default "message" (result_of (fst run))
                          (VStr "Download failed"))] 500, []), snd run)
  /\ Routes.download_endpoint E no_token_config dm "https://youtu.be/abc123?t=42" "video" true
       (Some "http://localhost:8080/") true empty_app
     = (Ok (mkJSONResponse (result_of (fst run)) 200, []), snd run).
Proof.
  apply (failed_download_is_500_on_video_and_200_on_download blocked_fetch_directory_hit
           no_token_config (DownloadManager.init no_token_config)
           "https://youtu.be/abc123?t=42" "http://localhost:8080/" true true empty_app).
  - reflexivity.
  - vm_compute. reflexivity.
  - vm_compute. reflexivity.
Defined.

(** X27. [refresh_db_cache] empties the directory cache and touches
    nothing else, and the next [search_in_db_channel], for any identifier,
    sends a getChatHistory request right after recording its entry. *)
Theorem refresh_forces_a_remote_search E dm db video_id s :
  DownloadManager.telegram_db dm = Some db ->
  let refreshed := snd (Routes.refresh_db_cache dm s) in
  let run := TelegramDBManager.search_in_db_channel E db video_id refreshed in
  channel_cache refreshed = ∅
  /\ ext refreshed = ext s
  /\ background_upload_tasks refreshed = background_upload_tasks s
  /\ exists t,
       trace (ext (snd run))
       = trace (ext s)
         ++ EvEnter "search_in_db_channel" video_id
         :: EvGetChatHistory None (getChatHistory E (ticks (ext s)) None) :: t.
Proof.
  intros Hdb. cbv zeta. unfold Routes.refresh_db_cache. rewrite Hdb.
  unfold bind, modify, ret. cbn [snd channel_cache ext background_upload_tasks].
  split; [reflexivity|]. split; [reflexivity|]. split; [reflexivity|].
  set (s1 := mkApp (ext s) ∅ (background_upload_tasks s) (registry_writes s)).
  assert (Hfresh : fresh_entry video_id s1 = None).
  { unfold fresh_entry, s1. cbn [channel_cache]. rewrite lookup_empty. reflexivity. }
  rewrite (search_miss E db video_id s1 Hfresh).
  destruct (remote_search_spec E db video_id (ext (entered video_id s1)))
    as (t & Htr & _).
  destruct (remote_search E db video_id (ext (entered video_id s1))) as [found x'].
  cbn [snd] in Htr. exists t.
  assert (Hx : trace x' = trace (ext s) ++ EvEnter "search_in_db_channel" video_id
                 :: EvGetChatHistory None (getChatHistory E (ticks (ext s)) None) :: t).
  { rewrite Htr. cbn. rewrite <- app_assoc. reflexivity. }
  destruct found; exact Hx.
Qed.

Lemma refresh_forces_a_remote_search_witness :
  let E := blocked_fetch_directory_hit in
  let s := app_with_entry 0 1000 in
  let refreshed := snd (Routes.refresh_db_cache (DownloadManager.init default_config) s) in
  let run := TelegramDBManager.search_in_db_channel E the_directory "xyz" refreshed in
  channel_cache refreshed = ∅
  /\ ext refreshed = ext s
  /\ background_upload_tasks refreshed = background_upload_tasks s
  /\ exists t,
       trace (ext (snd run))
       = trace (ext s)
         ++ EvEnter "search_in_db_channel" "xyz"
         :: EvGetChatHistory None (getChatHistory E (ticks (ext s)) None) :: t.
Proof.
  apply (refresh_forces_a_remote_search blocked_fetch_directory_hit
           (DownloadManager.init default_config) the_directory "xyz" (app_with_entry 0 1000)).
  reflexivity.
Defined.

(** X28. With an uploader configured, [upload_file_directly] never raises
    and runs the local download before anything else: the outside world
    is the one that download left, and the registry is unchanged. When
    the download did not answer "success" the response is 400 "Download
    failed before upload" with no task. When it did and there is no task
    queue the response is 500 "Background tasks not available" with no
    task, the download having happened all the same. When it did and
    there is a task queue the response is 200 "upload_started" with
    task_id video_id_type and exactly one task, for the file the download
    answered with, which exists. *)
Theorem manual_upload_downloads_first E dm uploader video_id type_ background_tasks s :
  DownloadManager.telegram_uploader dm = Some uploader ->
  let local := LocalDownloadManager.download_media E
                 (DownloadManager.local_downloader dm) video_id type_ (ext s) in
  let run := Routes.upload_file_directly E dm video_id type_ background_tasks s in
  exists local_result,
    fst local = Ok local_result
    /\ ext (snd run) = snd local
    /\ channel_cache (snd run) = channel_cache s
    /\ background_upload_tasks (snd run) = background_upload_tasks s
    /\ (dict_get "status" local_result <> Some (VStr "success") ->
        fst run
        = Ok (mkJSONResponse
                [("status", VStr "error"); ("message", VStr "Download failed before upload")]
                400, []))
    /\ (dict_get "status" local_result = Some (VStr "success") ->
        if background_tasks then
          exists file_path,
            dict_get "file_path" local_result = Some (VStr file_path)
            /\ is_Some (files (snd local) !! file_path)
            /\ fst run
               = Ok (mkJSONResponse
                       [("status", VStr "upload_started");
                        ("task_id", VStr (video_id ++ "_" ++ type_)%string);
                        ("message", VStr "Background upload started")]
                       200, [mkBackgroundTask video_id type_ file_path])
        else
          fst run
          = Ok (mkJSONResponse
                  [("status", VStr "error"); ("message", VStr "Background tasks not available")]
                  500, [])).
Proof.
  intros Hup. cbv zeta.
  destruct (local_download_media_cases E (DownloadManager.local_downloader dm)
              video_id type_ (ext s)) as (x1 & [(p & Hp & Hfile)|(m & Hm)]).
  - assert (Hrun : Routes.upload_file_directly E dm video_id type_ background_tasks s
                   = (Ok (if background_tasks
                          then (mkJSONResponse
                                  [("status", VStr "upload_started");
                                   ("task_id", VStr (video_id ++ "_" ++ type_)%string);
                                   ("message", VStr "Background upload started")]
                                  200, [mkBackgroundTask video_id type_ p])
                          else (mkJSONResponse
                                  [("status", VStr "error");
                                   ("message", VStr "Background tasks not available")]
                                  500, [])),
                      with_ext x1 s)).
    { unfold Routes.upload_file_directly. rewrite Hup.
      unfold try_except. unfold bind at 1. unfold lift at 1. rewrite Hp.
      destruct background_tasks; reflexivity. }
    rewrite Hrun, Hp. cbn [fst snd with_ext ext channel_cache background_upload_tasks].
    eexists. split; [reflexivity|].
    split; [reflexivity|]. split; [reflexivity|]. split; [reflexivity|].
    split; [intros H; contradiction H; reflexivity|]. intros _.
    destruct background_tasks; [|reflexivity].
    exists p. split; [reflexivity|]. split; [exact Hfile|reflexivity].
  - assert (Hrun : Routes.upload_file_directly E dm video_id type_ background_tasks s
                   = (Ok (mkJSONResponse
                            [("status", VStr "error");
                             ("message", VStr "Download failed before upload")]
                            400, []),
                      with_ext x1 s)).
    { unfold Routes.upload_file_directly. rewrite Hup.
      unfold try_except. unfold bind at 1. unfold lift at 1. rewrite Hm. reflexivity. }
    rewrite Hrun, Hm. cbn [fst snd with_ext ext channel_cache background_upload_tasks].
    eexists. split; [reflexivity|].
    split; [reflexivity|]. split; [reflexivity|]. split; [reflexivity|].
    split; [reflexivity|]. intros H. discriminate H.
Qed.

Lemma manual_upload_downloads_first_witness :
  let E := scripted (40 * MB) 0 upload_accepted in
  let dm := DownloadManager.init default_config in
  let local := LocalDownloadManager.download_media E
                 (DownloadManager.local_downloader dm) "abc123" "audio" (ext empty_app) in
  let run := Routes.upload_file_directly E dm "abc123" "audio" true empty_app in
  fst run
  = Ok (mkJSONResponse
          [("status", VStr "upload_started"); ("task_id", VStr "abc123_audio");
           ("message", VStr "Background upload started")]
          200, [mkBackgroundTask "abc123" "audio" "downloads/abc123.webm"])
  /\ ext (snd run) = snd local
  /\ is_Some (files (snd local) !! "downloads/abc123.webm").
Proof.
  cbv zeta.
  destruct (manual_upload_downloads_first (scripted (40 * MB) 0 upload_accepted)
              (DownloadManager.init default_config)
              (TelegramUploader.mk (TELEGRAM_BOT_TOKEN default_config)
                 (TELEGRAM_UPLOAD_CHANNEL default_config))
              "abc123" "audio" true empty_app eq_refl)
    as (local_result & Hlocal & Hext & _ & _ & _ & Hok).
  vm_compute in Hlocal. injection Hlocal as <-.
  destruct (Hok eq_refl) as (file_path & Hpath & Hfile & Hrun).
  vm_compute in Hpath. injection Hpath as <-.
  split; [exact Hrun|]. split; [exact Hext|exact Hfile].
Defined.

Lemma string_app_nil_r (s : string) : (s ++ "")%string = s.
Proof.
  induction s as [|a s IH]; [reflexivity|].
  change (String a (s ++ "")%string = String a s). rewrite IH. reflexivity.
Qed.

Lemma string_app_assoc (s1 s2 s3 : string) :
  ((s1 ++ s2) ++ s3)%string = (s1 ++ s2 ++ s3)%string.
Proof.
  induction s1 as [|a s1 IH]; [reflexivity|].
  change (String a ((s1 ++ s2) ++ s3)%string = String a (s1 ++ s2 ++ s3)%string).
  rewrite IH. reflexivity.
Qed.

Lemma prefix_char c a s :
  String.prefix (String c "") (String a s) = Ascii.eqb c a.
Proof.
  cbn [String.prefix]. destruct (ascii_dec c a) as [->|Hne].
  - rewrite Ascii.eqb_refl. destruct s; reflexivity.
  - symmetry. apply Ascii.eqb_neq. exact Hne.
Qed.

Lemma contains_char c s : Str.contains (String c "") s = occurs c s.
Proof.
  induction s as [|a s IH]; [reflexivity|].
  cbn [Str.contains occurs]. rewrite prefix_char, IH.
  destruct (Ascii.eqb c a); reflexivity.
Qed.

Lemma split_char_first c cur s :
  StrSplit.first_piece (StrSplit.split_go (String c "") 0 cur s) = (cur ++ before c s)%string.
Proof.
  revert cur. induction s as [|a s IH]; intros cur.
  - cbn. rewrite string_app_nil_r. reflexivity.
  - cbn [StrSplit.split_go before]. rewrite prefix_char.
    destruct (Ascii.eqb c a).
    + cbn. rewrite string_app_nil_r. reflexivity.
    + rewrite IH, string_app_assoc. reflexivity.
Qed.

Lemma first_piece_split c s :
  StrSplit.first_piece (StrSplit.split (String c "") s) = before c s.
Proof. unfold StrSplit.split. rewrite split_char_first. reflexivity. Qed.

Lemma before_stops c s : occurs c (before c s) = false.
Proof.
  induction s as [|a s IH]; [reflexivity|]. cbn [before].
  destruct (Ascii.eqb c a) eqn:Hca; [reflexivity|]. cbn [occurs]. rewrite Hca, IH. reflexivity.
Qed.

Lemma before_keeps_absence c d s : occurs c s = false -> occurs c (before d s) = false.
Proof.
  induction s as [|a s IH]; [reflexivity|]. cbn [occurs before]. intros H.
  apply orb_false_elim in H as [Hca Hs].
  destruct (Ascii.eqb d a); [reflexivity|]. cbn [occurs]. rewrite Hca, (IH Hs). reflexivity.
Qed.

Lemma before_absent c s : occurs c s = false -> before c s = s.
Proof.
  induction s as [|a s IH]; [reflexivity|]. cbn [occurs before]. intros H.
  apply orb_false_elim in H as [Hca Hs]. rewrite Hca, (IH Hs). reflexivity.
Qed.

(** X29. The identifier [download_endpoint] extracts from a URL, whatever
    the URL, contains neither "?" nor "&". *)
Theorem parsed_id_has_no_query url :
  Str.contains "?" (parse_video_id url) = false
  /\ Str.contains "&" (parse_video_id url) = false.
Proof.
  unfold parse_video_id. cbv zeta.
  set (candidate := if Str.contains "v=" url then _ else _).
  rewrite !first_piece_split, !contains_char. split.
  - apply before_keeps_absence, before_stops.
  - apply before_stops.
Qed.

Lemma split_go_absent sep cur s :
  Str.contains sep s = false ->
  StrSplit.split_go sep 0 cur s = [(cur ++ s)%string].
Proof.
  revert cur. induction s as [|a s IH]; intros cur Hc.
  - cbn. rewrite string_app_nil_r. reflexivity.
  - cbn [Str.contains] in Hc. cbn [StrSplit.split_go].
    destruct (String.prefix sep (String a s)); [discriminate|].
    rewrite (IH _ Hc), string_app_assoc. reflexivity.
Qed.

(** X30. An identifier without "v=", "?" and "&" survives the round trip:
    parsing the watch URL that [download] builds for it gives the
    identifier back. *)
Theorem video_url_round_trip video_id :
  Str.contains "v=" video_id = false ->
  Str.contains "?" video_id = false ->
  Str.contains "&" video_id = false ->
  parse_video_id (Downloader.video_url video_id) = video_id.
Proof.
  intros Hv Hq Ha. rewrite contains_char in Hq, Ha.
  unfold parse_video_id. cbv zeta.
  assert (Hurl : Str.contains "v=" (Downloader.video_url video_id) = true)
    by (destruct video_id; reflexivity).
  rewrite Hurl.
  assert (Hsplit : StrSplit.split "v=" (Downloader.video_url video_id)
                   = "https://www.youtube.com/watch?" :: StrSplit.split_go "v=" 0 "" video_id)
    by (destruct video_id; reflexivity).
  rewrite Hsplit, (split_go_absent "v=" "" video_id Hv).
  cbn [StrSplit.last_piece List.last String.append].
  rewrite !first_piece_split.
  change ("" ++ video_id)%string with video_id.
  rewrite (before_absent "&" video_id Ha), (before_absent "?" video_id Hq).
  apply before_absent. exact Ha.
Qed.

Lemma video_url_round_trip_witness :
  parse_video_id (Downloader.video_url "dQw4w9WgXcQ") = "dQw4w9WgXcQ".
Proof.
  apply (video_url_round_trip "dQw4w9WgXcQ").
  - reflexivity.
  - reflexivity.
  - reflexivity.
Defined.
